(** * Offload visualizer: a shallow embedding of [visualizer/offload_visualizer.c]

    The development follows the C file top-down: machine arithmetic, the
    data structures, the registry helpers, the HAL hooks
    ([visualizer_hal_start_output], [visualizer_hal_stop_output]), the
    visualizer operations ([visualizer_reset], [visualizer_set_parameter],
    [visualizer_process], [visualizer_command]) and then the properties. *)

From Stdlib Require Import ZArith Lia Bool.
From stdpp Require Import base list gmap.

Local Open Scope Z_scope.

(** ** Machine arithmetic *)

(** Conversion to [uint32_t], [uint8_t] and to [int32_t] (two's complement,
    the low 32 bits reinterpreted, as gcc and clang define it). *)
Definition u32 (z : Z) : Z := z mod 2 ^ 32.
Definition u8 (z : Z) : Z := z mod 2 ^ 8.
Definition s32 (z : Z) : Z := (z + 2 ^ 31) mod 2 ^ 32 - 2 ^ 31.

Definition is_int16 (z : Z) : Prop := - 32768 <= z <= 32767.

(** [__builtin_clz] on a 32-bit operand.  The builtin leaves the operand 0
    undefined; the ARM targets of this HAL compile it to the CLZ instruction,
    which yields 32, the value the scan below starts from. *)
Definition builtin_clz (x : Z) : Z :=
  if x <=? 0 then 32 else 31 - Z.log2 x.

(** ** Constants *)

Definition EFFECT_STATE_UNINITIALIZED : Z := 0.
Definition EFFECT_STATE_INITIALIZED : Z := 1.
Definition EFFECT_STATE_ACTIVE : Z := 2.

Definition MAX_STALL_TIME_MS : Z := 1000.
Definition CAPTURE_BUF_SIZE : Z := 65536.
Definition DSP_OUTPUT_LATENCY_MS : Z := 0.

(** From [errno.h]. *)
Definition EINVAL : Z := 22.
Definition ENOSYS : Z := 38.
Definition ENODATA : Z := 61.

(** From [audio_effects/effect_visualizer.h] and [hardware/audio_effect.h],
    which the file includes. *)
Definition VISUALIZER_CAPTURE_SIZE_MAX : Z := 1024.
Definition VISUALIZER_SCALING_MODE_NORMALIZED : Z := 0.
Definition VISUALIZER_SCALING_MODE_AS_PLAYED : Z := 1.
Definition VISUALIZER_PARAM_CAPTURE_SIZE : Z := 0.
Definition VISUALIZER_PARAM_SCALING_MODE : Z := 1.
Definition VISUALIZER_PARAM_LATENCY : Z := 2.
Definition EFFECT_CMD_FIRST_PROPRIETARY : Z := 65536.
Definition VISUALIZER_CMD_CAPTURE : Z := EFFECT_CMD_FIRST_PROPRIETARY.

(** ** Outcomes of a call

    A call returns ([Done]), touches memory outside the object it addresses
    ([Fault]: undefined behaviour in C), or stops on a failed [assert]
    ([Abort]). *)
Inductive outcome (A : Type) : Type :=
| Done (a : A)
| Fault
| Abort.
Arguments Done {A} a.
Arguments Fault {A}.
Arguments Abort {A}.

Definition obind {A B : Type} (c : outcome A) (k : A -> outcome B) : outcome B :=
  match c with
  | Done a => k a
  | Fault => Fault
  | Abort => Abort
  end.

Notation "'do' x <- c ; k" := (obind c (fun x => k))
  (at level 10, x name, c at level 100, k at level 200).

(** ** Data structures *)

Record timespec := mk_timespec { tv_sec : Z; tv_nsec : Z }.

(** [audio_buffer_t]: [frameCount] and the sample pointer ([raw] and [s16]
    are members of one union); [None] is the NULL pointer. *)
Record audio_buffer_t := mk_audio_buffer {
  frameCount : Z;
  raw : option (list Z)
}.

(** [s16[i]] *)
Definition s16_at (s16 : list Z) (i : nat) : outcome Z :=
  match s16 !! i with
  | Some s => Done s
  | None => Fault
  end.

(** [visualizer_context_t], with the fields of [effect_context_t] the
    modelled functions read or write: [config.inputCfg.samplingRate],
    [out_handle], [state] and [offload_enabled].  The list nodes are the
    lists of [lib_state] below; [itfe], [desc] and [ops] are fixed by
    [effect_lib_create]. *)
Record visualizer_context_t := mk_visualizer_context {
  samplingRate : Z;
  out_handle : Z;
  state : Z;
  offload_enabled : bool;
  capture_idx : Z;
  capture_size : Z;
  scaling_mode : Z;
  last_capture_idx : Z;
  latency : Z;
  buffer_update_time : timespec;
  capture_buf : list Z
}.

Definition set_capture_idx (v : Z) (c : visualizer_context_t) :=
  mk_visualizer_context (samplingRate c) (out_handle c) (state c)
    (offload_enabled c) v (capture_size c) (scaling_mode c)
    (last_capture_idx c) (latency c) (buffer_update_time c) (capture_buf c).
Definition set_capture_size (v : Z) (c : visualizer_context_t) :=
  mk_visualizer_context (samplingRate c) (out_handle c) (state c)
    (offload_enabled c) (capture_idx c) v (scaling_mode c)
    (last_capture_idx c) (latency c) (buffer_update_time c) (capture_buf c).
Definition set_scaling_mode (v : Z) (c : visualizer_context_t) :=
  mk_visualizer_context (samplingRate c) (out_handle c) (state c)
    (offload_enabled c) (capture_idx c) (capture_size c) v
    (last_capture_idx c) (latency c) (buffer_update_time c) (capture_buf c).
Definition set_last_capture_idx (v : Z) (c : visualizer_context_t) :=
  mk_visualizer_context (samplingRate c) (out_handle c) (state c)
    (offload_enabled c) (capture_idx c) (capture_size c) (scaling_mode c)
    v (latency c) (buffer_update_time c) (capture_buf c).
Definition set_latency (v : Z) (c : visualizer_context_t) :=
  mk_visualizer_context (samplingRate c) (out_handle c) (state c)
    (offload_enabled c) (capture_idx c) (capture_size c) (scaling_mode c)
    (last_capture_idx c) v (buffer_update_time c) (capture_buf c).
Definition set_buffer_update_time (v : timespec) (c : visualizer_context_t) :=
  mk_visualizer_context (samplingRate c) (out_handle c) (state c)
    (offload_enabled c) (capture_idx c) (capture_size c) (scaling_mode c)
    (last_capture_idx c) (latency c) v (capture_buf c).
Definition set_capture_buf (v : list Z) (c : visualizer_context_t) :=
  mk_visualizer_context (samplingRate c) (out_handle c) (state c)
    (offload_enabled c) (capture_idx c) (capture_size c) (scaling_mode c)
    (last_capture_idx c) (latency c) (buffer_update_time c) v.

(** [buffer_update_time.tv_sec = 0] *)
Definition clear_tv_sec (t : timespec) : timespec := mk_timespec 0 (tv_nsec t).

(** [output_context_t]: the io handle and the effects attached to the
    output, by their addresses, in list order. *)
Record output_context_t := mk_output_context {
  handle : Z;
  effects_list : list Z
}.

(** The globals of the library.  [created_effects_list] links the effect
    contexts themselves, so it is modelled as the list of the contexts with
    their addresses (what [effect_handle_t] points to), in list order. *)
Record lib_state := mk_lib_state {
  created_effects_list : list (Z * visualizer_context_t);
  active_outputs_list : list output_context_t;
  exit_thread : bool;
  thread_status : Z
}.

(** ** Local functions *)

(** State after [init_once]. *)
Definition init_once : lib_state := mk_lib_state [] [] false (-1).

Fixpoint effect_exists (l : list (Z * visualizer_context_t)) (context : Z) : bool :=
  match l with
  | [] => false
  | (a, _) :: l' => if a =? context then true else effect_exists l' context
  end.

(** [*context] for a context of [created_effects_list]. *)
Fixpoint deref (l : list (Z * visualizer_context_t)) (context : Z)
    : option visualizer_context_t :=
  match l with
  | [] => None
  | (a, c) :: l' => if a =? context then Some c else deref l' context
  end.

(** [*context = v] *)
Fixpoint assign (l : list (Z * visualizer_context_t)) (context : Z)
    (v : visualizer_context_t) : list (Z * visualizer_context_t) :=
  match l with
  | [] => []
  | (a, c) :: l' =>
      if a =? context then (a, v) :: l' else (a, c) :: assign l' context v
  end.

Fixpoint get_output (l : list output_context_t) (output : Z)
    : option output_context_t :=
  match l with
  | [] => None
  | out_ctxt :: l' =>
      if handle out_ctxt =? output then Some out_ctxt else get_output l' output
  end.

(** [list_remove(&out_ctxt->outputs_list_node)] for the node [get_output]
    found: the first one with that handle. *)
Fixpoint list_remove_output (l : list output_context_t) (output : Z)
    : list output_context_t :=
  match l with
  | [] => []
  | out_ctxt :: l' =>
      if handle out_ctxt =? output then l'
      else out_ctxt :: list_remove_output l' output
  end.

(** ** Interface from audio HAL *)

(** The loop of [visualizer_hal_start_output] over [created_effects_list]. *)
Fixpoint attach_created (l : list (Z * visualizer_context_t)) (output : Z)
    (effects : list Z) : list Z :=
  match l with
  | [] => effects
  | (a, fx_ctxt) :: l' =>
      attach_created l' output
        (if out_handle fx_ctxt =? output then effects ++ [a] else effects)
  end.

(** [ret] is declared without an initializer and assigned only on the
    failure path: [ret_uninit] stands for the indeterminate value it holds
    otherwise.  [pthread_create_status] is what [pthread_create] returns.
    [lib_init] returns [init_status], which [init_once] sets to 0. *)
Definition visualizer_hal_start_output (ret_uninit pthread_create_status : Z)
    (output : Z) (st : lib_state) : Z * lib_state :=
  let ret := ret_uninit in
  match get_output (active_outputs_list st) output with
  | Some _ => (- ENOSYS, st)
  | None =>
      let out_ctxt :=
        mk_output_context output
          (attach_created (created_effects_list st) output []) in
      let '(exit_thread', thread_status') :=
        match active_outputs_list st with
        | [] => (false, pthread_create_status)
        | _ :: _ => (exit_thread st, thread_status st)
        end in
      (ret, mk_lib_state (created_effects_list st)
              (active_outputs_list st ++ [out_ctxt])
              exit_thread' thread_status')
  end.

Definition visualizer_hal_stop_output (ret_uninit : Z) (output : Z)
    (st : lib_state) : Z * lib_state :=
  let ret := ret_uninit in
  match get_output (active_outputs_list st) output with
  | None => (- ENOSYS, st)
  | Some out_ctxt =>
      let outputs := list_remove_output (active_outputs_list st) output in
      let '(exit_thread', thread_status') :=
        match outputs with
        | [] =>
            if thread_status st =? 0 then (true, -1)
            else (exit_thread st, thread_status st)
        | _ :: _ => (exit_thread st, thread_status st)
        end in
      (ret, mk_lib_state (created_effects_list st) outputs
              exit_thread' thread_status')
  end.

(** ** Memory blocks

    A block is the list of its bytes; [off] is a byte offset into it.  A
    length is a [size_t]: a negative [int32_t] converts to a length no block
    has. *)
Definition mem_read (obj : list Z) (off n : Z) : outcome (list Z) :=
  if (0 <=? off) && (0 <=? n) && (off + n <=? Z.of_nat (length obj)) then
    Done (take (Z.to_nat n) (drop (Z.to_nat off) obj))
  else Fault.

Definition mem_write (obj : list Z) (off : Z) (bytes : list Z) : outcome (list Z) :=
  if (0 <=? off) && (off + Z.of_nat (length bytes) <=? Z.of_nat (length obj)) then
    Done (take (Z.to_nat off) obj ++ bytes
            ++ drop (Z.to_nat off + length bytes) obj)
  else Fault.

(** [memcpy(dst + doff, src + soff, n)] *)
Definition memcpy (dst : list Z) (doff : Z) (src : list Z) (soff n : Z)
    : outcome (list Z) :=
  do bytes <- mem_read src soff n;
  mem_write dst doff bytes.

(** [memset(dst + doff, c, n)] *)
Definition memset (dst : list Z) (doff : Z) (c n : Z) : outcome (list Z) :=
  if 0 <=? n then mem_write dst doff (replicate (Z.to_nat n) c) else Fault.

(** ** Visualizer operations *)

Definition visualizer_reset (visu_ctxt : visualizer_context_t)
    : Z * visualizer_context_t :=
  let c := set_capture_idx 0 visu_ctxt in
  let c := set_last_capture_idx 0 c in
  let c := set_buffer_update_time (clear_tv_sec (buffer_update_time c)) c in
  let c := set_latency DSP_OUTPUT_LATENCY_MS c in
  let c := set_capture_buf (replicate (Z.to_nat CAPTURE_BUF_SIZE) 128) c in
  (0, c).

(** [effect_param_t]: [param] is [*(uint32_t * )p->data] and [value] is
    [*((uint32_t * )p->data + 1)], both [uint32_t]. *)
Record effect_param_t := mk_effect_param {
  psize : Z;
  vsize : Z;
  param : Z;
  value : Z
}.

Definition visualizer_set_parameter (visu_ctxt : visualizer_context_t)
    (p : effect_param_t) : Z * visualizer_context_t :=
  if negb (psize p =? 4) || negb (vsize p =? 4) then (- EINVAL, visu_ctxt)
  else if param p =? VISUALIZER_PARAM_CAPTURE_SIZE then
    (0, set_capture_size (value p) visu_ctxt)
  else if param p =? VISUALIZER_PARAM_SCALING_MODE then
    (0, set_scaling_mode (value p) visu_ctxt)
  else if param p =? VISUALIZER_PARAM_LATENCY then
    (0, visu_ctxt)
  else (- EINVAL, visu_ctxt).

(** *** [visualizer_process], lines 625-652: the capture scaling factor *)

(** The loop over the interleaved samples: [i] is the loop index and [n]
    the number of iterations left. *)
Fixpoint scan_peak (s16 : list Z) (i n : nat) (shift : Z) : outcome Z :=
  match n with
  | O => Done shift
  | S n' =>
      do smp <- s16_at s16 i;
      let smp := if smp <? 0 then - smp - 1 else smp in
      let clz := builtin_clz smp in
      scan_peak s16 (S i) n' (if shift >? clz then clz else shift)
  end.

(** [int len = inBuffer->frameCount * 2] keeps the low 32 bits; the
    [assert] of the other branch is taken as compiled in. *)
Definition process_shift (scaling_mode : Z) (frameCount : Z) (s16 : list Z)
    : outcome Z :=
  if scaling_mode =? VISUALIZER_SCALING_MODE_NORMALIZED then
    let len := s32 (frameCount * 2) in
    do shift <- scan_peak s16 0 (Z.to_nat len) 32;
    let shift := 25 - shift in
    let shift := if shift <? 3 then 3 else shift in
    Done (shift + 1)
  else if scaling_mode =? VISUALIZER_SCALING_MODE_AS_PLAYED then
    Done 9
  else Abort.

(** *** [visualizer_process], lines 654-667: the loop over the frames

    [in_idx] is the loop index, [n] the number of iterations left
    ([frameCount - in_idx]); the result is [capt_idx] after the loop and
    the buffer. *)
Fixpoint capture_loop (s16 : list Z) (shift : Z) (in_idx n : nat)
    (capt_idx : Z) (buf : list Z) : outcome (Z * list Z) :=
  match n with
  | O => Done (capt_idx, buf)
  | S n' =>
      let capt_idx := if capt_idx >=? CAPTURE_BUF_SIZE then 0 else capt_idx in
      do l <- s16_at s16 (2 * in_idx);
      do r <- s16_at s16 (2 * in_idx + 1);
      let smp := l + r in
      let smp := Z.shiftr smp shift in
      let buf := <[Z.to_nat capt_idx := Z.lxor (u8 smp) 128]> buf in
      capture_loop s16 shift (S in_idx) n' (capt_idx + 1) buf
  end.

(** Lines 625-682, on the context [effect_exists] found.  [clock] is what
    [clock_gettime(CLOCK_MONOTONIC, _)] stores, [None] when it fails. *)
Definition process_context (visu_ctxt : visualizer_context_t)
    (frameCount : Z) (s16 : list Z) (clock : option timespec)
    : outcome (Z * visualizer_context_t) :=
  do shift <- process_shift (scaling_mode visu_ctxt) frameCount s16;
  do r <- capture_loop s16 shift 0 (Z.to_nat frameCount)
            (capture_idx visu_ctxt) (capture_buf visu_ctxt);
  let c := set_capture_buf (snd r) visu_ctxt in
  let c := set_capture_idx (fst r) c in
  let c :=
    match clock with
    | Some ts => set_buffer_update_time ts c
    | None => set_buffer_update_time (clear_tv_sec (buffer_update_time c)) c
    end in
  if negb (state c =? EFFECT_STATE_ACTIVE) then Done (- ENODATA, c)
  else Done (0, c).

(** [inBuffer] and [outBuffer] are pointers: [None] is NULL. *)
Definition visualizer_process (st : lib_state) (context : Z)
    (inBuffer outBuffer : option audio_buffer_t) (clock : option timespec)
    : outcome (Z * lib_state) :=
  if negb (effect_exists (created_effects_list st) context) then
    Done (- EINVAL, st)
  else
    match inBuffer, outBuffer with
    | Some inB, Some outB =>
        match raw inB, raw outB with
        | Some s16, Some _ =>
            if negb (frameCount inB =? frameCount outB)
               || (frameCount inB =? 0)
            then Done (- EINVAL, st)
            else
              match deref (created_effects_list st) context with
              | None => Fault
              | Some visu_ctxt =>
                  do r <- process_context visu_ctxt (frameCount inB) s16 clock;
                  Done (fst r,
                        mk_lib_state
                          (assign (created_effects_list st) context (snd r))
                          (active_outputs_list st) (exit_thread st)
                          (thread_status st))
              end
        | _, _ => Done (- EINVAL, st)
        end
    | _, _ => Done (- EINVAL, st)
    end.

(** *** [visualizer_command], [VISUALIZER_CMD_CAPTURE] *)

(** Lines 702-718: [(delta_ms, latency_ms)].  [time_t] and [long] hold the
    differences exactly; the assignment to the [uint32_t delta_ms] keeps the
    low 32 bits, and [latency_ms -= delta_ms] is computed on 32 bits. *)
Definition capture_delta (visu_ctxt : visualizer_context_t)
    (clock : option timespec) : Z * Z :=
  let latency_ms := s32 (latency visu_ctxt) in
  let delta_ms := 0 in
  if negb (tv_sec (buffer_update_time visu_ctxt) =? 0) then
    match clock with
    | Some ts =>
        let secs := tv_sec ts - tv_sec (buffer_update_time visu_ctxt) in
        let nsec := tv_nsec ts - tv_nsec (buffer_update_time visu_ctxt) in
        let secs := if nsec <? 0 then secs - 1 else secs in
        let nsec := if nsec <? 0 then nsec + 1000000000 else nsec in
        let delta_ms := u32 (secs * 1000 + nsec ÷ 1000000) in
        let latency_ms := s32 (latency_ms - delta_ms) in
        let latency_ms := if latency_ms <? 0 then 0 else latency_ms in
        (delta_ms, latency_ms)
    | None => (delta_ms, latency_ms)
    end
  else (delta_ms, latency_ms).

(** Lines 719-721: [delta_smp] and [capture_point], in [uint32_t]
    arithmetic, the result converted to [int32_t]. *)
Definition capture_point_of (visu_ctxt : visualizer_context_t)
    (latency_ms : Z) : Z :=
  let delta_smp := u32 (samplingRate visu_ctxt * latency_ms) / 1000 in
  s32 (u32 (capture_idx visu_ctxt - capture_size visu_ctxt - delta_smp)).

(** Lines 722-737: the two [memcpy]; the result is the offset of
    [pReplyData] in the reply block after them, and the block. *)
Definition capture_copy (visu_ctxt : visualizer_context_t)
    (capture_point : Z) (reply : list Z) : outcome (Z * list Z) :=
  let capture_size := s32 (capture_size visu_ctxt) in
  if capture_point <? 0 then
    let size := s32 (- capture_point) in
    let size := if size >? capture_size then capture_size else size in
    do reply <- memcpy reply 0 (capture_buf visu_ctxt)
                  (CAPTURE_BUF_SIZE + capture_point) size;
    let pReplyData := size in
    let capture_size := capture_size - size in
    let capture_point := 0 in
    do reply <- memcpy reply pReplyData (capture_buf visu_ctxt)
                  capture_point capture_size;
    Done (pReplyData, reply)
  else
    do reply <- memcpy reply 0 (capture_buf visu_ctxt)
                  capture_point capture_size;
    Done (0, reply).

(** Lines 742-750: the stall test, on the reply as [capture_copy] left it. *)
Definition capture_stall (visu_ctxt : visualizer_context_t) (delta_ms : Z)
    (pReplyData : Z) (reply : list Z)
    : outcome (visualizer_context_t * list Z) :=
  do r <-
    (if (last_capture_idx visu_ctxt =? capture_idx visu_ctxt)
        && negb (tv_sec (buffer_update_time visu_ctxt) =? 0)
     then
       if delta_ms >? MAX_STALL_TIME_MS then
         let c :=
           set_buffer_update_time
             (clear_tv_sec (buffer_update_time visu_ctxt)) visu_ctxt in
         do reply <- memset reply pReplyData 128 (capture_size c);
         Done (c, reply)
       else Done (visu_ctxt, reply)
     else Done (visu_ctxt, reply));
  Done (set_last_capture_idx (capture_idx (fst r)) (fst r), snd r).

(** [replySize] is [*replySize]; [pReplyData] is the reply block, [None]
    for NULL.  The result is the status, the context and the reply block. *)
Definition visualizer_command (visu_ctxt : visualizer_context_t)
    (cmdCode : Z) (replySize : Z) (pReplyData : option (list Z))
    (clock : option timespec)
    : outcome (Z * visualizer_context_t * option (list Z)) :=
  if cmdCode =? VISUALIZER_CMD_CAPTURE then
    match pReplyData with
    | None => Done (- EINVAL, visu_ctxt, None)
    | Some reply =>
        if negb (replySize =? capture_size visu_ctxt) then
          Done (- EINVAL, visu_ctxt, Some reply)
        else if negb (offload_enabled visu_ctxt) then
          Done (0, visu_ctxt, Some reply)
        else if state visu_ctxt =? EFFECT_STATE_ACTIVE then
          let '(delta_ms, latency_ms) := capture_delta visu_ctxt clock in
          let capture_point := capture_point_of visu_ctxt latency_ms in
          do r <- capture_copy visu_ctxt capture_point reply;
          do r <- capture_stall visu_ctxt delta_ms (fst r) (snd r);
          Done (0, fst r, Some (snd r))
        else
          do reply <- memset reply 0 128 (capture_size visu_ctxt);
          Done (0, visu_ctxt, Some reply)
    end
  else Done (- EINVAL, visu_ctxt, pReplyData).

(** The calls [visualizer_process] rejects. *)
Inductive rejected_call (st : lib_state) (context : Z)
    : option audio_buffer_t -> option audio_buffer_t -> Prop :=
| rejected_unknown inBuffer outBuffer :
    effect_exists (created_effects_list st) context = false ->
    rejected_call st context inBuffer outBuffer
| rejected_in_null outBuffer :
    rejected_call st context None outBuffer
| rejected_in_raw_null inB outBuffer :
    raw inB = None ->
    rejected_call st context (Some inB) outBuffer
| rejected_out_null inBuffer :
    rejected_call st context inBuffer None
| rejected_out_raw_null inBuffer outB :
    raw outB = None ->
    rejected_call st context inBuffer (Some outB)
| rejected_count_differs inB outB :
    frameCount inB <> frameCount outB ->
    rejected_call st context (Some inB) (Some outB)
| rejected_count_zero inB outBuffer :
    frameCount inB = 0 ->
    rejected_call st context (Some inB) outBuffer.

(** ** Reference definitions for the gain estimate *)

(** The magnitude the scan takes of a sample: [smp], or [-smp - 1] when
    [smp] is negative. *)
Definition magnitude (smp : Z) : Z := if smp <? 0 then - smp - 1 else smp.

(** The magnitude as the specification words it: [abs(sample)], with
    [-32768] mapped to [abs(sample) - 1 = 32767]. *)
Definition spec_abs (smp : Z) : Z :=
  if smp =? - 32768 then 32767 else Z.abs smp.

(** Minimum of a non-empty list. *)
Definition min_list (l : list Z) : Z :=
  match l with
  | [] => 0
  | x :: xs => foldr Z.min x xs
  end.

(** The reference gain: the minimum over the samples of the leading-zero
    count of their magnitude [mag], 25 minus it, at least 3, plus 1. *)
Definition reference_shift (mag : Z -> Z) (s16 : list Z) : Z :=
  Z.max 3 (25 - min_list (map (fun smp => builtin_clz (mag smp)) s16)) + 1.

(** Peak amplitude of a block. *)
Definition peak (s16 : list Z) : Z := foldr Z.max 0 (map Z.abs s16).

(** A block as [process] receives it: [frameCount] stereo frames, two
    interleaved samples each, and a count that fits [int len]. *)
Definition wf_block (frameCount : Z) (s16 : list Z) : Prop :=
  0 < frameCount /\ 2 * frameCount <= 2147483647 /\
  Z.of_nat (length s16) = 2 * frameCount.

(** The running minimum of the scan over a list of samples. *)
Definition scan_list (l : list Z) (shift : Z) : Z :=
  fold_left (fun acc smp => Z.min acc (builtin_clz (magnitude smp))) l shift.

(** ** Contexts as [effect_lib_create] and [effect_command] leave them *)

Definition set_state (v : Z) (c : visualizer_context_t) :=
  mk_visualizer_context (samplingRate c) (out_handle c) v
    (offload_enabled c) (capture_idx c) (capture_size c) (scaling_mode c)
    (last_capture_idx c) (latency c) (buffer_update_time c) (capture_buf c).
Definition set_offload_enabled (v : bool) (c : visualizer_context_t) :=
  mk_visualizer_context (samplingRate c) (out_handle c) (state c)
    v (capture_idx c) (capture_size c) (scaling_mode c)
    (last_capture_idx c) (latency c) (buffer_update_time c) (capture_buf c).

(** [visualizer_init] on the zeroed block [calloc] returns, for an effect
    created on output [ioId], then [state = EFFECT_STATE_INITIALIZED]. *)
Definition created_context (ioId : Z) : visualizer_context_t :=
  let c :=
    mk_visualizer_context 44100 ioId EFFECT_STATE_UNINITIALIZED false
      0 VISUALIZER_CAPTURE_SIZE_MAX VISUALIZER_SCALING_MODE_NORMALIZED
      0 0 (mk_timespec 0 0) (replicate (Z.to_nat CAPTURE_BUF_SIZE) 0) in
  set_state EFFECT_STATE_INITIALIZED (snd (visualizer_reset c)).

(** The invariant of the data model on the capture window size. *)
Definition capture_size_ok (c : visualizer_context_t) : Prop :=
  capture_size c <= CAPTURE_BUF_SIZE.

(** ** Reference definitions for the ring buffer *)

(** The byte written for a stereo frame: the sum of left and right, shifted
    right arithmetically, truncated to 8 bits, XORed with 0x80. *)
Definition frame_byte (shift l r : Z) : Z :=
  Z.lxor (u8 (Z.shiftr (l + r) shift)) 128.

(** The write cursor at the first write of a block: a cursor left at the
    capacity wraps to 0. *)
Definition wrap_cursor (capt_idx : Z) : Z :=
  if capt_idx >=? CAPTURE_BUF_SIZE then 0 else capt_idx.

(** The position in the ring of frame [k] of a block written from cursor
    [capt_idx]. *)
Definition ring_pos (capt_idx : Z) (k : nat) : nat :=
  Z.to_nat ((wrap_cursor capt_idx + Z.of_nat k) mod CAPTURE_BUF_SIZE).

(** The write cursor after a block of [n] frames. *)
Definition cursor_after (capt_idx : Z) (n : nat) : Z :=
  match n with
  | O => capt_idx
  | S n' => (wrap_cursor capt_idx + Z.of_nat n') mod CAPTURE_BUF_SIZE + 1
  end.

(** A context as the library keeps it: the ring has its capacity, the
    cursor is within it, the scaling mode is one of the two modes. *)
Definition wf_context (c : visualizer_context_t) : Prop :=
  length (capture_buf c) = Z.to_nat CAPTURE_BUF_SIZE /\
  0 <= capture_idx c <= CAPTURE_BUF_SIZE /\
  (scaling_mode c = VISUALIZER_SCALING_MODE_NORMALIZED \/
   scaling_mode c = VISUALIZER_SCALING_MODE_AS_PLAYED).

(** The context [process] leaves for a block of [n] frames: the ring, the
    write cursor and the time stamp are replaced, in this order. *)
Definition processed_context (visu_ctxt : visualizer_context_t)
    (buf : list Z) (n : nat) (clock : option timespec) : visualizer_context_t :=
  set_buffer_update_time
    (match clock with
     | Some ts => ts
     | None => clear_tv_sec (buffer_update_time visu_ctxt)
     end)
    (set_capture_idx (cursor_after (capture_idx visu_ctxt) n)
       (set_capture_buf buf visu_ctxt)).

(** Sample inputs: a library state with one created session at address 16
    on output 5, and a block of one loud stereo frame. *)
Definition one_session (c : visualizer_context_t) : lib_state :=
  mk_lib_state [(16, c)] [] false (-1).
Definition loud_frame : list Z := [16384; 16384].
Definition empty_buffer : audio_buffer_t := mk_audio_buffer 0 (Some []).

(** The library state with the one output 5 bound and no effect created;
    [status] is what [pthread_create] returned. *)
Definition output_5_bound (status : Z) : lib_state :=
  mk_lib_state [] [mk_output_context 5 []] false status.

(** ** Reference definitions for the capture window *)

(** A normalised [timespec]. *)
Definition wf_timespec (t : timespec) : Prop := 0 <= tv_nsec t < 1000000000.

(** Milliseconds elapsed since the last buffer update, as an integer
    without bound; 0 when the time stamp is unset or the clock cannot be
    read. *)
Definition elapsed_ms (visu_ctxt : visualizer_context_t)
    (clock : option timespec) : Z :=
  match clock with
  | Some ts =>
      if tv_sec (buffer_update_time visu_ctxt) =? 0 then 0
      else
        ((tv_sec ts - tv_sec (buffer_update_time visu_ctxt)) * 1000000000
         + (tv_nsec ts - tv_nsec (buffer_update_time visu_ctxt))) / 1000000
  | None => 0
  end.

(** [latency_samples] and [capture_point] as the specification words
    them, in integers without bound. *)
Definition spec_latency_samples (visu_ctxt : visualizer_context_t)
    (elapsed : Z) : Z :=
  samplingRate visu_ctxt * Z.max 0 (latency visu_ctxt - elapsed) / 1000.

Definition spec_capture_point (visu_ctxt : visualizer_context_t)
    (elapsed : Z) : Z :=
  capture_idx visu_ctxt - capture_size visu_ctxt
  - spec_latency_samples visu_ctxt elapsed.

(** The window of the specification: for a negative capture point,
    [min(-capture_point, window_size)] bytes from offset
    [capacity + capture_point], then the remaining bytes from offset 0;
    otherwise [window_size] bytes from [capture_point]. *)
Definition spec_window (visu_ctxt : visualizer_context_t)
    (capture_point : Z) : list Z :=
  if capture_point <? 0 then
    let size := Z.min (- capture_point) (capture_size visu_ctxt) in
    take (Z.to_nat size)
      (drop (Z.to_nat (CAPTURE_BUF_SIZE + capture_point)) (capture_buf visu_ctxt))
    ++ take (Z.to_nat (capture_size visu_ctxt - size)) (capture_buf visu_ctxt)
  else
    take (Z.to_nat (capture_size visu_ctxt))
      (drop (Z.to_nat capture_point) (capture_buf visu_ctxt)).

(** The stall test of the specification: the write cursor has not moved
    since the previous snapshot, the time stamp is set, and more than
    1000 ms have elapsed. *)
Definition stall_declared (visu_ctxt : visualizer_context_t)
    (clock : option timespec) : bool :=
  (last_capture_idx visu_ctxt =? capture_idx visu_ctxt)
  && negb (tv_sec (buffer_update_time visu_ctxt) =? 0)
  && (elapsed_ms visu_ctxt clock >? MAX_STALL_TIME_MS).

(** A session as the data model has it, at a snapshot: the ring has its
    capacity, the cursor and the window size are within it, the latency in
    samples fits 32 bits, the time stamps are normalised, the clock has not
    gone back, and the window does not start before the ring. *)
Definition session_in_range (visu_ctxt : visualizer_context_t)
    (clock : option timespec) : Prop :=
  length (capture_buf visu_ctxt) = Z.to_nat CAPTURE_BUF_SIZE /\
  0 <= capture_idx visu_ctxt <= CAPTURE_BUF_SIZE /\
  0 <= capture_size visu_ctxt <= CAPTURE_BUF_SIZE /\
  0 <= samplingRate visu_ctxt /\
  0 <= latency visu_ctxt < 2 ^ 31 /\
  samplingRate visu_ctxt * latency visu_ctxt < 2 ^ 32 /\
  wf_timespec (buffer_update_time visu_ctxt) /\
  match clock with Some ts => wf_timespec ts | None => True end /\
  0 <= elapsed_ms visu_ctxt clock /\
  - CAPTURE_BUF_SIZE
  <= spec_capture_point visu_ctxt (elapsed_ms visu_ctxt clock).

(** In addition less than 2^31 ms have elapsed: the 32-bit computation of
    the remaining latency does not wrap. *)
Definition snapshot_in_range (visu_ctxt : visualizer_context_t)
    (clock : option timespec) : Prop :=
  session_in_range visu_ctxt clock /\ elapsed_ms visu_ctxt clock < 2 ^ 31.

(** ** Sample sessions for the capture command *)

(** An Active session with offload enabled, a window of 4 bytes and the
    ring [ring]. *)
Definition sample_session (capture_idx last_capture_idx : Z)
    (buffer_update_time : timespec) (ring : list Z) : visualizer_context_t :=
  mk_visualizer_context 44100 5 EFFECT_STATE_ACTIVE true
    capture_idx 4 VISUALIZER_SCALING_MODE_NORMALIZED last_capture_idx
    DSP_OUTPUT_LATENCY_MS buffer_update_time ring.

(** A ring holding [head] and silence after it. *)
Definition ring_of (head : list Z) : list Z :=
  head ++ replicate (Z.to_nat CAPTURE_BUF_SIZE - length head) 128.

(** The session after one block of 8 loud frames at time 100 s, not
    queried since. *)
Definition played_session : visualizer_context_t :=
  sample_session 8 0 (mk_timespec 100 0) (ring_of (replicate 8 192)).

(** The same session after a first snapshot at the cursor 8. *)
Definition queried_session : visualizer_context_t :=
  sample_session 8 8 (mk_timespec 100 0) (ring_of (replicate 8 192)).

(** A session queried at the cursor 2, less than the window of 4 bytes:
    the window starts at the end of the ring. *)
Definition wrapped_session : visualizer_context_t :=
  sample_session 2 2 (mk_timespec 100 0) (ring_of [192; 192]).

(** A session last updated at time 1 s whose ring starts with the bytes
    1 to 12. *)
Definition old_session : visualizer_context_t :=
  sample_session 12 0 (mk_timespec 1 0)
    (ring_of [1; 2; 3; 4; 5; 6; 7; 8; 9; 10; 11; 12]).

(** A session whose capture window was set to 4 bytes by the client. *)
Definition small_window (c : visualizer_context_t) : visualizer_context_t :=
  snd (visualizer_set_parameter c
         (mk_effect_param 4 4 VISUALIZER_PARAM_CAPTURE_SIZE 4)).

(** ** The rest of the library: configuration, parameters, creation *)

(** From [system/audio.h] and [hardware/audio_effect.h]. *)
Definition AUDIO_CHANNEL_OUT_STEREO : Z := 3.
Definition AUDIO_FORMAT_PCM_16_BIT : Z := 1.
Definition EFFECT_BUFFER_ACCESS_WRITE : Z := 0.
Definition EFFECT_BUFFER_ACCESS_READ : Z := 1.
Definition EFFECT_BUFFER_ACCESS_ACCUMULATE : Z := 2.
Definition EFFECT_CONFIG_ALL : Z := 63.
Definition EFFECT_CMD_INIT : Z := 0.
Definition EFFECT_CMD_SET_CONFIG : Z := 1.
Definition EFFECT_CMD_RESET : Z := 2.
Definition EFFECT_CMD_ENABLE : Z := 3.
Definition EFFECT_CMD_DISABLE : Z := 4.
Definition EFFECT_CMD_SET_PARAM : Z := 5.
Definition EFFECT_CMD_GET_PARAM : Z := 8.
Definition EFFECT_CMD_SET_DEVICE : Z := 9.
Definition EFFECT_CMD_SET_VOLUME : Z := 10.
Definition EFFECT_CMD_SET_AUDIO_MODE : Z := 11.
Definition EFFECT_CMD_GET_CONFIG : Z := 14.
Definition EFFECT_CMD_OFFLOAD : Z := 20.

(** [sizeof(int)], [sizeof(uint32_t)], [sizeof(effect_param_t)] (three
    32-bit fields before the flexible [data]) and
    [sizeof(effect_offload_param_t)] (a [bool] and an [int]). *)
Definition sizeof_int : Z := 4.
Definition sizeof_uint32_t : Z := 4.
Definition sizeof_effect_param_t : Z := 12.
Definition sizeof_effect_offload_param_t : Z := 8.

Record buffer_provider_t := mk_buffer_provider {
  getBuffer : Z;
  releaseBuffer : Z;
  cookie : Z
}.

Record buffer_config_t := mk_buffer_config {
  cfg_buffer : audio_buffer_t;
  cfg_samplingRate : Z;
  cfg_channels : Z;
  cfg_bufferProvider : buffer_provider_t;
  cfg_format : Z;
  cfg_accessMode : Z;
  cfg_mask : Z
}.

Record effect_config_t := mk_effect_config {
  inputCfg : buffer_config_t;
  outputCfg : buffer_config_t
}.

(** The whole [effect_context_t] of a visualizer: [visu] as above, and the
    stored [config].  [config.inputCfg.samplingRate] lives in
    [samplingRate visu]; the field of that name in [stored_config] is not
    read. *)
Record effect_context_t := mk_effect_context {
  stored_config : effect_config_t;
  visu : visualizer_context_t
}.

Definition set_samplingRate (v : Z) (c : visualizer_context_t) :=
  mk_visualizer_context v (out_handle c) (state c)
    (offload_enabled c) (capture_idx c) (capture_size c) (scaling_mode c)
    (last_capture_idx c) (latency c) (buffer_update_time c) (capture_buf c).
Definition set_out_handle (v : Z) (c : visualizer_context_t) :=
  mk_visualizer_context (samplingRate c) v (state c)
    (offload_enabled c) (capture_idx c) (capture_size c) (scaling_mode c)
    (last_capture_idx c) (latency c) (buffer_update_time c) (capture_buf c).

Definition with_samplingRate (v : Z) (b : buffer_config_t) : buffer_config_t :=
  mk_buffer_config (cfg_buffer b) v (cfg_channels b) (cfg_bufferProvider b)
    (cfg_format b) (cfg_accessMode b) (cfg_mask b).

(** [context->config] read as a whole, and [context->config = v]. *)
Definition context_config (context : effect_context_t) : effect_config_t :=
  mk_effect_config
    (with_samplingRate (samplingRate (visu context))
       (inputCfg (stored_config context)))
    (outputCfg (stored_config context)).

Definition assign_config (v : effect_config_t) (context : effect_context_t)
    : effect_context_t :=
  mk_effect_context v
    (set_samplingRate (cfg_samplingRate (inputCfg v)) (visu context)).

(** *** Effect operations *)

(** [context->ops.reset] is [visualizer_reset]. *)
Definition set_config (context : effect_context_t) (config : effect_config_t)
    : Z * effect_context_t :=
  if negb (cfg_samplingRate (inputCfg config)
           =? cfg_samplingRate (outputCfg config)) then (- EINVAL, context)
  else if negb (cfg_channels (inputCfg config)
                =? cfg_channels (outputCfg config)) then (- EINVAL, context)
  else if negb (cfg_format (inputCfg config)
                =? cfg_format (outputCfg config)) then (- EINVAL, context)
  else if negb (cfg_channels (inputCfg config) =? AUDIO_CHANNEL_OUT_STEREO)
  then (- EINVAL, context)
  else if negb (cfg_accessMode (outputCfg config) =? EFFECT_BUFFER_ACCESS_WRITE)
          && negb (cfg_accessMode (outputCfg config)
                   =? EFFECT_BUFFER_ACCESS_ACCUMULATE)
  then (- EINVAL, context)
  else if negb (cfg_format (inputCfg config) =? AUDIO_FORMAT_PCM_16_BIT)
  then (- EINVAL, context)
  else
    let context := assign_config config context in
    (0, mk_effect_context (stored_config context)
          (snd (visualizer_reset (visu context)))).

Definition get_config (context : effect_context_t) : effect_config_t :=
  context_config context.

(** The fields [visualizer_init] writes in a [buffer_config_t]; [buffer]
    is left as it is. *)
Definition init_buffer_config (accessMode : Z) (b : buffer_config_t)
    : buffer_config_t :=
  mk_buffer_config (cfg_buffer b) 44100 AUDIO_CHANNEL_OUT_STEREO
    (mk_buffer_provider 0 0 0) AUDIO_FORMAT_PCM_16_BIT accessMode
    EFFECT_CONFIG_ALL.

(** The result of [set_config] is not looked at. *)
Definition visualizer_init (context : effect_context_t) : Z * effect_context_t :=
  let config :=
    mk_effect_config
      (init_buffer_config EFFECT_BUFFER_ACCESS_READ
         (inputCfg (context_config context)))
      (init_buffer_config EFFECT_BUFFER_ACCESS_ACCUMULATE
         (outputCfg (context_config context))) in
  let context := assign_config config context in
  let context :=
    mk_effect_context (stored_config context)
      (set_scaling_mode VISUALIZER_SCALING_MODE_NORMALIZED
         (set_capture_size VISUALIZER_CAPTURE_SIZE_MAX (visu context))) in
  (0, snd (set_config context (context_config context))).

(** What [visualizer_get_parameter] leaves in [*p] and [*size]: [r_value]
    is [*((uint32_t * )p->data + 1)], [None] when it is not written. *)
Record param_reply := mk_param_reply {
  r_status : Z;
  r_psize : Z;
  r_vsize : Z;
  r_param : Z;
  r_value : option Z;
  r_size : Z
}.

Definition visualizer_get_parameter (visu_ctxt : visualizer_context_t)
    (p : effect_param_t) : Z * param_reply :=
  let size := sizeof_effect_param_t + sizeof_uint32_t in
  if negb (psize p =? sizeof_uint32_t) then
    (0, mk_param_reply (- EINVAL) (psize p) (vsize p) (param p) None size)
  else if param p =? VISUALIZER_PARAM_CAPTURE_SIZE then
    (0, mk_param_reply 0 (psize p) sizeof_uint32_t (param p)
          (Some (capture_size visu_ctxt)) (size + sizeof_uint32_t))
  else if param p =? VISUALIZER_PARAM_SCALING_MODE then
    (0, mk_param_reply 0 (psize p) sizeof_uint32_t (param p)
          (Some (scaling_mode visu_ctxt)) (size + sizeof_uint32_t))
  else
    (0, mk_param_reply (- EINVAL) (psize p) (vsize p) (param p) None size).

(** *** Local functions on the attached effects *)

Fixpoint effect_attached (effects : list Z) (context : Z) : bool :=
  match effects with
  | [] => false
  | a :: effects' =>
      if a =? context then true else effect_attached effects' context
  end.

Definition add_effect_to_output (output : output_context_t) (context : Z)
    : output_context_t :=
  if effect_attached (effects_list output) context then output
  else mk_output_context (handle output) (effects_list output ++ [context]).

Fixpoint list_remove_effect (effects : list Z) (context : Z) : list Z :=
  match effects with
  | [] => []
  | a :: effects' =>
      if a =? context then effects'
      else a :: list_remove_effect effects' context
  end.

Definition remove_effect_from_output (output : output_context_t)
    (context : Z) : output_context_t :=
  mk_output_context (handle output)
    (list_remove_effect (effects_list output) context).

(** [out_ctxt = get_output(output); if (out_ctxt != NULL) f(out_ctxt)]:
    the output [get_output] finds is changed in place. *)
Fixpoint update_output (l : list output_context_t) (output : Z)
    (f : output_context_t -> output_context_t) : list output_context_t :=
  match l with
  | [] => []
  | out_ctxt :: l' =>
      if handle out_ctxt =? output then f out_ctxt :: l'
      else out_ctxt :: update_output l' output f
  end.

(** [list_remove(&context->effects_list_node)] *)
Fixpoint list_remove_created (l : list (Z * visualizer_context_t))
    (context : Z) : list (Z * visualizer_context_t) :=
  match l with
  | [] => []
  | (a, c) :: l' =>
      if a =? context then l' else (a, c) :: list_remove_created l' context
  end.




(** *** [capture_thread_loop], lines 352-367: a block read is processed

    [clock n] is what the [n]-th call of [clock_gettime] stores; the result
    carries the number of calls made. *)
Fixpoint process_effects (st : lib_state) (effects : list Z)
    (buf : audio_buffer_t) (clock : nat -> option timespec) (n : nat)
    : outcome (lib_state * nat) :=
  match effects with
  | [] => Done (st, n)
  | fx_ctxt :: effects' =>
      if negb (effect_exists (created_effects_list st) fx_ctxt) then Fault
      else
        do r <- visualizer_process st fx_ctxt (Some buf) (Some buf) (clock n);
        process_effects (snd r) effects' buf clock (S n)
  end.

Fixpoint process_outputs (st : lib_state) (outputs : list output_context_t)
    (buf : audio_buffer_t) (clock : nat -> option timespec) (n : nat)
    : outcome (lib_state * nat) :=
  match outputs with
  | [] => Done (st, n)
  | out_ctxt :: outputs' =>
      do r <- process_effects st (effects_list out_ctxt) buf clock n;
      process_outputs (fst r) outputs' buf clock (snd r)
  end.

Definition process_block (st : lib_state) (buf : audio_buffer_t)
    (clock : nat -> option timespec) : outcome lib_state :=
  do r <- process_outputs st (active_outputs_list st) buf clock 0;
  Done (fst r).

(** *** Effect library interface *)

(** [effect_uuid_t]; [memcmp] on two of them is 0 when all fields agree. *)
Record effect_uuid_t := mk_effect_uuid {
  timeLow : Z;
  timeMid : Z;
  timeHiAndVersion : Z;
  clockSeq : Z;
  node : list Z
}.

Fixpoint bytes_eqb (l1 l2 : list Z) : bool :=
  match l1, l2 with
  | [], [] => true
  | x :: l1', y :: l2' => (x =? y) && bytes_eqb l1' l2'
  | _, _ => false
  end.

Definition uuid_eqb (u v : effect_uuid_t) : bool :=
  (timeLow u =? timeLow v) && (timeMid u =? timeMid v)
  && (timeHiAndVersion u =? timeHiAndVersion v)
  && (clockSeq u =? clockSeq v) && bytes_eqb (node u) (node v).

(** [visualizer_descriptor.uuid]: 7a8044a0-1a71-11e3-a184-0002a5d5c51b. *)
Definition visualizer_uuid : effect_uuid_t :=
  mk_effect_uuid 2055226528 6769 4579 41348 [0; 2; 165; 213; 197; 27].

(** The library state with the part of the contexts [lib_state] leaves
    out: [lib_configs] holds the stored [config] of every created context,
    by its address. *)
Record effect_lib_state := mk_effect_lib_state {
  lib_globals : lib_state;
  lib_configs : gmap Z effect_config_t
}.

Definition with_created (l : list (Z * visualizer_context_t)) (st : lib_state)
    : lib_state :=
  mk_lib_state l (active_outputs_list st) (exit_thread st) (thread_status st).

Definition with_outputs (l : list output_context_t) (st : lib_state)
    : lib_state :=
  mk_lib_state (created_effects_list st) l (exit_thread st) (thread_status st).

(** [*context] as a whole, and [*context = v]. *)
Definition deref_context (s : effect_lib_state) (context : Z)
    : option effect_context_t :=
  match deref (created_effects_list (lib_globals s)) context,
        lib_configs s !! context with
  | Some visu_ctxt, Some config => Some (mk_effect_context config visu_ctxt)
  | _, _ => None
  end.

Definition assign_context (s : effect_lib_state) (context : Z)
    (v : effect_context_t) : effect_lib_state :=
  mk_effect_lib_state
    (with_created
       (assign (created_effects_list (lib_globals s)) context (visu v))
       (lib_globals s))
    (<[context := stored_config v]> (lib_configs s)).

(** The same when only fields of [visualizer_context_t] are written. *)
Definition assign_visu (s : effect_lib_state) (context : Z)
    (v : visualizer_context_t) : effect_lib_state :=
  mk_effect_lib_state
    (with_created
       (assign (created_effects_list (lib_globals s)) context v)
       (lib_globals s))
    (lib_configs s).

(** The block [calloc] returns. *)
Definition zeroed_context : effect_context_t :=
  let b := mk_buffer_config (mk_audio_buffer 0 None) 0 0
             (mk_buffer_provider 0 0 0) 0 0 0 in
  mk_effect_context (mk_effect_config b b)
    (mk_visualizer_context 0 0 0 false 0 0 0 0 0 (mk_timespec 0 0)
       (replicate (Z.to_nat CAPTURE_BUF_SIZE) 0)).

(** [uuid] is [None] for NULL, [pHandle] is [false] for NULL, [context] is
    the address [calloc] returns.  The result carries [*pHandle]. *)
Definition effect_lib_create (context : Z) (uuid : option effect_uuid_t)
    (ioId : Z) (pHandle : bool) (s : effect_lib_state)
    : Z * effect_lib_state * option Z :=
  match uuid with
  | None => (- EINVAL, s, None)
  | Some uuid =>
      if negb pHandle then (- EINVAL, s, None)
      else if negb (uuid_eqb uuid visualizer_uuid) then (- EINVAL, s, None)
      else
        let c := zeroed_context in
        let c :=
          mk_effect_context (stored_config c)
            (set_out_handle ioId
               (set_state EFFECT_STATE_UNINITIALIZED (visu c))) in
        let c := snd (visualizer_init c) in
        let c :=
          mk_effect_context (stored_config c)
            (set_state EFFECT_STATE_INITIALIZED (visu c)) in
        let st := lib_globals s in
        let st :=
          with_created (created_effects_list st ++ [(context, visu c)]) st in
        let st :=
          with_outputs
            (update_output (active_outputs_list st) ioId
               (fun out_ctxt => add_effect_to_output out_ctxt context)) st in
        (0, mk_effect_lib_state st (<[context := stored_config c]> (lib_configs s)),
         Some context)
  end.

Definition effect_lib_release (handle : Z) (s : effect_lib_state)
    : outcome (Z * effect_lib_state) :=
  let st := lib_globals s in
  if effect_exists (created_effects_list st) handle then
    match deref (created_effects_list st) handle with
    | None => Fault
    | Some context =>
        let st :=
          with_outputs
            (update_output (active_outputs_list st) (out_handle context)
               (fun out_ctxt => remove_effect_from_output out_ctxt handle))
            st in
        let st :=
          with_created (list_remove_created (created_effects_list st) handle)
            st in
        Done (0, mk_effect_lib_state st (delete handle (lib_configs s)))
    end
  else Done (- EINVAL, s).

(** *** Effect control interface *)

(** The stub [effect_process]. *)
Definition effect_process (s : effect_lib_state) (self : Z) : outcome Z :=
  if negb (effect_exists (created_effects_list (lib_globals s)) self) then
    Done (- EINVAL)
  else
    match deref (created_effects_list (lib_globals s)) self with
    | None => Fault
    | Some context =>
        if negb (state context =? EFFECT_STATE_ACTIVE) then Done (- EINVAL)
        else Done 0
    end.

(** [effect_offload_param_t] *)
Record effect_offload_param_t := mk_effect_offload_param {
  isOffload : bool;
  ioHandle : Z
}.

(** The block at [pCmdData], as each command casts it. *)
Record cmd_data := mk_cmd_data {
  as_config : effect_config_t;
  as_param : effect_param_t;
  as_offload : effect_offload_param_t
}.

(** What a command leaves at [pReplyData]. *)
Inductive reply_data :=
| ReplyUntouched
| ReplyInt (v : Z)
| ReplyConfig (c : effect_config_t)
| ReplyParam (p : param_reply)
| ReplyBytes (l : list Z).

Section EffectCommand.

(** [sizeof(effect_config_t)] depends on the width of the pointers in
    [buffer_config_t]. *)
Variable sizeof_effect_config_t : Z.

(** The commands that answer with an [int] share this guard. *)
Definition int_reply_expected (replySize : Z) (pReplyData : option (list Z))
    : bool :=
  match pReplyData with
  | None => false
  | Some _ => replySize =? sizeof_int
  end.

(** [EFFECT_CMD_OFFLOAD] after the guard. *)
Definition command_offload (st : lib_state) (self : Z)
    (context : visualizer_context_t) (offload_param : effect_offload_param_t)
    : lib_state :=
  let context := set_offload_enabled (isOffload offload_param) context in
  if out_handle context =? ioHandle offload_param then
    with_created (assign (created_effects_list st) self context) st
  else
    let outputs :=
      update_output (active_outputs_list st) (out_handle context)
        (fun out_ctxt => remove_effect_from_output out_ctxt self) in
    let outputs :=
      update_output outputs (ioHandle offload_param)
        (fun out_ctxt => add_effect_to_output out_ctxt self) in
    let context := set_out_handle (ioHandle offload_param) context in
    with_outputs outputs
      (with_created (assign (created_effects_list st) self context) st).

(** [self] is the handle, [pCmdData] and [pReplyData] are [None] for NULL,
    [replySize] is [*replySize] at the call. *)
Definition effect_command (s : effect_lib_state) (self : Z)
    (cmdCode cmdSize : Z) (pCmdData : option cmd_data)
    (replySize : Z) (pReplyData : option (list Z)) (clock : option timespec)
    : outcome (Z * effect_lib_state * reply_data) :=
  let st := lib_globals s in
  if negb (effect_exists (created_effects_list st) self) then
    Done (- EINVAL, s, ReplyUntouched)
  else
    match deref_context s self with
    | None => Fault
    | Some context =>
        if state (visu context) =? EFFECT_STATE_UNINITIALIZED then
          Done (- EINVAL, s, ReplyUntouched)
        else if cmdCode =? EFFECT_CMD_INIT then
          if negb (int_reply_expected replySize pReplyData) then
            Done (- EINVAL, s, ReplyUntouched)
          else
            let r := visualizer_init context in
            Done (0, assign_context s self (snd r), ReplyInt (fst r))
        else if cmdCode =? EFFECT_CMD_SET_CONFIG then
          match pCmdData with
          | None => Done (- EINVAL, s, ReplyUntouched)
          | Some cmd =>
              if negb (cmdSize =? sizeof_effect_config_t)
                 || negb (int_reply_expected replySize pReplyData)
              then Done (- EINVAL, s, ReplyUntouched)
              else
                let r := set_config context (as_config cmd) in
                Done (0, assign_context s self (snd r), ReplyInt (fst r))
          end
        else if cmdCode =? EFFECT_CMD_GET_CONFIG then
          match pReplyData with
          | None => Done (- EINVAL, s, ReplyUntouched)
          | Some _ =>
              if negb (replySize =? sizeof_effect_config_t) then
                Done (- EINVAL, s, ReplyUntouched)
              else if negb (offload_enabled (visu context)) then
                Done (- EINVAL, s, ReplyUntouched)
              else Done (0, s, ReplyConfig (get_config context))
          end
        else if cmdCode =? EFFECT_CMD_RESET then
          Done (0,
                assign_visu s self (snd (visualizer_reset (visu context))),
                ReplyUntouched)
        else if cmdCode =? EFFECT_CMD_ENABLE then
          if negb (int_reply_expected replySize pReplyData) then
            Done (- EINVAL, s, ReplyUntouched)
          else if negb (state (visu context) =? EFFECT_STATE_INITIALIZED) then
            Done (- ENOSYS, s, ReplyUntouched)
          else
            Done (0,
                  assign_visu s self
                    (set_state EFFECT_STATE_ACTIVE (visu context)),
                  ReplyInt 0)
        else if cmdCode =? EFFECT_CMD_DISABLE then
          if negb (int_reply_expected replySize pReplyData) then
            Done (- EINVAL, s, ReplyUntouched)
          else if negb (state (visu context) =? EFFECT_STATE_ACTIVE) then
            Done (- ENOSYS, s, ReplyUntouched)
          else
            Done (0,
                  assign_visu s self
                    (set_state EFFECT_STATE_INITIALIZED (visu context)),
                  ReplyInt 0)
        else if cmdCode =? EFFECT_CMD_GET_PARAM then
          match pCmdData, pReplyData with
          | Some cmd, Some _ =>
              if negb (cmdSize =? sizeof_effect_param_t + sizeof_uint32_t)
                 || (replySize
                     <? sizeof_effect_param_t + sizeof_uint32_t + sizeof_uint32_t)
              then Done (- EINVAL, s, ReplyUntouched)
              else if negb (offload_enabled (visu context)) then
                Done (- EINVAL, s, ReplyUntouched)
              else
                Done (0, s,
                      ReplyParam
                        (snd (visualizer_get_parameter (visu context)
                                (as_param cmd))))
          | _, _ => Done (- EINVAL, s, ReplyUntouched)
          end
        else if cmdCode =? EFFECT_CMD_SET_PARAM then
          match pCmdData with
          | None => Done (- EINVAL, s, ReplyUntouched)
          | Some cmd =>
              if negb (cmdSize
                       =? sizeof_effect_param_t + sizeof_uint32_t + sizeof_uint32_t)
                 || negb (int_reply_expected replySize pReplyData)
              then Done (- EINVAL, s, ReplyUntouched)
              else
                let r := visualizer_set_parameter (visu context) (as_param cmd) in
                Done (0, assign_visu s self (snd r), ReplyInt (fst r))
          end
        else if (cmdCode =? EFFECT_CMD_SET_DEVICE)
                || (cmdCode =? EFFECT_CMD_SET_VOLUME)
                || (cmdCode =? EFFECT_CMD_SET_AUDIO_MODE) then
          Done (0, s, ReplyUntouched)
        else if cmdCode =? EFFECT_CMD_OFFLOAD then
          match pCmdData with
          | None => Done (- EINVAL, s, ReplyUntouched)
          | Some cmd =>
              if negb (cmdSize =? sizeof_effect_offload_param_t)
                 || negb (int_reply_expected replySize pReplyData)
              then Done (- EINVAL, s, ReplyUntouched)
              else
                Done (0,
                      mk_effect_lib_state
                        (command_offload st self (visu context) (as_offload cmd))
                        (lib_configs s),
                      ReplyInt 0)
          end
        else if cmdCode >=? EFFECT_CMD_FIRST_PROPRIETARY then
          do r <- visualizer_command (visu context) cmdCode replySize
                    pReplyData clock;
          Done (fst (fst r), assign_visu s self (snd (fst r)),
                match snd r with
                | Some l => ReplyBytes l
                | None => ReplyUntouched
                end)
        else Done (- EINVAL, s, ReplyUntouched)
    end.

End EffectCommand.

(** ** Further reference definitions *)

Definition is_byte (b : Z) : Prop := 0 <= b < 256.

(** Milliseconds from the time stamp [t0] to the clock reading [t1]; a
    stamp with [tv_sec = 0] counts as unset. *)
Definition ms_between (t0 t1 : timespec) : Z :=
  if tv_sec t0 =? 0 then 0
  else ((tv_sec t1 - tv_sec t0) * 1000000000 + (tv_nsec t1 - tv_nsec t0))
       / 1000000.

(** A parameter block [visualizer_set_parameter] accepts. *)
Definition param_accepted (p : effect_param_t) : bool :=
  (psize p =? 4) && (vsize p =? 4)
  && ((param p =? VISUALIZER_PARAM_CAPTURE_SIZE)
      || (param p =? VISUALIZER_PARAM_SCALING_MODE)
      || (param p =? VISUALIZER_PARAM_LATENCY)).

(** An Active session with offload enabled and a window of one byte. *)
Definition listening_session : visualizer_context_t :=
  set_state EFFECT_STATE_ACTIVE
    (set_offload_enabled true (set_capture_size 1 (created_context 5))).

(** The fields of a session [visualizer_process] and the capture command
    never write. *)
Definition same_settings (c c' : visualizer_context_t) : Prop :=
  samplingRate c' = samplingRate c /\ out_handle c' = out_handle c /\
  state c' = state c /\ offload_enabled c' = offload_enabled c /\
  capture_size c' = capture_size c /\ scaling_mode c' = scaling_mode c /\
  latency c' = latency c.

(** A configuration [set_config] accepts: same rate, channels and format
    on both sides, stereo, 16-bit PCM, and an output that is written or
    accumulated. *)
Definition valid_config (config : effect_config_t) : Prop :=
  cfg_samplingRate (inputCfg config) = cfg_samplingRate (outputCfg config) /\
  cfg_channels (inputCfg config) = cfg_channels (outputCfg config) /\
  cfg_format (inputCfg config) = cfg_format (outputCfg config) /\
  cfg_channels (inputCfg config) = AUDIO_CHANNEL_OUT_STEREO /\
  (cfg_accessMode (outputCfg config) = EFFECT_BUFFER_ACCESS_WRITE \/
   cfg_accessMode (outputCfg config) = EFFECT_BUFFER_ACCESS_ACCUMULATE) /\
  cfg_format (inputCfg config) = AUDIO_FORMAT_PCM_16_BIT.

(** A stereo 16-bit configuration at [rate], and a mono one. *)
Definition stereo_config (rate : Z) : effect_config_t :=
  mk_effect_config
    (mk_buffer_config (mk_audio_buffer 0 None) rate AUDIO_CHANNEL_OUT_STEREO
       (mk_buffer_provider 0 0 0) AUDIO_FORMAT_PCM_16_BIT
       EFFECT_BUFFER_ACCESS_READ EFFECT_CONFIG_ALL)
    (mk_buffer_config (mk_audio_buffer 0 None) rate AUDIO_CHANNEL_OUT_STEREO
       (mk_buffer_provider 0 0 0) AUDIO_FORMAT_PCM_16_BIT
       EFFECT_BUFFER_ACCESS_WRITE EFFECT_CONFIG_ALL).

Definition mono_config (rate : Z) : effect_config_t :=
  mk_effect_config
    (mk_buffer_config (mk_audio_buffer 0 None) rate 1
       (mk_buffer_provider 0 0 0) AUDIO_FORMAT_PCM_16_BIT
       EFFECT_BUFFER_ACCESS_READ EFFECT_CONFIG_ALL)
    (mk_buffer_config (mk_audio_buffer 0 None) rate 1
       (mk_buffer_provider 0 0 0) AUDIO_FORMAT_PCM_16_BIT
       EFFECT_BUFFER_ACCESS_WRITE EFFECT_CONFIG_ALL).

(** The whole context of a created session with the configuration
    [stereo_config 48000] stored. *)
Definition sample_context : effect_context_t :=
  mk_effect_context (stereo_config 48000) (played_session).

(** The registry as the library keeps it: the created sessions have
    distinct addresses, the bound outputs distinct handles, and each bound
    output holds, without repetition, exactly the created sessions whose
    [out_handle] is its handle. *)
Definition registry_consistent (st : lib_state) : Prop :=
  NoDup (map fst (created_effects_list st)) /\
  NoDup (map handle (active_outputs_list st)) /\
  forall out_ctxt, In out_ctxt (active_outputs_list st) ->
    NoDup (effects_list out_ctxt) /\
    forall a, In a (effects_list out_ctxt) <->
      exists c, deref (created_effects_list st) a = Some c /\
                out_handle c = handle out_ctxt.

(** Every created session has its stored configuration. *)
Definition configs_cover (s : effect_lib_state) : Prop :=
  forall a c, deref (created_effects_list (lib_globals s)) a = Some c ->
    is_Some (lib_configs s !! a).

(** The bound outputs [outputs] hold the sessions that [sessions] reads:
    each output holds, without repetition, exactly the addresses at which
    [sessions] reads a session of that output. *)
Definition outputs_hold (sessions : Z -> option visualizer_context_t)
    (outputs : list output_context_t) : Prop :=
  forall out_ctxt, In out_ctxt outputs ->
    NoDup (effects_list out_ctxt) /\
    forall a, In a (effects_list out_ctxt) <->
      exists c, sessions a = Some c /\ out_handle c = handle out_ctxt.


(** ** Properties of the gain estimate *)

Lemma s32_small z : - 2 ^ 31 <= z < 2 ^ 31 -> s32 z = z.
Proof.
  intros H. unfold s32. rewrite Z.mod_small by lia. lia.
Qed.

Lemma s32_u32 z : s32 (u32 z) = s32 z.
Proof.
  unfold s32, u32.
  rewrite Zplus_mod_idemp_l. reflexivity.
Qed.

Lemma gtb_min a b : (if a >? b then b else a) = Z.min a b.
Proof. rewrite Z.gtb_ltb. destruct (Z.ltb_spec b a); lia. Qed.

Lemma builtin_clz_le_32 x : builtin_clz x <= 32.
Proof.
  unfold builtin_clz. destruct (Z.leb_spec x 0); [lia|].
  pose proof (Z.log2_nonneg x). lia.
Qed.

Lemma builtin_clz_antitone x y : x <= y -> builtin_clz y <= builtin_clz x.
Proof.
  intros H. unfold builtin_clz.
  destruct (Z.leb_spec x 0), (Z.leb_spec y 0); try lia.
  - pose proof (Z.log2_nonneg y). lia.
  - pose proof (Z.log2_le_mono x y H). lia.
Qed.

Lemma scan_peak_list s16 : forall n i shift,
  (i + n <= length s16)%nat ->
  scan_peak s16 i n shift = Done (scan_list (take n (drop i s16)) shift).
Proof.
  induction n as [|n IH]; intros i shift Hlen; [reflexivity|].
  destruct (lookup_lt_is_Some_2 s16 i) as [x Hx]; [lia|].
  cbn [scan_peak]. unfold s16_at. rewrite Hx. cbn [obind].
  rewrite gtb_min, IH by lia.
  rewrite (drop_S _ _ _ Hx). reflexivity.
Qed.

Lemma scan_list_le_acc l : forall shift, scan_list l shift <= shift.
Proof.
  induction l as [|x l IH]; intros shift; cbn; [lia|].
  etransitivity; [apply IH|]. lia.
Qed.

Lemma scan_list_upper l : forall shift x,
  x ∈ l -> scan_list l shift <= builtin_clz (magnitude x).
Proof.
  induction l as [|y l IH]; intros shift x Hx; [inversion Hx|].
  apply elem_of_cons in Hx as [->|Hx]; cbn.
  - etransitivity; [apply scan_list_le_acc|]. lia.
  - apply IH, Hx.
Qed.

Lemma scan_list_lower l : forall shift c,
  c <= shift ->
  (forall x, x ∈ l -> c <= builtin_clz (magnitude x)) ->
  c <= scan_list l shift.
Proof.
  induction l as [|y l IH]; intros shift c Hc Hall; cbn; [lia|].
  apply IH.
  - pose proof (Hall y ltac:(left)). lia.
  - intros x Hx. apply Hall. now right.
Qed.

Lemma foldr_min_acc l : forall a b,
  foldr Z.min (Z.min a b) l = Z.min b (foldr Z.min a l).
Proof.
  induction l as [|x l IH]; intros a b; cbn; [lia|]. rewrite IH. lia.
Qed.

Lemma scan_list_foldr l : forall shift,
  scan_list l shift
  = foldr Z.min shift (map (fun smp => builtin_clz (magnitude smp)) l).
Proof.
  induction l as [|x l IH]; intros shift; [reflexivity|].
  cbn. fold (scan_list l (Z.min shift (builtin_clz (magnitude x)))).
  rewrite IH, foldr_min_acc. reflexivity.
Qed.

Lemma scan_list_min_list l :
  l <> [] ->
  scan_list l 32 = min_list (map (fun smp => builtin_clz (magnitude smp)) l).
Proof.
  destruct l as [|x l]; [congruence|]. intros _.
  cbn. fold (scan_list l (Z.min 32 (builtin_clz (magnitude x)))).
  rewrite Z.min_r by apply builtin_clz_le_32.
  apply scan_list_foldr.
Qed.

Lemma process_shift_normalized fc s16 :
  wf_block fc s16 ->
  process_shift VISUALIZER_SCALING_MODE_NORMALIZED fc s16
  = Done (Z.max 3 (25 - scan_list s16 32) + 1).
Proof.
  intros (Hpos & Hmax & Hlen). unfold process_shift.
  rewrite Z.eqb_refl, s32_small by lia.
  rewrite scan_peak_list by lia. cbn [obind].
  rewrite drop_0, take_ge by lia.
  f_equal. destruct (Z.ltb_spec (25 - scan_list s16 32) 3); lia.
Qed.

Lemma peak_ge l x : x ∈ l -> Z.abs x <= peak l.
Proof.
  induction l as [|y l IH]; intros Hx; [inversion Hx|].
  apply elem_of_cons in Hx as [->|Hx]; unfold peak in *; cbn; [lia|].
  specialize (IH Hx). lia.
Qed.

Lemma peak_attained l : 0 < peak l -> exists x, x ∈ l /\ Z.abs x = peak l.
Proof.
  induction l as [|y l IH]; unfold peak in *; cbn; [lia|]. intros Hpos.
  destruct (Z.max_spec (Z.abs y) (foldr Z.max 0 (map Z.abs l))) as [[Hlt ->]|[Hle ->]].
  - destruct IH as (x & Hx & Hax); [lia|]. exists x. split; [now right|exact Hax].
  - exists y. split; [now left|reflexivity].
Qed.

Lemma magnitude_abs x : Z.abs x - 1 <= magnitude x <= Z.abs x.
Proof. unfold magnitude. destruct (Z.ltb_spec x 0); lia. Qed.

Lemma process_shift_as_played fc s16 :
  process_shift VISUALIZER_SCALING_MODE_AS_PLAYED fc s16 = Done 9.
Proof. reflexivity. Qed.

Lemma scan_list_peak_mono sA sB :
  peak sA < peak sB -> scan_list sB 32 <= scan_list sA 32.
Proof.
  intros Hlt.
  assert (Hpos : 0 < peak sB).
  { assert (0 <= peak sA); [|lia].
    unfold peak. destruct sA; cbn; lia. }
  destruct (peak_attained sB Hpos) as (b & Hb & Hab).
  apply scan_list_lower.
  - apply scan_list_le_acc.
  - intros a Ha. etransitivity; [apply (scan_list_upper sB 32 b Hb)|].
    apply builtin_clz_antitone.
    pose proof (peak_ge sA a Ha). pose proof (magnitude_abs a).
    pose proof (magnitude_abs b). lia.
Qed.

(** C3 (as amended): in Normalized mode the block with the smaller peak
    amplitude gets a shift less than or equal to the shift of the block
    with the larger peak amplitude (the louder block is scaled down more);
    in AsPlayed mode the shift is exactly 9 for every block. *)
Theorem C3_shift_monotone_in_peak fcA sA fcB sB :
  wf_block fcA sA -> wf_block fcB sB -> peak sA < peak sB ->
  (exists shA shB,
     process_shift VISUALIZER_SCALING_MODE_NORMALIZED fcA sA = Done shA /\
     process_shift VISUALIZER_SCALING_MODE_NORMALIZED fcB sB = Done shB /\
     shA <= shB) /\
  process_shift VISUALIZER_SCALING_MODE_AS_PLAYED fcA sA = Done 9 /\
  process_shift VISUALIZER_SCALING_MODE_AS_PLAYED fcB sB = Done 9.
Proof.
  intros HA HB Hlt. split; [|split; apply process_shift_as_played].
  eexists _, _. rewrite !process_shift_normalized by assumption.
  split; [reflexivity|]. split; [reflexivity|].
  pose proof (scan_list_peak_mono sA sB Hlt). lia.
Qed.

Lemma C3_shift_monotone_in_peak_witness :
  wf_block 1 [1; 1] /\ wf_block 1 [32767; 32767] /\
  peak [1; 1] < peak [32767; 32767] /\
  exists shA shB,
    process_shift VISUALIZER_SCALING_MODE_NORMALIZED 1 [1; 1] = Done shA /\
    process_shift VISUALIZER_SCALING_MODE_NORMALIZED 1 [32767; 32767] = Done shB /\
    shA <= shB.
Proof.
  assert (HA : wf_block 1 [1; 1]) by (unfold wf_block; cbn; lia).
  assert (HB : wf_block 1 [32767; 32767]) by (unfold wf_block; cbn; lia).
  assert (Hp : peak [1; 1] < peak [32767; 32767]) by (vm_compute; reflexivity).
  split; [exact HA|]. split; [exact HB|]. split; [exact Hp|].
  exact (proj1 (C3_shift_monotone_in_peak 1 [1; 1] 1 [32767; 32767] HA HB Hp)).
Defined.

(** C3 as stated fails: the quiet block [1; 1] gets shift 4, the loud
    block [32767; 32767] gets shift 9, and 4 is not at least 9. *)
Lemma C3_counterexample :
  ~ (forall fcA sA fcB sB shA shB,
       wf_block fcA sA -> wf_block fcB sB -> peak sA < peak sB ->
       process_shift VISUALIZER_SCALING_MODE_NORMALIZED fcA sA = Done shA ->
       process_shift VISUALIZER_SCALING_MODE_NORMALIZED fcB sB = Done shB ->
       shA >= shB).
Proof.
  intros H.
  assert (H49 : 4 >= 9); [|lia].
  apply (H 1 [1; 1] 1 [32767; 32767]).
  - unfold wf_block; cbn; lia.
  - unfold wf_block; cbn; lia.
  - vm_compute; reflexivity.
  - vm_compute; reflexivity.
  - vm_compute; reflexivity.
Qed.

(** C4 (as amended): for every non-empty stereo block in Normalized mode
    the shift is the reference gain taken with the magnitude [smp] for a
    non-negative sample and [abs(smp) - 1] for every negative sample (not
    only for -32768); in AsPlayed mode the shift is the constant 9. *)
Theorem C4_shift_is_reference fc s16 :
  wf_block fc s16 ->
  process_shift VISUALIZER_SCALING_MODE_NORMALIZED fc s16
  = Done (reference_shift magnitude s16) /\
  process_shift VISUALIZER_SCALING_MODE_AS_PLAYED fc s16 = Done 9.
Proof.
  intros Hwf. split; [|apply process_shift_as_played].
  rewrite process_shift_normalized by assumption.
  unfold reference_shift. rewrite scan_list_min_list; [reflexivity|].
  destruct Hwf as (Hpos & _ & Hlen). destruct s16; [cbn in Hlen; lia|congruence].
Qed.

Lemma C4_shift_is_reference_witness :
  wf_block 1 [-4096; 300] /\
  process_shift VISUALIZER_SCALING_MODE_NORMALIZED 1 [-4096; 300]
  = Done (reference_shift magnitude [-4096; 300]).
Proof.
  assert (H : wf_block 1 [-4096; 300]) by (unfold wf_block; cbn; lia).
  split; [exact H|].
  exact (proj1 (C4_shift_is_reference 1 [-4096; 300] H)).
Defined.

(** C4 as stated fails: on the 16-bit block [-4096; -4096] the code counts
    the leading zeros of 4095 (20, shift 6), the reference of the claim
    those of abs(-4096) = 4096 (19, shift 7). *)
Lemma C4_counterexample :
  ~ (forall fc s16,
       wf_block fc s16 -> Forall is_int16 s16 ->
       process_shift VISUALIZER_SCALING_MODE_NORMALIZED fc s16
       = Done (reference_shift spec_abs s16)).
Proof.
  intros H.
  assert (Hwf : wf_block 1 [-4096; -4096]) by (unfold wf_block; cbn; lia).
  assert (H16 : Forall is_int16 [-4096; -4096])
    by (repeat constructor; unfold is_int16; lia).
  specialize (H 1 [-4096; -4096] Hwf H16).
  assert (Hcode : process_shift VISUALIZER_SCALING_MODE_NORMALIZED 1 [-4096; -4096]
                  = Done 6) by (vm_compute; reflexivity).
  assert (Href : reference_shift spec_abs [-4096; -4096] = 7)
    by (vm_compute; reflexivity).
  rewrite Hcode, Href in H. discriminate H.
Qed.

(** ** Properties of [visualizer_set_parameter] *)

Lemma set_parameter_capture_size visu_ctxt v :
  visualizer_set_parameter visu_ctxt
    (mk_effect_param 4 4 VISUALIZER_PARAM_CAPTURE_SIZE v)
  = (0, set_capture_size v visu_ctxt).
Proof. reflexivity. Qed.

(** C7 (as amended): every well-formed set_parameter call naming the
    capture size is accepted and stores the requested size as it is, so
    the invariant [capture_size <= 65536] holds afterwards exactly when the
    requested size is at most 65536; no size is rejected. *)
Theorem C7_capture_size_stored_unchecked visu_ctxt v :
  visualizer_set_parameter visu_ctxt
    (mk_effect_param 4 4 VISUALIZER_PARAM_CAPTURE_SIZE v)
  = (0, set_capture_size v visu_ctxt) /\
  capture_size (snd (visualizer_set_parameter visu_ctxt
    (mk_effect_param 4 4 VISUALIZER_PARAM_CAPTURE_SIZE v))) = v /\
  (capture_size_ok (snd (visualizer_set_parameter visu_ctxt
     (mk_effect_param 4 4 VISUALIZER_PARAM_CAPTURE_SIZE v)))
   <-> v <= CAPTURE_BUF_SIZE).
Proof.
  rewrite set_parameter_capture_size. unfold capture_size_ok. cbn.
  split; [reflexivity|]. split; [reflexivity|]. reflexivity.
Qed.

(** C7 as stated fails: on a freshly created session (capture size 1024)
    the request for a capture size of 100000 returns 0 and leaves
    [capture_size = 100000], above the capacity 65536. *)
Lemma C7_counterexample :
  ~ (forall visu_ctxt p,
       param p = VISUALIZER_PARAM_CAPTURE_SIZE ->
       capture_size_ok visu_ctxt ->
       fst (visualizer_set_parameter visu_ctxt p) = 0 ->
       capture_size_ok (snd (visualizer_set_parameter visu_ctxt p))).
Proof.
  intros H.
  specialize (H (created_context 5)
                (mk_effect_param 4 4 VISUALIZER_PARAM_CAPTURE_SIZE 100000)).
  unfold capture_size_ok in H. cbn in H.
  unfold CAPTURE_BUF_SIZE, VISUALIZER_CAPTURE_SIZE_MAX in H.
  specialize (H eq_refl ltac:(lia) eq_refl). lia.
Qed.

(** C9: a well-formed set_parameter call naming the latency parameter
    returns success and leaves the whole session state as it was, whatever
    the value sent. *)
Theorem C9_latency_parameter_ignored visu_ctxt v :
  visualizer_set_parameter visu_ctxt
    (mk_effect_param 4 4 VISUALIZER_PARAM_LATENCY v)
  = (0, visu_ctxt).
Proof. reflexivity. Qed.

(** ** Properties of [visualizer_process] *)

Lemma deref_effect_exists l context c :
  deref l context = Some c -> effect_exists l context = true.
Proof.
  induction l as [|[a c'] l IH]; cbn; [discriminate|].
  destruct (a =? context); [reflexivity|exact IH].
Qed.

Lemma effect_exists_deref l context :
  effect_exists l context = true -> exists c, deref l context = Some c.
Proof.
  induction l as [|[a c'] l IH]; cbn; [discriminate|].
  destruct (a =? context); [eauto|exact IH].
Qed.

Lemma deref_assign l context c v :
  deref l context = Some c -> deref (assign l context v) context = Some v.
Proof.
  induction l as [|[a c'] l IH]; cbn; [discriminate|].
  destruct (a =? context) eqn:E; cbn; rewrite E; [reflexivity|exact IH].
Qed.

Lemma deref_assign_other l context other v :
  other <> context ->
  deref (assign l context v) other = deref l other.
Proof.
  intros Hne. induction l as [|[a c'] l IH]; cbn; [reflexivity|].
  destruct (a =? context) eqn:E; cbn.
  - apply Z.eqb_eq in E. subst a.
    destruct (context =? other) eqn:E'; [apply Z.eqb_eq in E'; congruence|reflexivity].
  - destruct (a =? other); [reflexivity|exact IH].
Qed.

(** C10: when the context is not in the list of created effects, or the
    input or output buffer (or its sample pointer) is null, or the frame
    counts differ, or the frame count is zero, process returns -EINVAL and
    the library state (every session with its ring buffer, write cursor
    and time stamp) is the one before the call. *)
Theorem C10_process_rejects_without_effect st context inBuffer outBuffer clock :
  rejected_call st context inBuffer outBuffer ->
  visualizer_process st context inBuffer outBuffer clock = Done (- EINVAL, st).
Proof.
  intros H. unfold visualizer_process.
  destruct (effect_exists (created_effects_list st) context) eqn:Hex; cbn [negb];
    [|reflexivity].
  destruct inBuffer as [inB|]; [|reflexivity].
  destruct outBuffer as [outB|]; [|destruct (raw inB); reflexivity].
  destruct (raw inB) as [s16|] eqn:Hin; [|reflexivity].
  destruct (raw outB) as [o16|] eqn:Hout; [|reflexivity].
  inversion H; subst; try congruence.
  - destruct (Z.eqb_spec (frameCount inB) (frameCount outB)); [congruence|reflexivity].
  - match goal with Hz : frameCount inB = 0 |- _ => rewrite Hz end.
    rewrite orb_true_r. reflexivity.
Qed.

Lemma C10_process_rejects_without_effect_witness :
  rejected_call (one_session (created_context 5)) 16
    (Some empty_buffer) (Some empty_buffer) /\
  visualizer_process (one_session (created_context 5)) 16
    (Some empty_buffer) (Some empty_buffer) (Some (mk_timespec 7 0))
  = Done (- EINVAL, one_session (created_context 5)).
Proof.
  assert (H : rejected_call (one_session (created_context 5)) 16
                (Some empty_buffer) (Some empty_buffer))
    by (apply rejected_count_zero; reflexivity).
  split; [exact H|].
  exact (C10_process_rejects_without_effect _ 16 _ _ (Some (mk_timespec 7 0)) H).
Defined.

Lemma wrap_cursor_range c :
  0 <= c <= CAPTURE_BUF_SIZE -> 0 <= wrap_cursor c < CAPTURE_BUF_SIZE.
Proof.
  unfold wrap_cursor, CAPTURE_BUF_SIZE. intros H.
  destruct (Z.geb_spec c 65536); lia.
Qed.

Lemma wrap_cursor_succ p k :
  0 <= p < CAPTURE_BUF_SIZE ->
  (wrap_cursor (p + 1) + k) mod CAPTURE_BUF_SIZE
  = (p + (k + 1)) mod CAPTURE_BUF_SIZE.
Proof.
  unfold wrap_cursor, CAPTURE_BUF_SIZE. intros H.
  destruct (Z.geb_spec (p + 1) 65536) as [Hge|Hlt].
  - replace (p + (k + 1)) with (k + 1 * 65536) by lia.
    rewrite Z.mod_add by lia. f_equal.
  - f_equal. lia.
Qed.

Lemma ring_pos_distinct p m :
  0 <= p < CAPTURE_BUF_SIZE -> 0 < m < CAPTURE_BUF_SIZE ->
  (p + m) mod CAPTURE_BUF_SIZE <> p.
Proof.
  unfold CAPTURE_BUF_SIZE. intros Hp Hm.
  destruct (Z.lt_ge_cases (p + m) 65536) as [Hlt|Hge].
  - rewrite Z.mod_small by lia. lia.
  - replace (p + m) with (p + m - 65536 + 1 * 65536) by lia.
    rewrite Z.mod_add by lia. rewrite Z.mod_small by lia. lia.
Qed.

Lemma capture_loop_spec s16 shift : forall n i c buf,
  0 <= c <= CAPTURE_BUF_SIZE ->
  length buf = Z.to_nat CAPTURE_BUF_SIZE ->
  (2 * (i + n) <= length s16)%nat ->
  exists buf',
    capture_loop s16 shift i n c buf = Done (cursor_after c n, buf') /\
    length buf' = length buf /\
    (forall k l r,
       (k < n)%nat -> Z.of_nat n - Z.of_nat k <= CAPTURE_BUF_SIZE ->
       s16 !! (2 * (i + k))%nat = Some l ->
       s16 !! (2 * (i + k) + 1)%nat = Some r ->
       buf' !! ring_pos c k = Some (frame_byte shift l r)) /\
    (forall j,
       (forall k, (k < n)%nat -> ring_pos c k <> j) ->
       buf' !! j = buf !! j).
Proof.
  induction n as [|n IH]; intros i c buf Hc Hlen Hs.
  - exists buf. split; [reflexivity|]. split; [reflexivity|].
    split; [intros; lia|reflexivity].
  - pose proof (wrap_cursor_range c Hc) as Hp.
    destruct (lookup_lt_is_Some_2 s16 (2 * i)) as [l Hl]; [lia|].
    destruct (lookup_lt_is_Some_2 s16 (2 * i + 1)) as [r Hr]; [lia|].
    cbn [capture_loop]. fold (wrap_cursor c).
    unfold s16_at. rewrite Hl, Hr. cbn [obind].
    fold (frame_byte shift l r).
    set (p := wrap_cursor c) in *.
    set (buf1 := <[Z.to_nat p := frame_byte shift l r]> buf).
    destruct (IH (S i) (p + 1) buf1) as (buf' & Hrun & Hlen' & Hw & Hf).
    { lia. } { unfold buf1. rewrite length_insert. exact Hlen. } { lia. }
    assert (Hpos : forall k, ring_pos (p + 1) k = ring_pos c (S k)).
    { intros k. unfold ring_pos. fold p. rewrite wrap_cursor_succ by exact Hp.
      do 2 f_equal. lia. }
    assert (Hp0 : ring_pos c 0 = Z.to_nat p).
    { unfold ring_pos. fold p. rewrite Z.add_0_r, Z.mod_small by lia. reflexivity. }
    exists buf'. split; [|split; [|split]].
    + rewrite Hrun. do 2 f_equal. destruct n as [|n']; cbn [cursor_after].
      * rewrite Z.add_0_r, Z.mod_small by lia. reflexivity.
      * rewrite wrap_cursor_succ by exact Hp. do 2 f_equal. lia.
    + rewrite Hlen'. unfold buf1. apply length_insert.
    + intros k l' r' Hk Hlast Hl' Hr'. destruct k as [|k].
      * rewrite Nat.add_0_r in Hl', Hr'.
        assert (l' = l) by congruence. assert (r' = r) by congruence. subst l' r'.
        rewrite Hp0, Hf.
        -- unfold buf1. apply list_lookup_insert_eq. rewrite Hlen.
           unfold CAPTURE_BUF_SIZE in *. lia.
        -- intros k Hk'. rewrite Hpos. unfold ring_pos. fold p.
           intros Heq. apply Z2Nat.inj in Heq.
           ++ revert Heq. apply ring_pos_distinct; [exact Hp|].
              unfold CAPTURE_BUF_SIZE in *. lia.
           ++ apply Z.mod_pos_bound. unfold CAPTURE_BUF_SIZE. lia.
           ++ lia.
      * rewrite <- Hpos. apply Hw; [lia|lia| |].
        -- replace (2 * (S i + k))%nat with (2 * (i + S k))%nat by lia. exact Hl'.
        -- replace (2 * (S i + k) + 1)%nat with (2 * (i + S k) + 1)%nat by lia.
           exact Hr'.
    + intros j Hj. rewrite Hf.
      * unfold buf1. apply list_lookup_insert_ne.
        rewrite <- Hp0. apply Hj. lia.
      * intros k Hk. rewrite Hpos. apply Hj. lia.
Qed.

Lemma created_context_wf ioId : wf_context (created_context ioId).
Proof.
  unfold wf_context, created_context. cbn.
  rewrite length_replicate. unfold CAPTURE_BUF_SIZE. split; [reflexivity|].
  split; [lia|]. left; reflexivity.
Qed.

Lemma process_shift_done mode fc s16 :
  wf_block fc s16 ->
  mode = VISUALIZER_SCALING_MODE_NORMALIZED \/
  mode = VISUALIZER_SCALING_MODE_AS_PLAYED ->
  exists shift, process_shift mode fc s16 = Done shift.
Proof.
  intros Hwf [-> | ->].
  - rewrite process_shift_normalized by assumption. eauto.
  - rewrite process_shift_as_played. eauto.
Qed.

(** C5: for a valid block, process on a created session computes the
    shift, writes for every stereo frame the byte
    [((left + right) >> shift) mod 256 xor 0x80] at the advancing write
    cursor (wrapping at the capacity; every frame among the last 65536 of
    the block is in the ring afterwards, positions no frame falls on keep
    their byte), stores the new cursor and the time stamp (marked unset when
    the clock cannot be read), and only then looks at the state: the status
    is "no data" (-ENODATA) when the session is not Active and 0 when it
    is, with the same update in both cases.  The update is read off the
    session the call leaves: its ring, its write cursor, its time stamp
    and its state. *)
Theorem C5_process_updates_ring_then_checks_state
    st context visu_ctxt fc s16 o16 clock :
  deref (created_effects_list st) context = Some visu_ctxt ->
  wf_context visu_ctxt ->
  wf_block fc s16 ->
  exists shift st' visu_ctxt',
    process_shift (scaling_mode visu_ctxt) fc s16 = Done shift /\
    visualizer_process st context
      (Some (mk_audio_buffer fc (Some s16)))
      (Some (mk_audio_buffer fc (Some o16))) clock
    = Done (if state visu_ctxt =? EFFECT_STATE_ACTIVE then 0 else - ENODATA,
            st') /\
    deref (created_effects_list st') context = Some visu_ctxt' /\
    length (capture_buf visu_ctxt') = length (capture_buf visu_ctxt) /\
    (forall k l r,
       (k < Z.to_nat fc)%nat -> fc - Z.of_nat k <= CAPTURE_BUF_SIZE ->
       s16 !! (2 * k)%nat = Some l -> s16 !! (2 * k + 1)%nat = Some r ->
       capture_buf visu_ctxt' !! ring_pos (capture_idx visu_ctxt) k
       = Some (frame_byte shift l r)) /\
    (forall j,
       (forall k, (k < Z.to_nat fc)%nat -> ring_pos (capture_idx visu_ctxt) k <> j) ->
       capture_buf visu_ctxt' !! j = capture_buf visu_ctxt !! j) /\
    capture_idx visu_ctxt'
    = cursor_after (capture_idx visu_ctxt) (Z.to_nat fc) /\
    match clock with
    | Some ts => buffer_update_time visu_ctxt' = ts
    | None =>
        tv_sec (buffer_update_time visu_ctxt') = 0 /\
        tv_nsec (buffer_update_time visu_ctxt')
        = tv_nsec (buffer_update_time visu_ctxt)
    end /\
    state visu_ctxt' = state visu_ctxt.
Proof.
  intros Hderef (Hlen & Hidx & Hmode) Hwf.
  destruct (process_shift_done _ _ _ Hwf Hmode) as (shift & Hshift).
  pose proof Hwf as (Hpos & Hmax & Hs).
  destruct (capture_loop_spec s16 shift (Z.to_nat fc) 0 (capture_idx visu_ctxt)
              (capture_buf visu_ctxt) Hidx Hlen) as (buf' & Hrun & Hlen' & Hw & Hf).
  { lia. }
  exists shift,
    (mk_lib_state
       (assign (created_effects_list st) context
          (processed_context visu_ctxt buf' (Z.to_nat fc) clock))
       (active_outputs_list st) (exit_thread st) (thread_status st)),
    (processed_context visu_ctxt buf' (Z.to_nat fc) clock).
  split; [exact Hshift|]. split.
  { unfold visualizer_process.
    rewrite (deref_effect_exists _ _ _ Hderef). cbn [negb raw frameCount].
    rewrite Z.eqb_refl. cbn [negb orb].
    destruct (Z.eqb_spec fc 0) as [?|_]; [lia|].
    rewrite Hderef. unfold process_context.
    rewrite Hshift. cbn [obind]. rewrite Hrun. cbn [obind fst snd].
    unfold processed_context.
    destruct clock as [ts|]; cbn [state set_buffer_update_time set_capture_idx
                                  set_capture_buf];
      destruct (state visu_ctxt =? EFFECT_STATE_ACTIVE); reflexivity. }
  split; [apply (deref_assign _ _ _ _ Hderef)|].
  change (capture_buf (processed_context visu_ctxt buf' (Z.to_nat fc) clock))
    with buf'.
  change (capture_idx (processed_context visu_ctxt buf' (Z.to_nat fc) clock))
    with (cursor_after (capture_idx visu_ctxt) (Z.to_nat fc)).
  change (state (processed_context visu_ctxt buf' (Z.to_nat fc) clock))
    with (state visu_ctxt).
  split; [exact Hlen'|]. split.
  { intros k l r Hk Hlast Hl Hr. apply Hw; try assumption. lia. }
  split; [exact Hf|]. split; [reflexivity|]. split; [|reflexivity].
  destruct clock as [ts|]; [reflexivity|]. split; reflexivity.
Qed.

Lemma C5_process_updates_ring_then_checks_state_witness :
  deref (created_effects_list (one_session (created_context 5))) 16
  = Some (created_context 5) /\
  wf_context (created_context 5) /\
  wf_block 1 loud_frame /\
  exists shift st' visu_ctxt',
    process_shift (scaling_mode (created_context 5)) 1 loud_frame = Done shift /\
    visualizer_process (one_session (created_context 5)) 16
      (Some (mk_audio_buffer 1 (Some loud_frame)))
      (Some (mk_audio_buffer 1 (Some loud_frame))) (Some (mk_timespec 100 0))
    = Done (- ENODATA, st') /\
    deref (created_effects_list st') 16 = Some visu_ctxt' /\
    capture_buf visu_ctxt' !! 0%nat = Some 192 /\
    capture_idx visu_ctxt' = 1 /\
    buffer_update_time visu_ctxt' = mk_timespec 100 0 /\
    state visu_ctxt' = EFFECT_STATE_INITIALIZED.
Proof.
  assert (Hd : deref (created_effects_list (one_session (created_context 5))) 16
               = Some (created_context 5)) by reflexivity.
  assert (Hc : wf_context (created_context 5)) by apply created_context_wf.
  assert (Hb : wf_block 1 loud_frame) by (unfold wf_block, loud_frame; cbn; lia).
  split; [exact Hd|]. split; [exact Hc|]. split; [exact Hb|].
  destruct (C5_process_updates_ring_then_checks_state
              (one_session (created_context 5)) 16 (created_context 5)
              1 loud_frame loud_frame (Some (mk_timespec 100 0)) Hd Hc Hb)
    as (shift & st' & visu_ctxt' & Hshift & Hrun & Hd' & _ & Hw & _ & Hidx
        & Hts & Hstate).
  exists shift, st', visu_ctxt'.
  split; [exact Hshift|]. split; [exact Hrun|]. split; [exact Hd'|].
  split; [|split; [exact Hidx|split; [exact Hts|exact Hstate]]].
  assert (Hs : shift = 9).
  { assert (E : process_shift (scaling_mode (created_context 5)) 1 loud_frame
                = Done 9) by (vm_compute; reflexivity).
    rewrite E in Hshift. congruence. }
  subst shift.
  exact (Hw 0%nat 16384 16384 ltac:(cbn; lia) ltac:(unfold CAPTURE_BUF_SIZE; lia)
           eq_refl eq_refl).
Defined.

(** ** Properties of the HAL hooks *)

Lemma get_output_handle l output out_ctxt :
  get_output l output = Some out_ctxt -> handle out_ctxt = output.
Proof.
  induction l as [|x l IH]; cbn; [discriminate|].
  destruct (Z.eqb_spec (handle x) output); [congruence|exact IH].
Qed.

Lemma get_output_app_new l output out_ctxt :
  get_output l output = None -> handle out_ctxt = output ->
  get_output (l ++ [out_ctxt]) output = Some out_ctxt.
Proof.
  intros Hnone Hh. induction l as [|x l IH]; cbn in *.
  - rewrite Hh, Z.eqb_refl. reflexivity.
  - destruct (handle x =? output); [discriminate|auto].
Qed.

Lemma list_remove_output_app_new l output out_ctxt :
  get_output l output = None -> handle out_ctxt = output ->
  list_remove_output (l ++ [out_ctxt]) output = l.
Proof.
  intros Hnone Hh. induction l as [|x l IH]; cbn in *.
  - rewrite Hh, Z.eqb_refl. reflexivity.
  - destruct (handle x =? output); [discriminate|]. f_equal. auto.
Qed.

(** The failure paths assign [ret]: the status is -ENOSYS and nothing
    changes. *)
Lemma start_output_already_started ret_uninit status output st out_ctxt :
  get_output (active_outputs_list st) output = Some out_ctxt ->
  visualizer_hal_start_output ret_uninit status output st = (- ENOSYS, st).
Proof. intros H. unfold visualizer_hal_start_output. rewrite H. reflexivity. Qed.

Lemma stop_output_not_started ret_uninit output st :
  get_output (active_outputs_list st) output = None ->
  visualizer_hal_stop_output ret_uninit output st = (- ENOSYS, st).
Proof. intros H. unfold visualizer_hal_stop_output. rewrite H. reflexivity. Qed.

(** The other paths change the lists as described and return [ret] as it
    was declared. *)
Lemma start_output_registers ret_uninit status output st :
  get_output (active_outputs_list st) output = None ->
  fst (visualizer_hal_start_output ret_uninit status output st) = ret_uninit /\
  get_output
    (active_outputs_list
       (snd (visualizer_hal_start_output ret_uninit status output st))) output
  = Some (mk_output_context output
            (attach_created (created_effects_list st) output [])).
Proof.
  intros H. unfold visualizer_hal_start_output. rewrite H.
  destruct (active_outputs_list st) eqn:E; cbn [fst snd active_outputs_list];
    (split; [reflexivity|]).
  - cbn. rewrite Z.eqb_refl. reflexivity.
  - rewrite <- E in *. apply get_output_app_new; [exact H|reflexivity].
Qed.

Lemma stop_output_unregisters ret_uninit output l out_ctxt cr ex ts :
  get_output l output = None -> handle out_ctxt = output ->
  fst (visualizer_hal_stop_output ret_uninit output
         (mk_lib_state cr (l ++ [out_ctxt]) ex ts)) = ret_uninit /\
  active_outputs_list
    (snd (visualizer_hal_stop_output ret_uninit output
            (mk_lib_state cr (l ++ [out_ctxt]) ex ts))) = l.
Proof.
  intros Hnone Hh. unfold visualizer_hal_stop_output.
  cbn [active_outputs_list].
  rewrite (get_output_app_new _ _ _ Hnone Hh).
  rewrite (list_remove_output_app_new _ _ _ Hnone Hh).
  destruct l; [destruct (thread_status _ =? 0)|]; split; reflexivity.
Qed.

(** C8: the first [visualizer_hal_start_output (5)] creates and registers
    the binding, and the following [visualizer_hal_stop_output (5)] removes
    it, but the status either call returns is the value the uninitialised
    local [ret] happens to hold, whatever it is: [- ENOSYS], the status of
    the failure path, is one such value. *)
Theorem C8_hooks_return_uninitialised_status ret_uninit status :
  visualizer_hal_start_output ret_uninit status 5 init_once
  = (ret_uninit, output_5_bound status) /\
  fst (visualizer_hal_stop_output ret_uninit 5 (output_5_bound status))
  = ret_uninit /\
  active_outputs_list
    (snd (visualizer_hal_stop_output ret_uninit 5 (output_5_bound status))) = [] /\
  visualizer_hal_start_output (- ENOSYS) status 5 init_once
  = (- ENOSYS, output_5_bound status) /\
  visualizer_hal_start_output (- ENOSYS) status 5 (output_5_bound status)
  = (- ENOSYS, output_5_bound status).
Proof.
  split; [reflexivity|].
  assert (Hstop :
    visualizer_hal_stop_output ret_uninit 5 (output_5_bound status)
    = (ret_uninit,
       mk_lib_state [] [] (if status =? 0 then true else false)
         (if status =? 0 then -1 else status))).
  { unfold visualizer_hal_stop_output, output_5_bound. cbn.
    destruct (status =? 0); reflexivity. }
  rewrite Hstop. repeat split; reflexivity.
Qed.

(** ** Properties of [visualizer_command] *)

Lemma mem_read_ok obj off n :
  0 <= off -> 0 <= n -> off + n <= Z.of_nat (length obj) ->
  mem_read obj off n = Done (take (Z.to_nat n) (drop (Z.to_nat off) obj)).
Proof.
  intros H1 H2 H3. unfold mem_read.
  destruct (Z.leb_spec 0 off); [|lia].
  destruct (Z.leb_spec 0 n); [|lia].
  destruct (Z.leb_spec (off + n) (Z.of_nat (length obj))); [|lia].
  reflexivity.
Qed.

Lemma mem_write_ok obj off bytes :
  0 <= off -> off + Z.of_nat (length bytes) <= Z.of_nat (length obj) ->
  mem_write obj off bytes
  = Done (take (Z.to_nat off) obj ++ bytes
            ++ drop (Z.to_nat off + length bytes) obj).
Proof.
  intros H1 H2. unfold mem_write.
  destruct (Z.leb_spec 0 off); [|lia].
  destruct (Z.leb_spec (off + Z.of_nat (length bytes)) (Z.of_nat (length obj)));
    [|lia].
  reflexivity.
Qed.

Lemma memset_whole reply n :
  Z.of_nat (length reply) = n ->
  memset reply 0 128 n = Done (replicate (length reply) 128).
Proof.
  intros H. subst n. unfold memset.
  destruct (Z.leb_spec 0 (Z.of_nat (length reply))); [|lia].
  rewrite Nat2Z.id.
  rewrite mem_write_ok; rewrite ?length_replicate; try lia.
  change (Z.to_nat 0) with 0%nat. rewrite take_0, Nat.add_0_l.
  rewrite drop_all, app_nil_r. reflexivity.
Qed.

(** With offload disabled the capture command returns before the state is
    looked at: the non offloaded visualizer has already written the reply. *)
Lemma command_offload_disabled visu_ctxt reply clock :
  offload_enabled visu_ctxt = false ->
  Z.of_nat (length reply) = capture_size visu_ctxt ->
  visualizer_command visu_ctxt VISUALIZER_CMD_CAPTURE
    (Z.of_nat (length reply)) (Some reply) clock
  = Done (0, visu_ctxt, Some reply).
Proof.
  intros Hoff Hsize. unfold visualizer_command.
  rewrite Z.eqb_refl, Hsize, Z.eqb_refl, Hoff. reflexivity.
Qed.

(** C6 (as amended): capture_snapshot with an output buffer of the
    configured capture window size, on a session that is not Active and
    has offload enabled, fills the whole buffer with 0x80 and returns
    success, whatever the ring buffer holds; with offload disabled it
    returns success and leaves the buffer as it is.  In both cases the
    session is left as it was. *)
Theorem C6_inactive_snapshot_is_silence visu_ctxt reply clock :
  Z.of_nat (length reply) = capture_size visu_ctxt ->
  (offload_enabled visu_ctxt = true ->
   state visu_ctxt <> EFFECT_STATE_ACTIVE ->
   visualizer_command visu_ctxt VISUALIZER_CMD_CAPTURE
     (Z.of_nat (length reply)) (Some reply) clock
   = Done (0, visu_ctxt, Some (replicate (length reply) 128))) /\
  (offload_enabled visu_ctxt = false ->
   visualizer_command visu_ctxt VISUALIZER_CMD_CAPTURE
     (Z.of_nat (length reply)) (Some reply) clock
   = Done (0, visu_ctxt, Some reply)).
Proof.
  intros Hsize. split.
  - intros Hoff Hstate. unfold visualizer_command.
    rewrite Z.eqb_refl, Hsize, Z.eqb_refl, Hoff. cbn [negb].
    destruct (Z.eqb_spec (state visu_ctxt) EFFECT_STATE_ACTIVE);
      [contradiction|].
    rewrite memset_whole by exact Hsize. reflexivity.
  - intros Hoff. apply command_offload_disabled; assumption.
Qed.

Lemma C6_inactive_snapshot_is_silence_witness :
  (offload_enabled (small_window (set_offload_enabled true (created_context 5)))
   = true /\
   state (small_window (set_offload_enabled true (created_context 5)))
   <> EFFECT_STATE_ACTIVE /\
   visualizer_command
     (small_window (set_offload_enabled true (created_context 5)))
     VISUALIZER_CMD_CAPTURE 4 (Some [1; 2; 3; 4]) None
   = Done (0, small_window (set_offload_enabled true (created_context 5)),
           Some [128; 128; 128; 128])) /\
  (offload_enabled (small_window (created_context 5)) = false /\
   visualizer_command (small_window (created_context 5))
     VISUALIZER_CMD_CAPTURE 4 (Some [1; 2; 3; 4]) None
   = Done (0, small_window (created_context 5), Some [1; 2; 3; 4])).
Proof.
  assert (Ho : offload_enabled
                 (small_window (set_offload_enabled true (created_context 5)))
               = true) by reflexivity.
  assert (Hs : state (small_window (set_offload_enabled true (created_context 5)))
               <> EFFECT_STATE_ACTIVE).
  { change (state (small_window (set_offload_enabled true (created_context 5))))
      with EFFECT_STATE_INITIALIZED. discriminate. }
  assert (Hd : offload_enabled (small_window (created_context 5)) = false)
    by reflexivity.
  split.
  - split; [exact Ho|]. split; [exact Hs|].
    exact (proj1 (C6_inactive_snapshot_is_silence
                    (small_window (set_offload_enabled true (created_context 5)))
                    [1; 2; 3; 4] None eq_refl) Ho Hs).
  - split; [exact Hd|].
    exact (proj2 (C6_inactive_snapshot_is_silence
                    (small_window (created_context 5))
                    [1; 2; 3; 4] None eq_refl) Hd).
Defined.

(** C6 as stated fails: a created session that is not Active and has
    offload disabled (as [effect_lib_create] leaves it) returns success
    and leaves the reply [1; 2; 3; 4] as it was. *)
Lemma C6_counterexample :
  ~ (forall visu_ctxt reply clock,
       state visu_ctxt <> EFFECT_STATE_ACTIVE ->
       Z.of_nat (length reply) = capture_size visu_ctxt ->
       exists visu_ctxt',
         visualizer_command visu_ctxt VISUALIZER_CMD_CAPTURE
           (Z.of_nat (length reply)) (Some reply) clock
         = Done (0, visu_ctxt', Some (replicate (length reply) 128))).
Proof.
  intros H.
  destruct (H (small_window (created_context 5)) [1; 2; 3; 4] None) as [c Hc].
  - change (state (small_window (created_context 5)))
      with EFFECT_STATE_INITIALIZED. discriminate.
  - reflexivity.
  - rewrite command_offload_disabled in Hc by reflexivity.
    injection Hc as _ Hr. discriminate Hr.
Qed.

(** *** The elapsed time and the capture point *)

Lemma elapsed_ms_code secs nsec :
  0 <= nsec < 1000000000 ->
  secs * 1000 + nsec ÷ 1000000 = (secs * 1000000000 + nsec) / 1000000.
Proof.
  intros H. rewrite Z.quot_div_nonneg by lia.
  replace (secs * 1000000000 + nsec) with (secs * 1000 * 1000000 + nsec) by lia.
  rewrite Z.div_add_l by lia. reflexivity.
Qed.

Lemma capture_delta_spec visu_ctxt clock :
  snapshot_in_range visu_ctxt clock ->
  capture_delta visu_ctxt clock
  = (elapsed_ms visu_ctxt clock,
     Z.max 0 (latency visu_ctxt - elapsed_ms visu_ctxt clock)).
Proof.
  intros [(_ & _ & _ & _ & Hlat & _ & Ht0 & Hts & He0 & _) He].
  unfold capture_delta, elapsed_ms in *.
  destruct (tv_sec (buffer_update_time visu_ctxt) =? 0); cbn [negb].
  { rewrite s32_small by lia. destruct clock; f_equal; lia. }
  destruct clock as [ts|]; [|rewrite s32_small by lia; f_equal; lia].
  unfold wf_timespec in *.
  set (ds := tv_sec ts - tv_sec (buffer_update_time visu_ctxt)) in *.
  set (dn := tv_nsec ts - tv_nsec (buffer_update_time visu_ctxt)) in *.
  assert (Hcode :
    (if dn <? 0 then ds - 1 else ds) * 1000
    + (if dn <? 0 then dn + 1000000000 else dn) ÷ 1000000
    = (ds * 1000000000 + dn) / 1000000).
  { destruct (Z.ltb_spec dn 0).
    - rewrite elapsed_ms_code by lia. f_equal. lia.
    - rewrite elapsed_ms_code by lia. reflexivity. }
  rewrite Hcode. set (e := (ds * 1000000000 + dn) / 1000000) in *.
  unfold u32. rewrite Z.mod_small by lia.
  rewrite (s32_small (latency visu_ctxt)) by lia.
  rewrite s32_small by lia.
  f_equal. destruct (Z.ltb_spec (latency visu_ctxt - e) 0); lia.
Qed.

Lemma capture_point_of_spec visu_ctxt clock :
  snapshot_in_range visu_ctxt clock ->
  capture_point_of visu_ctxt
    (Z.max 0 (latency visu_ctxt - elapsed_ms visu_ctxt clock))
  = spec_capture_point visu_ctxt (elapsed_ms visu_ctxt clock).
Proof.
  intros [(_ & Hidx & Hsize & Hrate & Hlat & Hmul & _ & _ & He0 & Hcp) He].
  unfold capture_point_of, spec_capture_point, spec_latency_samples in *.
  set (lat := Z.max 0 (latency visu_ctxt - elapsed_ms visu_ctxt clock)) in *.
  assert (Hprod : 0 <= samplingRate visu_ctxt * lat < 2 ^ 32).
  { split; [apply Z.mul_nonneg_nonneg; lia|].
    apply Z.le_lt_trans with (samplingRate visu_ctxt * latency visu_ctxt);
      [apply Z.mul_le_mono_nonneg_l; lia|exact Hmul]. }
  unfold u32 at 2. rewrite (Z.mod_small (samplingRate visu_ctxt * lat)) by lia.
  assert (0 <= samplingRate visu_ctxt * lat / 1000)
    by (apply Z.div_pos; lia).
  rewrite s32_u32. apply s32_small.
  unfold CAPTURE_BUF_SIZE in *. lia.
Qed.

(** *** The two copies and the stall test *)

Lemma length_window (buf : list Z) off n :
  0 <= off -> 0 <= n -> off + n <= Z.of_nat (length buf) ->
  length (take (Z.to_nat n) (drop (Z.to_nat off) buf)) = Z.to_nat n.
Proof.
  intros H1 H2 H3. rewrite length_take, length_drop. lia.
Qed.

Lemma memcpy_at_start reply buf off n :
  0 <= off -> 0 <= n -> off + n <= Z.of_nat (length buf) ->
  n <= Z.of_nat (length reply) ->
  memcpy reply 0 buf off n
  = Done (take (Z.to_nat n) (drop (Z.to_nat off) buf)
            ++ drop (Z.to_nat n) reply).
Proof.
  intros H1 H2 H3 H4. unfold memcpy.
  rewrite mem_read_ok by assumption. cbn [obind].
  rewrite mem_write_ok; rewrite ?length_window by assumption; try lia.
  change (Z.to_nat 0) with 0%nat. rewrite take_0, Nat.add_0_l. reflexivity.
Qed.

Lemma memcpy_to_end (written rest buf : list Z) doff n :
  doff = Z.of_nat (length written) ->
  0 <= n -> n <= Z.of_nat (length buf) ->
  Z.of_nat (length rest) = n ->
  memcpy (written ++ rest) doff buf 0 n
  = Done (written ++ take (Z.to_nat n) buf).
Proof.
  intros -> H1 H2 H3. unfold memcpy.
  rewrite mem_read_ok by lia. cbn [obind].
  change (Z.to_nat 0) with 0%nat. rewrite drop_0.
  assert (Hlen : length (take (Z.to_nat n) buf) = Z.to_nat n)
    by (rewrite length_take; lia).
  rewrite mem_write_ok; rewrite ?Hlen, ?length_app; try lia.
  rewrite Nat2Z.id, take_app_length.
  rewrite drop_ge by (rewrite length_app; lia).
  rewrite app_nil_r. reflexivity.
Qed.

Lemma capture_copy_spec visu_ctxt capture_point reply :
  length (capture_buf visu_ctxt) = Z.to_nat CAPTURE_BUF_SIZE ->
  0 <= capture_size visu_ctxt <= CAPTURE_BUF_SIZE ->
  Z.of_nat (length reply) = capture_size visu_ctxt ->
  - CAPTURE_BUF_SIZE <= capture_point ->
  capture_point + capture_size visu_ctxt <= CAPTURE_BUF_SIZE ->
  capture_copy visu_ctxt capture_point reply
  = Done (if capture_point <? 0
          then Z.min (- capture_point) (capture_size visu_ctxt) else 0,
          spec_window visu_ctxt capture_point).
Proof.
  unfold CAPTURE_BUF_SIZE. intros Hbuf Hsize Hreply Hlo Hhi.
  assert (Hbuf' : Z.of_nat (length (capture_buf visu_ctxt)) = 65536) by lia.
  clear Hbuf. unfold capture_copy, spec_window, CAPTURE_BUF_SIZE.
  rewrite (s32_small (capture_size visu_ctxt)) by lia.
  destruct (Z.ltb_spec capture_point 0) as [Hneg|Hpos].
  - rewrite s32_small by lia. rewrite gtb_min.
    set (size := Z.min (- capture_point) (capture_size visu_ctxt)).
    assert (Hs : 0 <= size <= capture_size visu_ctxt) by lia.
    rewrite memcpy_at_start by lia. cbn [obind].
    set (bytes := take (Z.to_nat size)
                    (drop (Z.to_nat (65536 + capture_point))
                       (capture_buf visu_ctxt))).
    assert (Hbytes : Z.of_nat (length bytes) = size).
    { unfold bytes. rewrite length_window by lia. lia. }
    rewrite memcpy_to_end; [reflexivity|lia|lia|lia|].
    rewrite length_drop. clearbody size. lia.
  - rewrite memcpy_at_start by lia. cbn [obind].
    rewrite (drop_ge reply) by lia. rewrite app_nil_r. reflexivity.
Qed.

Lemma capture_stall_not_declared visu_ctxt delta_ms pReplyData reply :
  (last_capture_idx visu_ctxt =? capture_idx visu_ctxt)
  && negb (tv_sec (buffer_update_time visu_ctxt) =? 0)
  && (delta_ms >? MAX_STALL_TIME_MS) = false ->
  capture_stall visu_ctxt delta_ms pReplyData reply
  = Done (set_last_capture_idx (capture_idx visu_ctxt) visu_ctxt, reply).
Proof.
  intros H. unfold capture_stall.
  destruct ((last_capture_idx visu_ctxt =? capture_idx visu_ctxt)
            && negb (tv_sec (buffer_update_time visu_ctxt) =? 0));
    [|reflexivity].
  cbn [andb] in H. rewrite H. reflexivity.
Qed.

Lemma capture_stall_declared visu_ctxt delta_ms reply :
  (last_capture_idx visu_ctxt =? capture_idx visu_ctxt)
  && negb (tv_sec (buffer_update_time visu_ctxt) =? 0)
  && (delta_ms >? MAX_STALL_TIME_MS) = true ->
  Z.of_nat (length reply) = capture_size visu_ctxt ->
  capture_stall visu_ctxt delta_ms 0 reply
  = Done (set_last_capture_idx (capture_idx visu_ctxt)
            (set_buffer_update_time
               (clear_tv_sec (buffer_update_time visu_ctxt)) visu_ctxt),
          replicate (length reply) 128).
Proof.
  intros H Hsize. unfold capture_stall.
  apply andb_prop in H as [H1 H2]. rewrite H1, H2.
  cbn [capture_size set_buffer_update_time].
  rewrite memset_whole by exact Hsize. reflexivity.
Qed.

Lemma length_spec_window visu_ctxt capture_point :
  length (capture_buf visu_ctxt) = Z.to_nat CAPTURE_BUF_SIZE ->
  0 <= capture_size visu_ctxt <= CAPTURE_BUF_SIZE ->
  - CAPTURE_BUF_SIZE <= capture_point ->
  capture_point + capture_size visu_ctxt <= CAPTURE_BUF_SIZE ->
  Z.of_nat (length (spec_window visu_ctxt capture_point))
  = capture_size visu_ctxt.
Proof.
  unfold CAPTURE_BUF_SIZE. intros Hbuf Hsize Hlo Hhi. unfold spec_window.
  destruct (Z.ltb_spec capture_point 0).
  - rewrite length_app, !length_take, length_drop. unfold CAPTURE_BUF_SIZE. lia.
  - rewrite length_take, length_drop. lia.
Qed.

(** *** The capture command on an Active session *)

Lemma spec_latency_samples_nonneg visu_ctxt elapsed :
  0 <= samplingRate visu_ctxt ->
  0 <= spec_latency_samples visu_ctxt elapsed.
Proof.
  intros H. unfold spec_latency_samples.
  apply Z.div_pos; [apply Z.mul_nonneg_nonneg; lia|lia].
Qed.

Lemma command_active visu_ctxt reply clock :
  state visu_ctxt = EFFECT_STATE_ACTIVE ->
  offload_enabled visu_ctxt = true ->
  Z.of_nat (length reply) = capture_size visu_ctxt ->
  snapshot_in_range visu_ctxt clock ->
  visualizer_command visu_ctxt VISUALIZER_CMD_CAPTURE
    (Z.of_nat (length reply)) (Some reply) clock
  = do r <- capture_stall visu_ctxt (elapsed_ms visu_ctxt clock)
              (if spec_capture_point visu_ctxt (elapsed_ms visu_ctxt clock) <? 0
               then Z.min (- spec_capture_point visu_ctxt
                               (elapsed_ms visu_ctxt clock))
                      (capture_size visu_ctxt)
               else 0)
              (spec_window visu_ctxt
                 (spec_capture_point visu_ctxt (elapsed_ms visu_ctxt clock)));
    Done (0, fst r, Some (snd r)).
Proof.
  intros Hact Hoff Hreply Hr. unfold visualizer_command.
  rewrite Z.eqb_refl, Hreply, Z.eqb_refl, Hoff, Hact, Z.eqb_refl. cbn [negb].
  rewrite (capture_delta_spec _ _ Hr), (capture_point_of_spec _ _ Hr).
  destruct Hr as [(Hbuf & Hidx & Hsize & Hrate & _ & _ & _ & _ & _ & Hcp) _].
  rewrite capture_copy_spec; try assumption; [reflexivity|].
  pose proof (spec_latency_samples_nonneg visu_ctxt
                (elapsed_ms visu_ctxt clock) Hrate).
  unfold spec_capture_point. lia.
Qed.

Lemma command_window visu_ctxt reply clock :
  state visu_ctxt = EFFECT_STATE_ACTIVE ->
  offload_enabled visu_ctxt = true ->
  Z.of_nat (length reply) = capture_size visu_ctxt ->
  snapshot_in_range visu_ctxt clock ->
  stall_declared visu_ctxt clock = false ->
  visualizer_command visu_ctxt VISUALIZER_CMD_CAPTURE
    (Z.of_nat (length reply)) (Some reply) clock
  = Done (0, set_last_capture_idx (capture_idx visu_ctxt) visu_ctxt,
          Some (spec_window visu_ctxt
                  (spec_capture_point visu_ctxt (elapsed_ms visu_ctxt clock)))).
Proof.
  intros Hact Hoff Hreply Hr Hstall.
  rewrite command_active by assumption.
  rewrite capture_stall_not_declared by exact Hstall. reflexivity.
Qed.

Lemma command_stalled visu_ctxt reply clock :
  state visu_ctxt = EFFECT_STATE_ACTIVE ->
  offload_enabled visu_ctxt = true ->
  Z.of_nat (length reply) = capture_size visu_ctxt ->
  snapshot_in_range visu_ctxt clock ->
  stall_declared visu_ctxt clock = true ->
  0 <= spec_capture_point visu_ctxt (elapsed_ms visu_ctxt clock) ->
  visualizer_command visu_ctxt VISUALIZER_CMD_CAPTURE
    (Z.of_nat (length reply)) (Some reply) clock
  = Done (0,
          set_last_capture_idx (capture_idx visu_ctxt)
            (set_buffer_update_time
               (clear_tv_sec (buffer_update_time visu_ctxt)) visu_ctxt),
          Some (replicate (length reply) 128)).
Proof.
  intros Hact Hoff Hreply Hr Hstall Hcp.
  rewrite command_active by assumption.
  destruct (Z.ltb_spec (spec_capture_point visu_ctxt (elapsed_ms visu_ctxt clock)) 0);
    [lia|].
  pose proof Hr as [(Hbuf & Hidx & Hsize & Hrate & _) _].
  assert (Hw : Z.of_nat (length (spec_window visu_ctxt
                 (spec_capture_point visu_ctxt (elapsed_ms visu_ctxt clock))))
               = capture_size visu_ctxt).
  { apply length_spec_window; try assumption.
    - unfold CAPTURE_BUF_SIZE. lia.
    - pose proof (spec_latency_samples_nonneg visu_ctxt
                    (elapsed_ms visu_ctxt clock) Hrate).
      unfold spec_capture_point. lia. }
  rewrite capture_stall_declared by assumption. cbn [obind fst snd].
  replace (length (spec_window visu_ctxt
             (spec_capture_point visu_ctxt (elapsed_ms visu_ctxt clock))))
    with (length reply) by (apply Nat2Z.inj; congruence).
  reflexivity.
Qed.

(** What the capture command copies while the 32-bit arithmetic does not
    wrap.  For an Active session with offload enabled, in range and with
    less than 2^31 ms elapsed since the last update, queried with a reply
    of the capture window size: the capture point the code computes is
    [write_cursor - window_size - latency_samples] in integers, with
    [latency_samples = sample_rate * max(0, latency_ms - elapsed_ms) /
    1000]; the two copies produce the window of the specification (for a
    negative capture point [min(-capture_point, window_size)] bytes from
    offset [capacity + capture_point], then the rest from offset 0;
    otherwise [window_size] bytes from [capture_point]); and that window
    is the reply unless the stall test declares a stall. *)
Theorem capture_window_in_range visu_ctxt reply clock :
  state visu_ctxt = EFFECT_STATE_ACTIVE ->
  offload_enabled visu_ctxt = true ->
  Z.of_nat (length reply) = capture_size visu_ctxt ->
  snapshot_in_range visu_ctxt clock ->
  capture_point_of visu_ctxt (snd (capture_delta visu_ctxt clock))
  = spec_capture_point visu_ctxt (elapsed_ms visu_ctxt clock) /\
  (exists pReplyData,
     capture_copy visu_ctxt
       (capture_point_of visu_ctxt (snd (capture_delta visu_ctxt clock))) reply
     = Done (pReplyData,
             spec_window visu_ctxt
               (spec_capture_point visu_ctxt (elapsed_ms visu_ctxt clock)))) /\
  (stall_declared visu_ctxt clock = false ->
   visualizer_command visu_ctxt VISUALIZER_CMD_CAPTURE
     (Z.of_nat (length reply)) (Some reply) clock
   = Done (0, set_last_capture_idx (capture_idx visu_ctxt) visu_ctxt,
           Some (spec_window visu_ctxt
                   (spec_capture_point visu_ctxt (elapsed_ms visu_ctxt clock))))).
Proof.
  intros Hact Hoff Hreply Hr.
  assert (Hcp : capture_point_of visu_ctxt (snd (capture_delta visu_ctxt clock))
                = spec_capture_point visu_ctxt (elapsed_ms visu_ctxt clock)).
  { rewrite (capture_delta_spec _ _ Hr). apply capture_point_of_spec, Hr. }
  split; [exact Hcp|]. split.
  - rewrite Hcp.
    destruct Hr as [(Hbuf & Hidx & Hsize & Hrate & _ & _ & _ & _ & _ & Hlo) _].
    eexists. apply capture_copy_spec; try assumption.
    pose proof (spec_latency_samples_nonneg visu_ctxt
                  (elapsed_ms visu_ctxt clock) Hrate).
    unfold spec_capture_point. lia.
  - intros Hstall. apply command_window; assumption.
Qed.

(** C2 (as amended): for an Active session with offload enabled and in
    range, whose write cursor has not moved since the previous snapshot,
    whose time stamp is set, for which more than 1000 ms (and less than
    2^31 ms) have elapsed since the last update, and whose window does not
    wrap (the capture point is not negative), capture_snapshot returns a
    window of 0x80 only and marks the time stamp unset. *)
Theorem C2_stall_returns_silence visu_ctxt reply clock :
  state visu_ctxt = EFFECT_STATE_ACTIVE ->
  offload_enabled visu_ctxt = true ->
  Z.of_nat (length reply) = capture_size visu_ctxt ->
  snapshot_in_range visu_ctxt clock ->
  stall_declared visu_ctxt clock = true ->
  0 <= spec_capture_point visu_ctxt (elapsed_ms visu_ctxt clock) ->
  exists visu_ctxt',
    visualizer_command visu_ctxt VISUALIZER_CMD_CAPTURE
      (Z.of_nat (length reply)) (Some reply) clock
    = Done (0, visu_ctxt', Some (replicate (length reply) 128)) /\
    tv_sec (buffer_update_time visu_ctxt') = 0 /\
    last_capture_idx visu_ctxt' = capture_idx visu_ctxt.
Proof.
  intros Hact Hoff Hreply Hr Hstall Hcp.
  eexists. split; [apply command_stalled; assumption|].
  split; reflexivity.
Qed.

(** *** The sample sessions *)

Lemma length_ring_of head :
  (length head <= Z.to_nat CAPTURE_BUF_SIZE)%nat ->
  length (ring_of head) = Z.to_nat CAPTURE_BUF_SIZE.
Proof.
  intros H. unfold ring_of. rewrite length_app, length_replicate.
  rewrite Nat.add_comm. apply Nat.sub_add, H.
Qed.

Lemma ring_of_head head i x :
  head !! i = Some x -> ring_of head !! i = Some x.
Proof. intros H. unfold ring_of. apply lookup_app_l_Some, H. Qed.

Lemma ring_of_silence head i :
  (length head <= i)%nat -> (i < Z.to_nat CAPTURE_BUF_SIZE)%nat ->
  ring_of head !! i = Some 128.
Proof.
  intros H1 H2. unfold ring_of. rewrite lookup_app_r by exact H1.
  apply lookup_replicate_2.
  apply Nat.add_lt_mono_r with (p := length head).
  rewrite !Nat.sub_add; [exact H2| |exact H1].
  etransitivity; [exact H1|]. apply Nat.lt_le_incl, H2.
Qed.

Lemma sample_session_in_range idx last t0 head clock :
  (length head <= Z.to_nat CAPTURE_BUF_SIZE)%nat ->
  0 <= idx <= CAPTURE_BUF_SIZE ->
  wf_timespec t0 ->
  match clock with Some ts => wf_timespec ts | None => True end ->
  0 <= elapsed_ms (sample_session idx last t0 (ring_of head)) clock ->
  session_in_range (sample_session idx last t0 (ring_of head)) clock.
Proof.
  intros Hhead Hidx Ht0 Hts He. unfold session_in_range.
  split; [apply length_ring_of, Hhead|].
  unfold spec_capture_point, spec_latency_samples.
  cbn [sample_session capture_idx capture_size samplingRate latency
       buffer_update_time].
  unfold DSP_OUTPUT_LATENCY_MS, CAPTURE_BUF_SIZE in *.
  repeat (split; [assumption || lia|]).
  rewrite Z.max_l by lia. change (44100 * 0 / 1000) with 0. lia.
Qed.

Lemma spec_window_first visu_ctxt capture_point x :
  0 < capture_size visu_ctxt ->
  capture_buf visu_ctxt
    !! Z.to_nat (if capture_point <? 0
                 then CAPTURE_BUF_SIZE + capture_point else capture_point)
  = Some x ->
  spec_window visu_ctxt capture_point !! 0%nat = Some x.
Proof.
  intros Hsize Hx. unfold spec_window.
  destruct (Z.ltb_spec capture_point 0).
  - apply lookup_app_l_Some. rewrite lookup_take_lt by lia.
    rewrite lookup_drop, Nat.add_0_r. exact Hx.
  - rewrite lookup_take_lt by lia.
    rewrite lookup_drop, Nat.add_0_r. exact Hx.
Qed.

Lemma capture_window_in_range_witness :
  (snapshot_in_range played_session (Some (mk_timespec 102 0)) /\
   capture_point_of played_session
     (snd (capture_delta played_session (Some (mk_timespec 102 0))))
   = spec_capture_point played_session
       (elapsed_ms played_session (Some (mk_timespec 102 0))) /\
   exists pReplyData,
     capture_copy played_session
       (capture_point_of played_session
          (snd (capture_delta played_session (Some (mk_timespec 102 0)))))
       [0; 0; 0; 0]
     = Done (pReplyData,
             spec_window played_session
               (spec_capture_point played_session
                  (elapsed_ms played_session (Some (mk_timespec 102 0)))))) /\
  (snapshot_in_range wrapped_session (Some (mk_timespec 100 500000000)) /\
   spec_capture_point wrapped_session
     (elapsed_ms wrapped_session (Some (mk_timespec 100 500000000))) = - 2 /\
   visualizer_command wrapped_session VISUALIZER_CMD_CAPTURE 4
     (Some [0; 0; 0; 0]) (Some (mk_timespec 100 500000000))
   = Done (0, set_last_capture_idx (capture_idx wrapped_session) wrapped_session,
           Some (spec_window wrapped_session
                   (spec_capture_point wrapped_session
                      (elapsed_ms wrapped_session
                         (Some (mk_timespec 100 500000000))))))).
Proof.
  assert (Hr : snapshot_in_range played_session (Some (mk_timespec 102 0))).
  { split.
    - apply sample_session_in_range.
      + rewrite length_replicate. unfold CAPTURE_BUF_SIZE. lia.
      + unfold CAPTURE_BUF_SIZE. lia.
      + unfold wf_timespec. cbn. lia.
      + unfold wf_timespec. cbn. lia.
      + change (0 <= 2000). lia.
    - change (2000 < 2 ^ 31). lia. }
  assert (Hw : snapshot_in_range wrapped_session
                 (Some (mk_timespec 100 500000000))).
  { split.
    - apply sample_session_in_range.
      + cbn [length]. unfold CAPTURE_BUF_SIZE. lia.
      + unfold CAPTURE_BUF_SIZE. lia.
      + unfold wf_timespec. cbn. lia.
      + unfold wf_timespec. cbn. lia.
      + change (0 <= 500). lia.
    - change (500 < 2 ^ 31). lia. }
  split.
  - split; [exact Hr|].
    destruct (capture_window_in_range played_session [0; 0; 0; 0]
                (Some (mk_timespec 102 0)) eq_refl eq_refl eq_refl Hr)
      as (Hcp & Hcopy & _).
    split; [exact Hcp|exact Hcopy].
  - split; [exact Hw|]. split; [reflexivity|].
    exact (proj2 (proj2 (capture_window_in_range wrapped_session [0; 0; 0; 0]
                           (Some (mk_timespec 100 500000000))
                           eq_refl eq_refl eq_refl Hw)) eq_refl).
Defined.

Lemma old_session_in_range :
  session_in_range old_session (Some (mk_timespec 4294967 296000000)).
Proof.
  apply sample_session_in_range.
  - cbn [length]. unfold CAPTURE_BUF_SIZE. lia.
  - unfold CAPTURE_BUF_SIZE. lia.
  - unfold wf_timespec. cbn. lia.
  - unfold wf_timespec. cbn. lia.
  - change (0 <= 4294966296). lia.
Qed.

Lemma old_session_code_window :
  spec_window old_session (- 44092) = [128; 128; 128; 128].
Proof.
  unfold spec_window.
  change (- 44092 <? 0) with true. cbv iota.
  change (capture_size old_session) with 4.
  change (Z.min (- - 44092) 4) with 4. change (4 - 4) with 0.
  change (Z.to_nat 0) with 0%nat. rewrite take_0, app_nil_r.
  change (Z.to_nat 4) with 4%nat.
  change (capture_buf old_session)
    with (ring_of [1; 2; 3; 4; 5; 6; 7; 8; 9; 10; 11; 12]).
  unfold ring_of.
  change (length [1; 2; 3; 4; 5; 6; 7; 8; 9; 10; 11; 12]) with 12%nat.
  set (n := Z.to_nat (CAPTURE_BUF_SIZE + - 44092)).
  set (m := (Z.to_nat CAPTURE_BUF_SIZE - 12)%nat).
  assert (Hn : (12 <= n /\ n - 12 + 4 <= m)%nat)
    by (unfold n, m, CAPTURE_BUF_SIZE; lia).
  rewrite drop_app_ge by (cbn [length]; lia).
  rewrite drop_replicate, take_replicate. cbn [length].
  replace (4 `min` (m - (n - 12)))%nat with 4%nat by lia.
  reflexivity.
Qed.

(** C1 fails on [old_session], a session within the data model
    ([session_in_range]) that was last updated at 1 s and is queried when
    the clock reads 4294967.296 s: 2^32 - 1000 ms have elapsed.  The claim
    gives the remaining latency max(0, 0 - elapsed) = 0, the capture point
    12 - 4 - 0 = 8 and the window of the bytes 9 to 12.  The code
    subtracts and clamps as the claim says, but on 32 bits:
    [latency_ms -= delta_ms] wraps to 1000 ms, which the test
    [latency_ms < 0] lets through; [delta_smp] is 44100, the capture point
    -44092, and the reply is the four bytes of silence at offset 21444. *)
Theorem C1_remaining_latency_wraps :
  state old_session = EFFECT_STATE_ACTIVE /\
  offload_enabled old_session = true /\
  capture_size old_session = 4 /\
  session_in_range old_session (Some (mk_timespec 4294967 296000000)) /\
  elapsed_ms old_session (Some (mk_timespec 4294967 296000000)) = 4294966296 /\
  spec_capture_point old_session 4294966296 = 8 /\
  spec_window old_session 8 = [9; 10; 11; 12] /\
  capture_delta old_session (Some (mk_timespec 4294967 296000000))
  = (4294966296, 1000) /\
  capture_point_of old_session 1000 = - 44092 /\
  visualizer_command old_session VISUALIZER_CMD_CAPTURE 4 (Some [0; 0; 0; 0])
    (Some (mk_timespec 4294967 296000000))
  = Done (0, set_last_capture_idx 12 old_session, Some [128; 128; 128; 128]).
Proof.
  split; [reflexivity|]. split; [reflexivity|]. split; [reflexivity|].
  split; [exact old_session_in_range|].
  split; [reflexivity|]. split; [reflexivity|]. split; [reflexivity|].
  split; [reflexivity|]. split; [reflexivity|].
  unfold visualizer_command. rewrite Z.eqb_refl.
  change (capture_size old_session) with 4. rewrite Z.eqb_refl.
  change (offload_enabled old_session) with true.
  change (state old_session) with EFFECT_STATE_ACTIVE. rewrite Z.eqb_refl.
  cbn [negb].
  change (capture_delta old_session (Some (mk_timespec 4294967 296000000)))
    with (4294966296, 1000).
  cbv beta iota.
  change (capture_point_of old_session 1000) with (- 44092).
  rewrite capture_copy_spec.
  - cbn [obind fst snd].
    rewrite capture_stall_not_declared by reflexivity.
    cbn [obind fst snd]. rewrite old_session_code_window.
    change (capture_idx old_session) with 12. reflexivity.
  - apply length_ring_of. cbn [length]. unfold CAPTURE_BUF_SIZE. lia.
  - cbn. unfold CAPTURE_BUF_SIZE. lia.
  - reflexivity.
  - unfold CAPTURE_BUF_SIZE. lia.
  - cbn. unfold CAPTURE_BUF_SIZE. lia.
Qed.

Lemma C2_stall_returns_silence_witness :
  state queried_session = EFFECT_STATE_ACTIVE /\
  offload_enabled queried_session = true /\
  snapshot_in_range queried_session (Some (mk_timespec 102 0)) /\
  stall_declared queried_session (Some (mk_timespec 102 0)) = true /\
  0 <= spec_capture_point queried_session
         (elapsed_ms queried_session (Some (mk_timespec 102 0))) /\
  exists visu_ctxt',
    visualizer_command queried_session VISUALIZER_CMD_CAPTURE
      4 (Some [1; 2; 3; 4]) (Some (mk_timespec 102 0))
    = Done (0, visu_ctxt', Some [128; 128; 128; 128]) /\
    tv_sec (buffer_update_time visu_ctxt') = 0 /\
    last_capture_idx visu_ctxt' = capture_idx queried_session.
Proof.
  assert (Hr : snapshot_in_range queried_session (Some (mk_timespec 102 0))).
  { split.
    - apply sample_session_in_range.
      + rewrite length_replicate. unfold CAPTURE_BUF_SIZE. lia.
      + unfold CAPTURE_BUF_SIZE. lia.
      + unfold wf_timespec. cbn. lia.
      + unfold wf_timespec. cbn. lia.
      + change (0 <= 2000). lia.
    - change (2000 < 2 ^ 31). lia. }
  assert (Hs : stall_declared queried_session (Some (mk_timespec 102 0)) = true)
    by reflexivity.
  assert (Hcp : 0 <= spec_capture_point queried_session
                       (elapsed_ms queried_session (Some (mk_timespec 102 0))))
    by (change (0 <= 4); lia).
  split; [reflexivity|]. split; [reflexivity|]. split; [exact Hr|].
  split; [exact Hs|]. split; [exact Hcp|].
  exact (C2_stall_returns_silence queried_session [1; 2; 3; 4]
           (Some (mk_timespec 102 0)) eq_refl eq_refl eq_refl Hr Hs Hcp).
Defined.

(** C2 as stated fails by the guard on the write cursor: [played_session]
    is Active, its last block was written at 100 s and no snapshot was
    taken since ([last_capture_idx = 0], [capture_idx = 8]).  The
    snapshot at 102 s, 2000 ms without a process call, finds the cursor
    moved, declares no stall and returns the window of the ring, whose
    first byte is 192. *)
Lemma C2_counterexample :
  ~ (forall visu_ctxt reply clock,
       state visu_ctxt = EFFECT_STATE_ACTIVE ->
       offload_enabled visu_ctxt = true ->
       Z.of_nat (length reply) = capture_size visu_ctxt ->
       snapshot_in_range visu_ctxt clock ->
       tv_sec (buffer_update_time visu_ctxt) <> 0 ->
       MAX_STALL_TIME_MS < elapsed_ms visu_ctxt clock ->
       exists visu_ctxt',
         visualizer_command visu_ctxt VISUALIZER_CMD_CAPTURE
           (Z.of_nat (length reply)) (Some reply) clock
         = Done (0, visu_ctxt', Some (replicate (length reply) 128)) /\
         tv_sec (buffer_update_time visu_ctxt') = 0).
Proof.
  intros H.
  assert (Hr : snapshot_in_range played_session (Some (mk_timespec 102 0))).
  { split.
    - apply sample_session_in_range.
      + rewrite length_replicate. unfold CAPTURE_BUF_SIZE. lia.
      + unfold CAPTURE_BUF_SIZE. lia.
      + unfold wf_timespec. cbn. lia.
      + unfold wf_timespec. cbn. lia.
      + change (0 <= 2000). lia.
    - change (2000 < 2 ^ 31). lia. }
  destruct (H played_session [0; 0; 0; 0] (Some (mk_timespec 102 0))
              eq_refl eq_refl eq_refl Hr) as (c & Hc & _).
  { change (100 <> 0). lia. }
  { change (1000 < 2000). lia. }
  rewrite command_window in Hc; [|reflexivity..|exact Hr|reflexivity].
  apply (f_equal (fun o : outcome (Z * visualizer_context_t * option (list Z)) =>
                    match o with
                    | Done (_, Some l) => l !! 0%nat
                    | _ => None
                    end)) in Hc.
  cbv beta iota in Hc.
  change (spec_capture_point played_session
            (elapsed_ms played_session (Some (mk_timespec 102 0))))
    with 4 in Hc.
  rewrite (spec_window_first played_session 4 192) in Hc.
  - discriminate Hc.
  - change (0 < 4). lia.
  - apply ring_of_head. reflexivity.
Qed.

(** What the amended C2 leaves out: a stall declared on a window that
    wraps.  After the first copy [pReplyData] points [size] bytes into the
    reply, and the [memset] of [capture_size] bytes from there runs past
    the end of the reply block. *)
Lemma stall_on_wrapped_window_overruns visu_ctxt reply clock :
  state visu_ctxt = EFFECT_STATE_ACTIVE ->
  offload_enabled visu_ctxt = true ->
  Z.of_nat (length reply) = capture_size visu_ctxt ->
  snapshot_in_range visu_ctxt clock ->
  stall_declared visu_ctxt clock = true ->
  spec_capture_point visu_ctxt (elapsed_ms visu_ctxt clock) < 0 ->
  0 < capture_size visu_ctxt ->
  visualizer_command visu_ctxt VISUALIZER_CMD_CAPTURE
    (Z.of_nat (length reply)) (Some reply) clock
  = Fault.
Proof.
  intros Hact Hoff Hreply Hr Hstall Hcp Hpos.
  rewrite command_active by assumption.
  destruct (Z.ltb_spec (spec_capture_point visu_ctxt (elapsed_ms visu_ctxt clock)) 0);
    [|lia].
  pose proof Hr as [(Hbuf & Hidx & Hsize & Hrate & _ & _ & _ & _ & _ & Hlo) _].
  assert (Hw : Z.of_nat (length (spec_window visu_ctxt
                 (spec_capture_point visu_ctxt (elapsed_ms visu_ctxt clock))))
               = capture_size visu_ctxt).
  { apply length_spec_window; try assumption.
    pose proof (spec_latency_samples_nonneg visu_ctxt
                  (elapsed_ms visu_ctxt clock) Hrate).
    unfold spec_capture_point. lia. }
  unfold capture_stall. unfold stall_declared in Hstall.
  apply andb_prop in Hstall as [H1 H2]. rewrite H1, H2.
  cbn [capture_size set_buffer_update_time].
  unfold memset, mem_write. rewrite length_replicate, Hw.
  destruct (Z.leb_spec 0 (capture_size visu_ctxt)); [|lia].
  set (size := Z.min _ _).
  assert (0 < size) by (unfold size; lia).
  destruct (Z.leb_spec 0 size); [|lia]. cbn [andb].
  destruct (Z.leb_spec (size + Z.of_nat (Z.to_nat (capture_size visu_ctxt)))
              (capture_size visu_ctxt)); [lia|reflexivity].
Qed.

Lemma wrapped_session_overrun :
  visualizer_command wrapped_session VISUALIZER_CMD_CAPTURE 4
    (Some [1; 2; 3; 4]) (Some (mk_timespec 102 0))
  = Fault.
Proof.
  apply (stall_on_wrapped_window_overruns wrapped_session [1; 2; 3; 4]);
    try reflexivity.
  split.
  - apply sample_session_in_range.
    + cbn [length]. unfold CAPTURE_BUF_SIZE. lia.
    + unfold CAPTURE_BUF_SIZE. lia.
    + unfold wf_timespec. cbn. lia.
    + unfold wf_timespec. cbn. lia.
    + change (0 <= 2000). lia.
  - change (2000 < 2 ^ 31). lia.
Qed.

(** * Further properties of the code *)

(** ** Parameters *)

(** [visualizer_set_parameter] returns -EINVAL exactly for the blocks it
    does not accept (a parameter or value size other than 4, or a
    parameter other than capture size, scaling mode and latency), and then
    leaves the session as it was; otherwise it returns 0. *)
Theorem set_parameter_status visu_ctxt p :
  (param_accepted p = false ->
   visualizer_set_parameter visu_ctxt p = (- EINVAL, visu_ctxt)) /\
  (param_accepted p = true -> fst (visualizer_set_parameter visu_ctxt p) = 0).
Proof.
  unfold param_accepted, visualizer_set_parameter.
  destruct (psize p =? 4), (vsize p =? 4); cbn [negb orb andb];
    try (split; [reflexivity|discriminate]).
  destruct (param p =? VISUALIZER_PARAM_CAPTURE_SIZE),
           (param p =? VISUALIZER_PARAM_SCALING_MODE),
           (param p =? VISUALIZER_PARAM_LATENCY); cbn [orb];
    split; try discriminate; reflexivity.
Qed.

Lemma set_parameter_status_witness :
  param_accepted (mk_effect_param 4 2 VISUALIZER_PARAM_CAPTURE_SIZE 7) = false /\
  visualizer_set_parameter (created_context 5)
    (mk_effect_param 4 2 VISUALIZER_PARAM_CAPTURE_SIZE 7)
  = (- EINVAL, created_context 5) /\
  param_accepted (mk_effect_param 4 4 VISUALIZER_PARAM_SCALING_MODE 1) = true /\
  fst (visualizer_set_parameter (created_context 5)
         (mk_effect_param 4 4 VISUALIZER_PARAM_SCALING_MODE 1)) = 0.
Proof.
  split; [reflexivity|]. split.
  - exact (proj1 (set_parameter_status (created_context 5)
                    (mk_effect_param 4 2 VISUALIZER_PARAM_CAPTURE_SIZE 7)) eq_refl).
  - split; [reflexivity|].
    exact (proj2 (set_parameter_status (created_context 5)
                    (mk_effect_param 4 4 VISUALIZER_PARAM_SCALING_MODE 1)) eq_refl).
Defined.

(** A capture size or a scaling mode set with [visualizer_set_parameter]
    is what [visualizer_get_parameter] reports afterwards, with status 0,
    a value size of 4 and a reply size of 20; setting one of the two
    leaves the other as it was. *)
Theorem get_parameter_after_set visu_ctxt v q :
  snd (visualizer_get_parameter
         (snd (visualizer_set_parameter visu_ctxt
                 (mk_effect_param 4 4 VISUALIZER_PARAM_CAPTURE_SIZE v)))
         (mk_effect_param 4 q VISUALIZER_PARAM_CAPTURE_SIZE 0))
  = mk_param_reply 0 4 4 VISUALIZER_PARAM_CAPTURE_SIZE (Some v) 20 /\
  snd (visualizer_get_parameter
         (snd (visualizer_set_parameter visu_ctxt
                 (mk_effect_param 4 4 VISUALIZER_PARAM_SCALING_MODE v)))
         (mk_effect_param 4 q VISUALIZER_PARAM_SCALING_MODE 0))
  = mk_param_reply 0 4 4 VISUALIZER_PARAM_SCALING_MODE (Some v) 20 /\
  r_value (snd (visualizer_get_parameter
         (snd (visualizer_set_parameter visu_ctxt
                 (mk_effect_param 4 4 VISUALIZER_PARAM_CAPTURE_SIZE v)))
         (mk_effect_param 4 q VISUALIZER_PARAM_SCALING_MODE 0)))
  = Some (scaling_mode visu_ctxt) /\
  r_value (snd (visualizer_get_parameter
         (snd (visualizer_set_parameter visu_ctxt
                 (mk_effect_param 4 4 VISUALIZER_PARAM_SCALING_MODE v)))
         (mk_effect_param 4 q VISUALIZER_PARAM_CAPTURE_SIZE 0)))
  = Some (capture_size visu_ctxt).
Proof. repeat split; reflexivity. Qed.

(** [visualizer_get_parameter] always returns 0; a parameter size other
    than 4 or a parameter other than capture size and scaling mode (the
    latency that [visualizer_set_parameter] accepts included) is reported
    in the status field as -EINVAL, with no value written and a reply size
    of 16. *)
Theorem get_parameter_rejects visu_ctxt p :
  fst (visualizer_get_parameter visu_ctxt p) = 0 /\
  (psize p <> 4 \/
   (param p <> VISUALIZER_PARAM_CAPTURE_SIZE /\
    param p <> VISUALIZER_PARAM_SCALING_MODE) ->
   snd (visualizer_get_parameter visu_ctxt p)
   = mk_param_reply (- EINVAL) (psize p) (vsize p) (param p) None 16).
Proof.
  unfold visualizer_get_parameter, sizeof_uint32_t.
  split.
  - destruct (psize p =? 4), (param p =? VISUALIZER_PARAM_CAPTURE_SIZE),
             (param p =? VISUALIZER_PARAM_SCALING_MODE); reflexivity.
  - intros H.
    destruct (Z.eqb_spec (psize p) 4); cbn [negb]; [|reflexivity].
    destruct H as [H|[H1 H2]]; [contradiction|].
    destruct (Z.eqb_spec (param p) VISUALIZER_PARAM_CAPTURE_SIZE);
      [contradiction|].
    destruct (Z.eqb_spec (param p) VISUALIZER_PARAM_SCALING_MODE);
      [contradiction|reflexivity].
Qed.

Lemma get_parameter_rejects_witness :
  snd (visualizer_get_parameter (created_context 5)
         (mk_effect_param 4 4 VISUALIZER_PARAM_LATENCY 0))
  = mk_param_reply (- EINVAL) 4 4 VISUALIZER_PARAM_LATENCY None 16.
Proof.
  apply (proj2 (get_parameter_rejects (created_context 5)
                  (mk_effect_param 4 4 VISUALIZER_PARAM_LATENCY 0))).
  right. split; discriminate.
Defined.

(** ** The gain and the ring under [visualizer_process] *)

Lemma scan_list_int16_bounds l : forall shift,
  17 <= shift <= 32 -> Forall is_int16 l -> 17 <= scan_list l shift <= 32.
Proof.
  induction l as [|x l IH]; intros shift Hs Hl; cbn; [exact Hs|].
  inversion Hl as [|? ? Hx Hl']; subst.
  apply IH; [|exact Hl'].
  assert (17 <= builtin_clz (magnitude x)); [|lia].
  unfold is_int16 in Hx. unfold builtin_clz, magnitude.
  destruct (Z.ltb_spec x 0).
  - destruct (Z.leb_spec (- x - 1) 0); [lia|].
    assert (Z.log2 (- x - 1) < 15) by (apply Z.log2_lt_pow2; lia). lia.
  - destruct (Z.leb_spec x 0); [lia|].
    assert (Z.log2 x < 15) by (apply Z.log2_lt_pow2; lia). lia.
Qed.

(** For a block of 16-bit samples the shift lies between 4 and 9 in both
    scaling modes: the ring never receives more than the top bits of the
    sum of the two channels, and never less than its bits 9 to 16. *)
Theorem process_shift_bounds mode fc s16 :
  wf_block fc s16 ->
  Forall is_int16 s16 ->
  mode = VISUALIZER_SCALING_MODE_NORMALIZED \/
  mode = VISUALIZER_SCALING_MODE_AS_PLAYED ->
  exists shift, process_shift mode fc s16 = Done shift /\ 4 <= shift <= 9.
Proof.
  intros Hwf H16 [-> | ->].
  - rewrite process_shift_normalized by assumption. eexists. split; [reflexivity|].
    pose proof (scan_list_int16_bounds s16 32 ltac:(lia) H16). lia.
  - rewrite process_shift_as_played. eexists. split; [reflexivity|lia].
Qed.

Lemma process_shift_bounds_witness :
  exists shift,
    process_shift VISUALIZER_SCALING_MODE_NORMALIZED 1 loud_frame = Done shift /\
    4 <= shift <= 9.
Proof.
  apply process_shift_bounds.
  - unfold wf_block, loud_frame. cbn. lia.
  - repeat constructor; unfold is_int16; lia.
  - left. reflexivity.
Defined.

Lemma frame_byte_is_byte shift l r : is_byte (frame_byte shift l r).
Proof.
  unfold is_byte, frame_byte, u8.
  set (a := Z.shiftr (l + r) shift mod 2 ^ 8).
  assert (Ha : 0 <= a < 2 ^ 8) by (apply Z.mod_pos_bound; lia).
  split; [apply Z.lxor_nonneg; lia|].
  destruct (Z.eq_dec (Z.lxor a 128) 0) as [->|Hne]; [lia|].
  assert (0 <= Z.lxor a 128) by (apply Z.lxor_nonneg; lia).
  apply (Z.log2_lt_cancel _ (2 ^ 8)).
  rewrite Z.log2_pow2 by lia.
  eapply Z.le_lt_trans; [apply Z.log2_lxor; lia|].
  apply Z.max_lub_lt; [|reflexivity].
  destruct (Z.eq_dec a 0) as [->|]; [reflexivity|].
  apply Z.log2_lt_pow2; lia.
Qed.

Lemma capture_loop_forall (P : Z -> Prop) s16 shift :
  (forall l r, P (frame_byte shift l r)) ->
  forall n i c buf buf' c',
    Forall P buf ->
    capture_loop s16 shift i n c buf = Done (c', buf') ->
    Forall P buf'.
Proof.
  intros HP. induction n as [|n IH]; intros i c buf buf' c' Hbuf Hrun.
  - cbn in Hrun. congruence.
  - cbn [capture_loop] in Hrun. unfold s16_at in Hrun.
    destruct (s16 !! (2 * i)%nat) as [l|]; [|discriminate].
    destruct (s16 !! (2 * i + 1)%nat) as [r|]; [|discriminate].
    cbn [obind] in Hrun. fold (frame_byte shift l r) in Hrun.
    eapply IH; [|exact Hrun].
    apply Forall_insert; [exact Hbuf|apply HP].
Qed.

(** What [visualizer_process] does with a valid block on a created
    session (shared by the properties below). *)
Lemma visualizer_process_done st context visu_ctxt fc s16 o16 clock :
  deref (created_effects_list st) context = Some visu_ctxt ->
  wf_context visu_ctxt ->
  wf_block fc s16 ->
  exists shift buf',
    process_shift (scaling_mode visu_ctxt) fc s16 = Done shift /\
    capture_loop s16 shift 0 (Z.to_nat fc) (capture_idx visu_ctxt)
      (capture_buf visu_ctxt)
    = Done (cursor_after (capture_idx visu_ctxt) (Z.to_nat fc), buf') /\
    visualizer_process st context
      (Some (mk_audio_buffer fc (Some s16)))
      (Some (mk_audio_buffer fc (Some o16))) clock
    = Done (if state visu_ctxt =? EFFECT_STATE_ACTIVE then 0 else - ENODATA,
            mk_lib_state
              (assign (created_effects_list st) context
                 (processed_context visu_ctxt buf' (Z.to_nat fc) clock))
              (active_outputs_list st) (exit_thread st) (thread_status st)) /\
    length buf' = length (capture_buf visu_ctxt) /\
    (forall k l r,
       (k < Z.to_nat fc)%nat -> fc - Z.of_nat k <= CAPTURE_BUF_SIZE ->
       s16 !! (2 * k)%nat = Some l -> s16 !! (2 * k + 1)%nat = Some r ->
       buf' !! ring_pos (capture_idx visu_ctxt) k = Some (frame_byte shift l r)).
Proof.
  intros Hderef (Hlen & Hidx & Hmode) Hwf.
  destruct (process_shift_done _ _ _ Hwf Hmode) as (shift & Hshift).
  pose proof Hwf as (Hpos & Hmax & Hs).
  destruct (capture_loop_spec s16 shift (Z.to_nat fc) 0 (capture_idx visu_ctxt)
              (capture_buf visu_ctxt) Hidx Hlen) as (buf' & Hrun & Hlen' & Hw & _).
  { lia. }
  exists shift, buf'. split; [exact Hshift|]. split; [exact Hrun|].
  split; [|split; [exact Hlen'|]].
  - unfold visualizer_process.
    rewrite (deref_effect_exists _ _ _ Hderef). cbn [negb raw frameCount].
    rewrite Z.eqb_refl. cbn [negb orb].
    destruct (Z.eqb_spec fc 0) as [?|_]; [lia|].
    rewrite Hderef. unfold process_context.
    rewrite Hshift. cbn [obind]. rewrite Hrun. cbn [obind fst snd].
    unfold processed_context.
    destruct clock as [ts|]; cbn [state set_buffer_update_time set_capture_idx
                                  set_capture_buf];
      destruct (state visu_ctxt =? EFFECT_STATE_ACTIVE); reflexivity.
  - intros k l r Hk Hlast Hl Hr. apply Hw; try assumption. lia.
Qed.

Lemma cursor_after_range c n :
  0 <= c <= CAPTURE_BUF_SIZE -> (0 < n)%nat ->
  1 <= cursor_after c n <= CAPTURE_BUF_SIZE.
Proof.
  intros Hc Hn. destruct n as [|n]; [lia|]. cbn [cursor_after].
  pose proof (Z.mod_pos_bound (wrap_cursor c + Z.of_nat n) CAPTURE_BUF_SIZE).
  unfold CAPTURE_BUF_SIZE in *. lia.
Qed.

(** [visualizer_process] keeps the session well formed: after a valid
    block the ring still has 65536 entries, each of them still a byte, the
    write cursor lies between 1 and 65536, and the scaling mode is the one
    before. *)
Theorem process_keeps_ring_well_formed st context visu_ctxt fc s16 o16 clock :
  deref (created_effects_list st) context = Some visu_ctxt ->
  wf_context visu_ctxt ->
  Forall is_byte (capture_buf visu_ctxt) ->
  wf_block fc s16 ->
  exists status st' visu_ctxt',
    visualizer_process st context
      (Some (mk_audio_buffer fc (Some s16)))
      (Some (mk_audio_buffer fc (Some o16))) clock
    = Done (status, st') /\
    deref (created_effects_list st') context = Some visu_ctxt' /\
    wf_context visu_ctxt' /\
    Forall is_byte (capture_buf visu_ctxt') /\
    1 <= capture_idx visu_ctxt' /\
    scaling_mode visu_ctxt' = scaling_mode visu_ctxt.
Proof.
  intros Hderef Hwf Hbytes Hblock.
  destruct (visualizer_process_done st context visu_ctxt fc s16 o16 clock
              Hderef Hwf Hblock) as (shift & buf' & _ & Hloop & Hrun & Hlen & _).
  destruct Hwf as (Hlen0 & Hidx & Hmode). destruct Hblock as (Hpos & _ & _).
  pose proof (cursor_after_range (capture_idx visu_ctxt) (Z.to_nat fc) Hidx
                ltac:(lia)) as Hc.
  eexists _, _, _. split; [exact Hrun|]. cbn [created_effects_list].
  split; [apply (deref_assign _ _ _ _ Hderef)|].
  unfold processed_context. split; [|split; [|split]].
  - unfold wf_context. cbn. rewrite Hlen. split; [exact Hlen0|]. split; [lia|].
    exact Hmode.
  - cbn. eapply capture_loop_forall; [apply frame_byte_is_byte|exact Hbytes|exact Hloop].
  - cbn. lia.
  - reflexivity.
Qed.

Lemma process_keeps_ring_well_formed_witness :
  exists status st' visu_ctxt',
    visualizer_process (one_session (created_context 5)) 16
      (Some (mk_audio_buffer 1 (Some loud_frame)))
      (Some (mk_audio_buffer 1 (Some loud_frame))) None
    = Done (status, st') /\
    deref (created_effects_list st') 16 = Some visu_ctxt' /\
    wf_context visu_ctxt' /\
    Forall is_byte (capture_buf visu_ctxt') /\
    1 <= capture_idx visu_ctxt' /\
    scaling_mode visu_ctxt' = scaling_mode (created_context 5).
Proof.
  apply (process_keeps_ring_well_formed (one_session (created_context 5)) 16
           (created_context 5)).
  - reflexivity.
  - apply created_context_wf.
  - apply Forall_replicate. unfold is_byte. lia.
  - unfold wf_block, loud_frame. cbn. lia.
Defined.

Lemma map_fst_assign l context v :
  map fst (assign l context v) = map fst l.
Proof.
  induction l as [|[a c] l IH]; [reflexivity|]. cbn.
  destruct (a =? context); cbn; [reflexivity|]. f_equal. exact IH.
Qed.

Lemma process_context_settings visu_ctxt fc s16 clock status visu_ctxt' :
  process_context visu_ctxt fc s16 clock = Done (status, visu_ctxt') ->
  same_settings visu_ctxt visu_ctxt' /\
  last_capture_idx visu_ctxt' = last_capture_idx visu_ctxt.
Proof.
  unfold process_context, same_settings.
  destruct (process_shift _ _ _) as [shift| |]; cbn [obind]; try discriminate.
  destruct (capture_loop _ _ _ _ _ _) as [r| |]; cbn [obind]; try discriminate.
  destruct clock as [ts|];
    cbn [state set_buffer_update_time set_capture_idx set_capture_buf];
    destruct (state visu_ctxt =? EFFECT_STATE_ACTIVE); cbn [negb];
    intros H; injection H as _ <-; cbn; repeat split; reflexivity.
Qed.

(** Whatever the call, [visualizer_process] writes at most the session it
    is called on: the other sessions, the order of the created sessions,
    the bound outputs and the thread flags are as before, and of the
    session itself the sampling rate, output, state, offload flag, window
    size, scaling mode, latency and last-read cursor are as before. *)
Theorem process_touches_one_session
    st context inBuffer outBuffer clock status st' :
  visualizer_process st context inBuffer outBuffer clock = Done (status, st') ->
  active_outputs_list st' = active_outputs_list st /\
  exit_thread st' = exit_thread st /\
  thread_status st' = thread_status st /\
  map fst (created_effects_list st') = map fst (created_effects_list st) /\
  (forall other, other <> context ->
     deref (created_effects_list st') other
     = deref (created_effects_list st) other) /\
  (forall c, deref (created_effects_list st) context = Some c ->
     exists c',
       deref (created_effects_list st') context = Some c' /\
       same_settings c c' /\ last_capture_idx c' = last_capture_idx c).
Proof.
  assert (Hsame : forall c, same_settings c c /\ last_capture_idx c = last_capture_idx c)
    by (intros c; unfold same_settings; repeat split; reflexivity).
  assert (Hkeep : Done (- EINVAL, st) = Done (status, st') ->
    active_outputs_list st' = active_outputs_list st /\
    exit_thread st' = exit_thread st /\
    thread_status st' = thread_status st /\
    map fst (created_effects_list st') = map fst (created_effects_list st) /\
    (forall other, other <> context ->
       deref (created_effects_list st') other
       = deref (created_effects_list st) other) /\
    (forall c, deref (created_effects_list st) context = Some c ->
       exists c',
         deref (created_effects_list st') context = Some c' /\
         same_settings c c' /\ last_capture_idx c' = last_capture_idx c)).
  { intros H. injection H as _ <-. repeat split; try reflexivity.
    intros c Hc. exists c. split; [exact Hc|apply Hsame]. }
  unfold visualizer_process.
  destruct (effect_exists (created_effects_list st) context); cbn [negb];
    [|exact Hkeep].
  destruct inBuffer as [inB|]; [|exact Hkeep].
  destruct outBuffer as [outB|]; [|exact Hkeep].
  destruct (raw inB) as [s16|]; [|exact Hkeep].
  destruct (raw outB) as [o16|]; [|exact Hkeep].
  destruct (negb (frameCount inB =? frameCount outB) || (frameCount inB =? 0));
    [exact Hkeep|].
  destruct (deref (created_effects_list st) context) as [visu_ctxt|] eqn:Hd;
    [|discriminate].
  destruct (process_context visu_ctxt (frameCount inB) s16 clock)
    as [[status0 c']| |] eqn:Hp; cbn [obind]; try discriminate.
  intros H. injection H as _ <-. cbn [fst snd active_outputs_list exit_thread
    thread_status created_effects_list].
  repeat split; try reflexivity.
  - apply map_fst_assign.
  - intros other Hne. apply deref_assign_other. exact Hne.
  - intros c Hc. injection Hc as <-. exists c'.
    split; [apply (deref_assign _ _ _ _ Hd)|].
    apply (process_context_settings _ _ _ _ _ _ Hp).
Qed.

Lemma process_touches_one_session_witness :
  exists st' visu_ctxt',
    visualizer_process (one_session (created_context 5)) 16
      (Some (mk_audio_buffer 1 (Some loud_frame)))
      (Some (mk_audio_buffer 1 (Some loud_frame))) (Some (mk_timespec 100 0))
    = Done (- ENODATA, st') /\
    active_outputs_list st'
    = active_outputs_list (one_session (created_context 5)) /\
    map fst (created_effects_list st')
    = map fst (created_effects_list (one_session (created_context 5))) /\
    deref (created_effects_list st') 16 = Some visu_ctxt' /\
    same_settings (created_context 5) visu_ctxt' /\
    last_capture_idx visu_ctxt' = last_capture_idx (created_context 5).
Proof.
  assert (Hd : deref (created_effects_list (one_session (created_context 5))) 16
               = Some (created_context 5)) by reflexivity.
  assert (Hb : wf_block 1 loud_frame) by (unfold wf_block, loud_frame; cbn; lia).
  destruct (visualizer_process_done (one_session (created_context 5)) 16
              (created_context 5) 1 loud_frame loud_frame
              (Some (mk_timespec 100 0)) Hd (created_context_wf 5) Hb)
    as (shift & buf' & _ & _ & Hrun & _).
  destruct (process_touches_one_session _ _ _ _ _ _ _ Hrun)
    as (Ho & _ & _ & Hm & _ & Hc).
  destruct (Hc (created_context 5) Hd) as (visu_ctxt' & Hd' & Hs & Hl).
  eexists _, visu_ctxt'. split; [exact Hrun|].
  split; [exact Ho|]. split; [exact Hm|]. split; [exact Hd'|].
  split; [exact Hs|exact Hl].
Defined.

Lemma capture_loop_forall_samples (P : Z -> Prop) s16 shift :
  (forall i l r,
     s16 !! (2 * i)%nat = Some l -> s16 !! (2 * i + 1)%nat = Some r ->
     P (frame_byte shift l r)) ->
  forall n i c buf buf' c',
    Forall P buf ->
    capture_loop s16 shift i n c buf = Done (c', buf') ->
    Forall P buf'.
Proof.
  intros HP. induction n as [|n IH]; intros i c buf buf' c' Hbuf Hrun.
  - cbn in Hrun. congruence.
  - cbn [capture_loop] in Hrun. unfold s16_at in Hrun.
    destruct (s16 !! (2 * i)%nat) as [l|] eqn:Hl; [|discriminate].
    destruct (s16 !! (2 * i + 1)%nat) as [r|] eqn:Hr; [|discriminate].
    cbn [obind] in Hrun. fold (frame_byte shift l r) in Hrun.
    eapply IH; [|exact Hrun].
    apply Forall_insert; [exact Hbuf|apply (HP i); assumption].
Qed.

Lemma frame_byte_silence shift : frame_byte shift 0 0 = 128.
Proof.
  unfold frame_byte, u8. cbn [Z.add]. rewrite Z.shiftr_0_l. reflexivity.
Qed.

(** A block of zero samples is written as the byte 0x80: every frame of
    the block (of its last 65536 frames when it is longer) leaves 0x80 at
    its ring position, and a ring that held only 0x80 holds only 0x80
    afterwards. *)
Theorem zero_block_is_written_as_silence
    st context visu_ctxt fc s16 o16 clock :
  deref (created_effects_list st) context = Some visu_ctxt ->
  wf_context visu_ctxt ->
  wf_block fc s16 ->
  Forall (fun smp => smp = 0) s16 ->
  exists status st' visu_ctxt',
    visualizer_process st context
      (Some (mk_audio_buffer fc (Some s16)))
      (Some (mk_audio_buffer fc (Some o16))) clock
    = Done (status, st') /\
    deref (created_effects_list st') context = Some visu_ctxt' /\
    (forall k, (k < Z.to_nat fc)%nat ->
       fc - Z.of_nat k <= CAPTURE_BUF_SIZE ->
       capture_buf visu_ctxt' !! ring_pos (capture_idx visu_ctxt) k = Some 128) /\
    (Forall (fun b => b = 128) (capture_buf visu_ctxt) ->
     Forall (fun b => b = 128) (capture_buf visu_ctxt')).
Proof.
  intros Hderef Hwf Hblock Hzero.
  destruct (visualizer_process_done st context visu_ctxt fc s16 o16 clock
              Hderef Hwf Hblock) as (shift & buf' & _ & Hloop & Hrun & _ & Hw).
  assert (Hsmp : forall i x, s16 !! i = Some x -> x = 0).
  { intros i x Hx. exact (proj1 (Forall_lookup _ s16) Hzero i x Hx). }
  eexists _, _, _. split; [exact Hrun|]. cbn [created_effects_list].
  split; [apply (deref_assign _ _ _ _ Hderef)|].
  unfold processed_context. cbn [capture_buf set_buffer_update_time
    set_capture_idx set_capture_buf]. split.
  - intros k Hk Hlast. destruct Hblock as (_ & _ & Hlen).
    destruct (lookup_lt_is_Some_2 s16 (2 * k)) as [l Hl]; [lia|].
    destruct (lookup_lt_is_Some_2 s16 (2 * k + 1)) as [r Hr]; [lia|].
    rewrite (Hw k l r Hk Hlast Hl Hr).
    rewrite (Hsmp _ _ Hl), (Hsmp _ _ Hr), frame_byte_silence. reflexivity.
  - intros Hbuf.
    eapply (capture_loop_forall_samples (fun b => b = 128));
      [|exact Hbuf|exact Hloop].
    intros i l r Hl Hr.
    rewrite (Hsmp _ _ Hl), (Hsmp _ _ Hr). apply frame_byte_silence.
Qed.

Lemma zero_block_is_written_as_silence_witness :
  exists status st' visu_ctxt',
    visualizer_process (one_session (created_context 5)) 16
      (Some (mk_audio_buffer 1 (Some [0; 0])))
      (Some (mk_audio_buffer 1 (Some [0; 0]))) None
    = Done (status, st') /\
    deref (created_effects_list st') 16 = Some visu_ctxt' /\
    capture_buf visu_ctxt' !! 0%nat = Some 128.
Proof.
  destruct (zero_block_is_written_as_silence (one_session (created_context 5))
              16 (created_context 5) 1 [0; 0] [0; 0] None)
    as (status & st' & c' & Hrun & Hd & Hw & _).
  - reflexivity.
  - apply created_context_wf.
  - unfold wf_block. cbn. lia.
  - repeat constructor.
  - exists status, st', c'. split; [exact Hrun|]. split; [exact Hd|].
    exact (Hw 0%nat ltac:(cbn; lia) ltac:(unfold CAPTURE_BUF_SIZE; lia)).
Defined.

(** ** What a snapshot returns *)

Lemma spec_window_lookup visu_ctxt capture_point j :
  length (capture_buf visu_ctxt) = Z.to_nat CAPTURE_BUF_SIZE ->
  0 <= capture_size visu_ctxt <= CAPTURE_BUF_SIZE ->
  - CAPTURE_BUF_SIZE <= capture_point ->
  capture_point + capture_size visu_ctxt <= CAPTURE_BUF_SIZE ->
  0 <= j < capture_size visu_ctxt ->
  spec_window visu_ctxt capture_point !! Z.to_nat j
  = capture_buf visu_ctxt
      !! Z.to_nat ((capture_point + j) mod CAPTURE_BUF_SIZE).
Proof.
  unfold CAPTURE_BUF_SIZE. intros Hbuf Hsize Hlo Hhi Hj.
  assert (Hbuf' : Z.of_nat (length (capture_buf visu_ctxt)) = 65536) by lia.
  clear Hbuf. unfold spec_window, CAPTURE_BUF_SIZE.
  destruct (Z.ltb_spec capture_point 0) as [Hneg|Hpos].
  - destruct (Z.lt_ge_cases j (- capture_point)) as [Hfirst|Hsecond].
    + rewrite lookup_app_l by (rewrite length_take, length_drop; lia).
      rewrite lookup_take_lt by lia. rewrite lookup_drop. f_equal.
      replace (capture_point + j) with (65536 + capture_point + j + (-1) * 65536)
        by lia.
      rewrite Z.mod_add by lia. rewrite Z.mod_small by lia. lia.
    + rewrite Z.min_l by lia.
      rewrite lookup_app_r by (rewrite length_take, length_drop; lia).
      rewrite length_take, length_drop.
      rewrite lookup_take_lt by lia. f_equal.
      rewrite Z.mod_small by lia. lia.
  - rewrite lookup_take_lt by lia. rewrite lookup_drop. f_equal.
    rewrite Z.mod_small by lia. lia.
Qed.

Lemma wf_context_in_range visu_ctxt ts' :
  length (capture_buf visu_ctxt) = Z.to_nat CAPTURE_BUF_SIZE ->
  1 <= capture_idx visu_ctxt <= CAPTURE_BUF_SIZE ->
  0 <= capture_size visu_ctxt <= CAPTURE_BUF_SIZE ->
  0 <= samplingRate visu_ctxt ->
  latency visu_ctxt = DSP_OUTPUT_LATENCY_MS ->
  wf_timespec (buffer_update_time visu_ctxt) -> wf_timespec ts' ->
  0 <= elapsed_ms visu_ctxt (Some ts') < 2 ^ 31 ->
  snapshot_in_range visu_ctxt (Some ts') /\
  spec_capture_point visu_ctxt (elapsed_ms visu_ctxt (Some ts'))
  = capture_idx visu_ctxt - capture_size visu_ctxt.
Proof.
  intros Hbuf Hidx Hsize Hrate Hlat Ht0 Ht1 He.
  assert (Hcp : spec_capture_point visu_ctxt (elapsed_ms visu_ctxt (Some ts'))
                = capture_idx visu_ctxt - capture_size visu_ctxt).
  { unfold spec_capture_point, spec_latency_samples.
    rewrite Hlat. unfold DSP_OUTPUT_LATENCY_MS.
    rewrite Z.max_l by (clear Hbuf; lia). rewrite Z.mul_0_r.
    change (0 / 1000) with 0. apply Z.sub_0_r. }
  split; [|exact Hcp].
  split; [|clear Hbuf; lia]. unfold session_in_range.
  split; [exact Hbuf|]. clear Hbuf.
  rewrite Hcp, Hlat. unfold DSP_OUTPUT_LATENCY_MS, CAPTURE_BUF_SIZE in *.
  repeat (split; [assumption || lia|]). lia.
Qed.

(** Round trip through the ring: after a block of at most 65536 frames is
    processed on an Active session with offload enabled, a snapshot of a
    window no longer than the block, taken no later than 1000 ms after it,
    returns the bytes of the last frames of the block, in order: byte [j]
    of the reply is [((left + right) >> shift) mod 256 xor 0x80] of frame
    [frameCount - window + j], wherever the write cursor stood and whether
    or not the window wraps around the end of the ring. *)
Theorem process_then_snapshot_round_trip
    st context visu_ctxt fc s16 o16 ts ts' reply :
  deref (created_effects_list st) context = Some visu_ctxt ->
  wf_context visu_ctxt ->
  wf_block fc s16 ->
  state visu_ctxt = EFFECT_STATE_ACTIVE ->
  offload_enabled visu_ctxt = true ->
  latency visu_ctxt = DSP_OUTPUT_LATENCY_MS ->
  0 <= samplingRate visu_ctxt ->
  0 < capture_size visu_ctxt <= fc ->
  fc <= CAPTURE_BUF_SIZE ->
  wf_timespec ts -> wf_timespec ts' ->
  0 <= ms_between ts ts' <= MAX_STALL_TIME_MS ->
  Z.of_nat (length reply) = capture_size visu_ctxt ->
  exists shift st' visu_ctxt' visu_ctxt'' reply',
    process_shift (scaling_mode visu_ctxt) fc s16 = Done shift /\
    visualizer_process st context
      (Some (mk_audio_buffer fc (Some s16)))
      (Some (mk_audio_buffer fc (Some o16))) (Some ts)
    = Done (0, st') /\
    deref (created_effects_list st') context = Some visu_ctxt' /\
    visualizer_command visu_ctxt' VISUALIZER_CMD_CAPTURE
      (Z.of_nat (length reply)) (Some reply) (Some ts')
    = Done (0, visu_ctxt'', Some reply') /\
    (forall (j : nat) l r,
       (j < length reply)%nat ->
       s16 !! (2 * (Z.to_nat fc - length reply + j))%nat = Some l ->
       s16 !! (2 * (Z.to_nat fc - length reply + j) + 1)%nat = Some r ->
       reply' !! j = Some (frame_byte shift l r)).
Proof.
  intros Hderef Hwf Hblock Hact Hoff Hlat Hrate Hsize Hfc Hts Hts' Hms Hreply.
  destruct (visualizer_process_done st context visu_ctxt fc s16 o16 (Some ts)
              Hderef Hwf Hblock) as (shift & buf' & Hshift & _ & Hrun & Hlen & Hw).
  rewrite Hact, Z.eqb_refl in Hrun.
  destruct Hwf as (Hlen0 & Hidx & _). pose proof Hblock as (Hpos & _ & _).
  set (n := Z.to_nat fc) in *.
  set (c' := processed_context visu_ctxt buf' n (Some ts)) in *.
  pose proof (cursor_after_range (capture_idx visu_ctxt) n Hidx
                ltac:(unfold n; lia)) as Hcur.
  assert (He : elapsed_ms c' (Some ts') = ms_between ts ts') by reflexivity.
  unfold MAX_STALL_TIME_MS in Hms.
  destruct (wf_context_in_range c' ts') as [Hr Hcp].
  { change (length buf' = Z.to_nat CAPTURE_BUF_SIZE). congruence. }
  { exact Hcur. }
  { change (0 <= capture_size visu_ctxt <= CAPTURE_BUF_SIZE). lia. }
  { exact Hrate. }
  { exact Hlat. }
  { exact Hts. }
  { exact Hts'. }
  { rewrite He. lia. }
  assert (Hstall : stall_declared c' (Some ts') = false).
  { unfold stall_declared. rewrite He. apply andb_false_intro2.
    unfold MAX_STALL_TIME_MS. rewrite Z.gtb_ltb. apply Z.ltb_ge. lia. }
  exists shift. eexists. exists c'. eexists. eexists.
  split; [exact Hshift|]. split; [exact Hrun|].
  split; [apply (deref_assign _ _ _ _ Hderef)|].
  split; [apply command_window; [exact Hact|exact Hoff|exact Hreply|exact Hr|exact Hstall]|].
  intros j l r Hj Hl Hr'.
  rewrite Hcp. change (capture_size c') with (capture_size visu_ctxt).
  change (capture_idx c') with (cursor_after (capture_idx visu_ctxt) n).
  rewrite <- (Nat2Z.id j).
  rewrite spec_window_lookup.
  - change (capture_buf c') with buf'.
    rewrite <- (Hw (n - length reply + j)%nat l r); try assumption.
    + unfold ring_pos. do 2 f_equal.
      destruct n as [|n'] eqn:En; [unfold n in En; lia|].
      cbn [cursor_after].
      replace (wrap_cursor (capture_idx visu_ctxt)
               + Z.of_nat (S n' - length reply + j))
        with (wrap_cursor (capture_idx visu_ctxt) + Z.of_nat n'
              + (1 - capture_size visu_ctxt + Z.of_nat j)) by lia.
      rewrite <- (Zplus_mod_idemp_l
                    (wrap_cursor (capture_idx visu_ctxt) + Z.of_nat n')).
      f_equal. lia.
    + unfold n in *. lia.
    + unfold n in *. unfold CAPTURE_BUF_SIZE in *. lia.
  - change (length buf' = Z.to_nat CAPTURE_BUF_SIZE). congruence.
  - change (0 <= capture_size visu_ctxt <= CAPTURE_BUF_SIZE). lia.
  - unfold CAPTURE_BUF_SIZE in *. lia.
  - change (capture_size c') with (capture_size visu_ctxt). lia.
  - change (capture_size c') with (capture_size visu_ctxt). lia.
Qed.

Lemma wf_context_set_state v c : wf_context c -> wf_context (set_state v c).
Proof. intros H. exact H. Qed.

Lemma wf_context_set_offload_enabled v c :
  wf_context c -> wf_context (set_offload_enabled v c).
Proof. intros H. exact H. Qed.

Lemma wf_context_set_capture_size v c :
  wf_context c -> wf_context (set_capture_size v c).
Proof. intros H. exact H. Qed.

Lemma listening_session_wf : wf_context listening_session.
Proof.
  apply wf_context_set_state, wf_context_set_offload_enabled,
    wf_context_set_capture_size, created_context_wf.
Qed.

Lemma process_then_snapshot_round_trip_witness :
  exists shift st' visu_ctxt' visu_ctxt'' reply',
    process_shift (scaling_mode listening_session) 1 loud_frame = Done shift /\
    visualizer_process (one_session listening_session) 16
      (Some (mk_audio_buffer 1 (Some loud_frame)))
      (Some (mk_audio_buffer 1 (Some loud_frame))) (Some (mk_timespec 100 0))
    = Done (0, st') /\
    deref (created_effects_list st') 16 = Some visu_ctxt' /\
    visualizer_command visu_ctxt' VISUALIZER_CMD_CAPTURE 1 (Some [0])
      (Some (mk_timespec 100 500000000))
    = Done (0, visu_ctxt'', Some reply') /\
    reply' !! 0%nat = Some (frame_byte shift 16384 16384).
Proof.
  destruct (process_then_snapshot_round_trip (one_session listening_session) 16
              listening_session 1 loud_frame loud_frame (mk_timespec 100 0)
              (mk_timespec 100 500000000) [0])
    as (shift & st' & c' & c'' & reply' & Hs & Hp & Hd & Hc & Hw).
  - reflexivity.
  - exact listening_session_wf.
  - unfold wf_block, loud_frame. cbn. lia.
  - reflexivity.
  - reflexivity.
  - reflexivity.
  - change (0 <= 44100). lia.
  - change (0 < 1 <= 1). lia.
  - unfold CAPTURE_BUF_SIZE. lia.
  - unfold wf_timespec. cbn. lia.
  - unfold wf_timespec. cbn. lia.
  - change (0 <= 500 <= 1000). lia.
  - reflexivity.
  - exists shift, st', c', c'', reply'.
    split; [exact Hs|]. split; [exact Hp|]. split; [exact Hd|].
    split; [exact Hc|].
    exact (Hw 0%nat 16384 16384 ltac:(cbn; lia) eq_refl eq_refl).
Defined.

Lemma capture_stall_settings visu_ctxt delta_ms pReplyData reply r :
  capture_stall visu_ctxt delta_ms pReplyData reply = Done r ->
  same_settings visu_ctxt (fst r) /\
  capture_idx (fst r) = capture_idx visu_ctxt /\
  capture_buf (fst r) = capture_buf visu_ctxt /\
  last_capture_idx (fst r) = capture_idx visu_ctxt.
Proof.
  unfold capture_stall, same_settings.
  destruct ((last_capture_idx visu_ctxt =? capture_idx visu_ctxt)
            && negb (tv_sec (buffer_update_time visu_ctxt) =? 0)).
  - destruct (delta_ms >? MAX_STALL_TIME_MS).
    + destruct (memset _ _ _ _) as [reply'| |]; cbn [obind]; try discriminate.
      intros H. injection H as <-. cbn. repeat split; reflexivity.
    + cbn [obind]. intros H. injection H as <-. cbn. repeat split; reflexivity.
  - cbn [obind]. intros H. injection H as <-. cbn. repeat split; reflexivity.
Qed.

(** The capture command only reads the ring: whatever it returns, the
    ring, the write cursor, the sampling rate, output, state, offload
    flag, window size, scaling mode and latency of the session are as
    before; it writes at most the time stamp and the last-read cursor. *)
Theorem command_reads_the_ring_only
    visu_ctxt cmdCode replySize pReplyData clock status visu_ctxt' reply' :
  visualizer_command visu_ctxt cmdCode replySize pReplyData clock
  = Done (status, visu_ctxt', reply') ->
  capture_buf visu_ctxt' = capture_buf visu_ctxt /\
  capture_idx visu_ctxt' = capture_idx visu_ctxt /\
  same_settings visu_ctxt visu_ctxt'.
Proof.
  assert (Hsame : forall c, capture_buf c = capture_buf c /\
                            capture_idx c = capture_idx c /\ same_settings c c)
    by (intros c; unfold same_settings; repeat split; reflexivity).
  unfold visualizer_command.
  destruct (cmdCode =? VISUALIZER_CMD_CAPTURE);
    [|intros H; injection H as _ <- _; apply Hsame].
  destruct pReplyData as [reply|];
    [|intros H; injection H as _ <- _; apply Hsame].
  destruct (negb (replySize =? capture_size visu_ctxt));
    [intros H; injection H as _ <- _; apply Hsame|].
  destruct (negb (offload_enabled visu_ctxt));
    [intros H; injection H as _ <- _; apply Hsame|].
  destruct (state visu_ctxt =? EFFECT_STATE_ACTIVE).
  - destruct (capture_delta visu_ctxt clock) as [delta_ms latency_ms].
    destruct (capture_copy _ _ _) as [r| |]; cbn [obind]; try discriminate.
    destruct (capture_stall _ _ _ _) as [r'| |] eqn:Hst; cbn [obind];
      try discriminate.
    intros H. injection H as _ <- _.
    destruct (capture_stall_settings _ _ _ _ _ Hst) as (H1 & H2 & H3 & _).
    auto.
  - destruct (memset _ _ _ _) as [r| |]; cbn [obind]; try discriminate.
    intros H. injection H as _ <- _. apply Hsame.
Qed.

Lemma command_reads_the_ring_only_witness :
  exists visu_ctxt' reply',
    visualizer_command played_session VISUALIZER_CMD_CAPTURE 4
      (Some [0; 0; 0; 0]) (Some (mk_timespec 102 0))
    = Done (0, visu_ctxt', Some reply') /\
    reply' !! 0%nat = Some 192 /\
    last_capture_idx visu_ctxt' = 8 /\
    capture_buf visu_ctxt' = capture_buf played_session /\
    capture_idx visu_ctxt' = capture_idx played_session /\
    same_settings played_session visu_ctxt'.
Proof.
  assert (Hr : snapshot_in_range played_session (Some (mk_timespec 102 0))).
  { split.
    - apply sample_session_in_range.
      + rewrite length_replicate. unfold CAPTURE_BUF_SIZE. lia.
      + unfold CAPTURE_BUF_SIZE. lia.
      + unfold wf_timespec. cbn. lia.
      + unfold wf_timespec. cbn. lia.
      + change (0 <= 2000). lia.
    - change (2000 < 2 ^ 31). lia. }
  pose proof (command_window played_session [0; 0; 0; 0]
                (Some (mk_timespec 102 0)) eq_refl eq_refl eq_refl Hr eq_refl)
    as Hrun.
  eexists _, _. split; [exact Hrun|]. split.
  { apply spec_window_first; [cbn; lia|].
    apply ring_of_head. reflexivity. }
  split; [reflexivity|].
  exact (command_reads_the_ring_only _ _ _ _ _ _ _ _ Hrun).
Defined.

(** The capture command answers -EINVAL, and changes neither the session
    nor the reply block, when the reply pointer is null, when the reply
    size is not the configured window size, and for every other command
    code. *)
Theorem command_rejects visu_ctxt cmdCode replySize pReplyData clock :
  cmdCode <> VISUALIZER_CMD_CAPTURE \/ pReplyData = None \/
  replySize <> capture_size visu_ctxt ->
  visualizer_command visu_ctxt cmdCode replySize pReplyData clock
  = Done (- EINVAL, visu_ctxt, pReplyData).
Proof.
  intros H. unfold visualizer_command.
  destruct (Z.eqb_spec cmdCode VISUALIZER_CMD_CAPTURE) as [Hc|Hc]; [|reflexivity].
  destruct pReplyData as [reply|]; [|reflexivity].
  destruct (Z.eqb_spec replySize (capture_size visu_ctxt)) as [Hs|Hs];
    [|reflexivity].
  destruct H as [H|[H|H]]; [contradiction|discriminate|contradiction].
Qed.

Lemma command_rejects_witness :
  visualizer_command played_session VISUALIZER_CMD_CAPTURE 3 (Some [1; 2; 3])
    None
  = Done (- EINVAL, played_session, Some [1; 2; 3]).
Proof.
  apply command_rejects. right. right.
  change (3 <> 4). lia.
Defined.

Lemma spec_window_of_silence visu_ctxt capture_point :
  length (capture_buf visu_ctxt) = Z.to_nat CAPTURE_BUF_SIZE ->
  0 <= capture_size visu_ctxt <= CAPTURE_BUF_SIZE ->
  - CAPTURE_BUF_SIZE <= capture_point ->
  capture_point + capture_size visu_ctxt <= CAPTURE_BUF_SIZE ->
  Forall (fun b => 128 = b) (capture_buf visu_ctxt) ->
  spec_window visu_ctxt capture_point
  = replicate (Z.to_nat (capture_size visu_ctxt)) 128.
Proof.
  intros Hbuf Hsize Hlo Hhi Hall. symmetry. apply replicate_as_Forall_2.
  - apply Nat2Z.inj. rewrite length_spec_window by assumption.
    clear Hbuf. lia.
  - unfold spec_window. destruct (capture_point <? 0).
    + apply Forall_app_2; apply Forall_take; [apply Forall_drop|]; exact Hall.
    + apply Forall_take, Forall_drop, Hall.
Qed.

(** The capture command on an Active session whose time stamp is unset:
    the clock is not used, no stall is declared, and the reply is the
    window before the write cursor. *)
Lemma command_unset_stamp visu_ctxt reply clock :
  state visu_ctxt = EFFECT_STATE_ACTIVE ->
  offload_enabled visu_ctxt = true ->
  tv_sec (buffer_update_time visu_ctxt) = 0 ->
  latency visu_ctxt = DSP_OUTPUT_LATENCY_MS ->
  length (capture_buf visu_ctxt) = Z.to_nat CAPTURE_BUF_SIZE ->
  0 <= capture_idx visu_ctxt <= CAPTURE_BUF_SIZE ->
  capture_size visu_ctxt <= CAPTURE_BUF_SIZE ->
  Z.of_nat (length reply) = capture_size visu_ctxt ->
  visualizer_command visu_ctxt VISUALIZER_CMD_CAPTURE
    (Z.of_nat (length reply)) (Some reply) clock
  = Done (0, set_last_capture_idx (capture_idx visu_ctxt) visu_ctxt,
          Some (spec_window visu_ctxt
                  (capture_idx visu_ctxt - capture_size visu_ctxt))).
Proof.
  intros Hact Hoff Htv Hlat Hbuf Hidx Hsize Hreply.
  assert (Hsize0 : 0 <= capture_size visu_ctxt) by (clear Hbuf; lia).
  unfold visualizer_command.
  rewrite Z.eqb_refl, Hreply, Z.eqb_refl, Hoff, Hact, Z.eqb_refl. cbn [negb].
  assert (Hd : capture_delta visu_ctxt clock = (0, 0)).
  { unfold capture_delta. rewrite Htv, Hlat. reflexivity. }
  rewrite Hd.
  assert (Hcp : capture_point_of visu_ctxt 0
                = capture_idx visu_ctxt - capture_size visu_ctxt).
  { unfold capture_point_of. rewrite Z.mul_0_r.
    change (u32 0 / 1000) with 0. rewrite Z.sub_0_r, s32_u32.
    apply s32_small. unfold CAPTURE_BUF_SIZE in *. clear Hbuf. lia. }
  rewrite Hcp.
  rewrite capture_copy_spec; try assumption; try (clear Hbuf; lia).
  cbn [obind fst snd].
  rewrite capture_stall_not_declared; [reflexivity|].
  rewrite Htv. cbn [Z.eqb negb]. rewrite andb_false_r. reflexivity.
Qed.

(** After [visualizer_reset] an Active session with offload enabled and
    a capture window of at most 65536 bytes, queried with a reply block of
    the window size, answers a snapshot with 0x80 only, whatever the ring
    held before the reset and whatever the clock reads, and the snapshot
    leaves the reset session as it is.  (Nothing bounds the window size a
    client sets: a larger one reads past the ring.) *)
Theorem snapshot_after_reset_is_silence visu_ctxt reply clock :
  state visu_ctxt = EFFECT_STATE_ACTIVE ->
  offload_enabled visu_ctxt = true ->
  capture_size visu_ctxt <= CAPTURE_BUF_SIZE ->
  Z.of_nat (length reply) = capture_size visu_ctxt ->
  visualizer_command (snd (visualizer_reset visu_ctxt)) VISUALIZER_CMD_CAPTURE
    (Z.of_nat (length reply)) (Some reply) clock
  = Done (0, snd (visualizer_reset visu_ctxt),
          Some (replicate (length reply) 128)).
Proof.
  intros Hact Hoff Hsize Hreply.
  set (c := snd (visualizer_reset visu_ctxt)).
  assert (Hbuf : length (capture_buf c) = Z.to_nat CAPTURE_BUF_SIZE)
    by apply length_replicate.
  rewrite (command_unset_stamp c reply clock); try assumption; try reflexivity.
  - rewrite spec_window_of_silence.
    + change (capture_size c) with (capture_size visu_ctxt).
      rewrite <- Hreply, Nat2Z.id. reflexivity.
    + exact Hbuf.
    + change (0 <= capture_size visu_ctxt <= CAPTURE_BUF_SIZE). clear Hbuf. lia.
    + change (- CAPTURE_BUF_SIZE <= 0 - capture_size visu_ctxt). clear Hbuf. lia.
    + change (0 - capture_size visu_ctxt + capture_size visu_ctxt
              <= CAPTURE_BUF_SIZE). unfold CAPTURE_BUF_SIZE. clear Hbuf. lia.
    + apply Forall_replicate. reflexivity.
  - change (0 <= 0 <= CAPTURE_BUF_SIZE). unfold CAPTURE_BUF_SIZE. lia.
Qed.

Lemma snapshot_after_reset_is_silence_witness :
  visualizer_command (snd (visualizer_reset played_session))
    VISUALIZER_CMD_CAPTURE 4 (Some [1; 2; 3; 4]) (Some (mk_timespec 102 0))
  = Done (0, snd (visualizer_reset played_session), Some [128; 128; 128; 128]).
Proof.
  apply (snapshot_after_reset_is_silence played_session [1; 2; 3; 4]).
  - reflexivity.
  - reflexivity.
  - change (4 <= CAPTURE_BUF_SIZE). unfold CAPTURE_BUF_SIZE. lia.
  - reflexivity.
Defined.

(** The silence of a stall is returned once.  When a snapshot declares a
    stall (window not wrapping) it answers 0x80 only and unsets the time
    stamp, leaving the ring and the write cursor as they are; the next
    snapshot, with no block processed in between and whatever the clock
    reads then, declares no stall and returns the ring window before the
    write cursor again, and so does every later one. *)
Theorem stall_silence_is_returned_once
    visu_ctxt reply reply2 clock clock2 :
  state visu_ctxt = EFFECT_STATE_ACTIVE ->
  offload_enabled visu_ctxt = true ->
  latency visu_ctxt = DSP_OUTPUT_LATENCY_MS ->
  Z.of_nat (length reply) = capture_size visu_ctxt ->
  Z.of_nat (length reply2) = capture_size visu_ctxt ->
  snapshot_in_range visu_ctxt clock ->
  stall_declared visu_ctxt clock = true ->
  0 <= capture_idx visu_ctxt - capture_size visu_ctxt ->
  exists visu_ctxt',
    visualizer_command visu_ctxt VISUALIZER_CMD_CAPTURE
      (Z.of_nat (length reply)) (Some reply) clock
    = Done (0, visu_ctxt', Some (replicate (length reply) 128)) /\
    tv_sec (buffer_update_time visu_ctxt') = 0 /\
    capture_buf visu_ctxt' = capture_buf visu_ctxt /\
    capture_idx visu_ctxt' = capture_idx visu_ctxt /\
    visualizer_command visu_ctxt' VISUALIZER_CMD_CAPTURE
      (Z.of_nat (length reply2)) (Some reply2) clock2
    = Done (0, visu_ctxt',
            Some (spec_window visu_ctxt
                    (capture_idx visu_ctxt - capture_size visu_ctxt))).
Proof.
  intros Hact Hoff Hlat Hreply Hreply2 Hr Hstall Hcp.
  pose proof Hr as [(Hbuf & Hidx & Hsize & Hrate & _) _].
  assert (Hcp' : spec_capture_point visu_ctxt (elapsed_ms visu_ctxt clock)
                 = capture_idx visu_ctxt - capture_size visu_ctxt).
  { destruct Hr as [(_ & _ & _ & _ & _ & _ & _ & _ & He & _) _].
    unfold spec_capture_point, spec_latency_samples.
    rewrite Hlat. unfold DSP_OUTPUT_LATENCY_MS.
    rewrite Z.max_l by (clear Hbuf; lia). rewrite Z.mul_0_r.
    change (0 / 1000) with 0. apply Z.sub_0_r. }
  eexists. split; [|split; [|split; [|split]]].
  - apply command_stalled; try assumption. rewrite Hcp'. exact Hcp.
  - reflexivity.
  - reflexivity.
  - reflexivity.
  - set (c1 := set_last_capture_idx _ _).
    rewrite (command_unset_stamp c1 reply2 clock2); try assumption;
      try reflexivity.
    all: subst c1;
      cbn [capture_idx capture_size set_last_capture_idx set_buffer_update_time];
      clear Hbuf; lia.
Qed.

Lemma stall_silence_is_returned_once_witness :
  exists visu_ctxt',
    visualizer_command queried_session VISUALIZER_CMD_CAPTURE
      4 (Some [1; 2; 3; 4]) (Some (mk_timespec 102 0))
    = Done (0, visu_ctxt', Some [128; 128; 128; 128]) /\
    tv_sec (buffer_update_time visu_ctxt') = 0 /\
    capture_buf visu_ctxt' = capture_buf queried_session /\
    capture_idx visu_ctxt' = capture_idx queried_session /\
    visualizer_command visu_ctxt' VISUALIZER_CMD_CAPTURE
      4 (Some [5; 6; 7; 8]) (Some (mk_timespec 200 0))
    = Done (0, visu_ctxt', Some (spec_window queried_session 4)).
Proof.
  apply (stall_silence_is_returned_once queried_session [1; 2; 3; 4]
           [5; 6; 7; 8] (Some (mk_timespec 102 0)) (Some (mk_timespec 200 0)));
    try reflexivity.
  - split.
    + apply sample_session_in_range.
      * rewrite length_replicate. unfold CAPTURE_BUF_SIZE. lia.
      * unfold CAPTURE_BUF_SIZE. lia.
      * unfold wf_timespec. cbn. lia.
      * unfold wf_timespec. cbn. lia.
      * change (0 <= 2000). lia.
    + change (2000 < 2 ^ 31). lia.
  - change (0 <= 4). lia.
Defined.

(** ** The HAL hooks and the attached sessions *)

Lemma attach_created_filter l output : forall effects,
  attach_created l output effects
  = effects
    ++ map fst (List.filter (fun p => out_handle (snd p) =? output) l).
Proof.
  induction l as [|[a c] l IH]; intros effects; cbn.
  - rewrite app_nil_r. reflexivity.
  - rewrite IH. destruct (out_handle c =? output); cbn; [|reflexivity].
    rewrite <- app_assoc. reflexivity.
Qed.

(** [visualizer_hal_start_output] on an output that is not bound leaves
    the created sessions as they are and appends one binding to the bound
    outputs: the binding of that output, holding exactly the created
    sessions whose output is the one started, in creation order. *)
Theorem start_output_attaches_matching_sessions ret_uninit status output st :
  get_output (active_outputs_list st) output = None ->
  created_effects_list
    (snd (visualizer_hal_start_output ret_uninit status output st))
  = created_effects_list st /\
  active_outputs_list
    (snd (visualizer_hal_start_output ret_uninit status output st))
  = active_outputs_list st
    ++ [mk_output_context output
          (map fst (List.filter (fun p => out_handle (snd p) =? output)
                      (created_effects_list st)))] /\
  (forall a,
     In a (map fst (List.filter (fun p => out_handle (snd p) =? output)
                      (created_effects_list st)))
     <-> exists c, In (a, c) (created_effects_list st) /\ out_handle c = output).
Proof.
  intros H. unfold visualizer_hal_start_output. rewrite H.
  rewrite attach_created_filter. cbn [app].
  split; [destruct (active_outputs_list st); reflexivity|].
  split; [destruct (active_outputs_list st); reflexivity|].
  intros a. rewrite in_map_iff. split.
  - intros ([a' c] & <- & Hin). apply filter_In in Hin as [Hin Hout].
    exists c. split; [exact Hin|]. apply Z.eqb_eq, Hout.
  - intros (c & Hin & Hout). exists (a, c). split; [reflexivity|].
    apply filter_In. split; [exact Hin|]. apply Z.eqb_eq, Hout.
Qed.

Lemma start_output_attaches_matching_sessions_witness :
  active_outputs_list
    (snd (visualizer_hal_start_output 0 0 5 (one_session (created_context 5))))
  = [mk_output_context 5 [16]].
Proof.
  exact (proj1 (proj2 (start_output_attaches_matching_sessions 0 0 5
                         (one_session (created_context 5)) eq_refl))).
Defined.

(** An output is bound once.  After [visualizer_hal_start_output] on an
    unbound output, a second start of the same output returns -ENOSYS and
    changes nothing; [visualizer_hal_stop_output] then gives back the
    bound outputs and created sessions there were before the start, and a
    second stop returns -ENOSYS and changes nothing. *)
Theorem output_is_bound_once ret1 ret2 ret3 ret4 status1 status2 output st :
  get_output (active_outputs_list st) output = None ->
  visualizer_hal_start_output ret2 status2 output
    (snd (visualizer_hal_start_output ret1 status1 output st))
  = (- ENOSYS, snd (visualizer_hal_start_output ret1 status1 output st)) /\
  active_outputs_list
    (snd (visualizer_hal_stop_output ret3 output
            (snd (visualizer_hal_start_output ret1 status1 output st))))
  = active_outputs_list st /\
  created_effects_list
    (snd (visualizer_hal_stop_output ret3 output
            (snd (visualizer_hal_start_output ret1 status1 output st))))
  = created_effects_list st /\
  visualizer_hal_stop_output ret4 output
    (snd (visualizer_hal_stop_output ret3 output
            (snd (visualizer_hal_start_output ret1 status1 output st))))
  = (- ENOSYS,
     snd (visualizer_hal_stop_output ret3 output
            (snd (visualizer_hal_start_output ret1 status1 output st)))).
Proof.
  intros H.
  destruct (start_output_registers ret1 status1 output st H) as [_ Hreg].
  split; [eapply start_output_already_started, Hreg|].
  assert (Hst : exists ex ts,
    snd (visualizer_hal_start_output ret1 status1 output st)
    = mk_lib_state (created_effects_list st)
        (active_outputs_list st
         ++ [mk_output_context output
               (attach_created (created_effects_list st) output [])])
        ex ts).
  { unfold visualizer_hal_start_output. rewrite H.
    destruct (active_outputs_list st); eexists _, _; reflexivity. }
  destruct Hst as (ex & ts & ->).
  destruct (stop_output_unregisters ret3 output (active_outputs_list st)
              (mk_output_context output
                 (attach_created (created_effects_list st) output []))
              (created_effects_list st) ex ts H eq_refl) as [_ Houts].
  split; [exact Houts|].
  assert (Hcr : created_effects_list
            (snd (visualizer_hal_stop_output ret3 output
               (mk_lib_state (created_effects_list st)
                  (active_outputs_list st
                   ++ [mk_output_context output
                         (attach_created (created_effects_list st) output [])])
                  ex ts)))
          = created_effects_list st).
  { unfold visualizer_hal_stop_output. cbn [active_outputs_list].
    rewrite (get_output_app_new (active_outputs_list st) output
               (mk_output_context output
                  (attach_created (created_effects_list st) output []))
               H eq_refl).
    destruct (list_remove_output _ _);
      [destruct (thread_status _ =? 0)|]; reflexivity. }
  split; [exact Hcr|].
  apply stop_output_not_started. rewrite Houts. exact H.
Qed.

Lemma output_is_bound_once_witness :
  visualizer_hal_start_output 0 0 5 (snd (visualizer_hal_start_output 0 0 5 init_once))
  = (- ENOSYS, snd (visualizer_hal_start_output 0 0 5 init_once)).
Proof.
  exact (proj1 (output_is_bound_once 0 0 0 0 0 0 5 init_once eq_refl)).
Defined.

(** ** Configuration *)

Lemma context_config_assign config context :
  context_config (assign_config config context) = config.
Proof. destruct config as [[] []]. reflexivity. Qed.

Lemma set_config_accepts context config :
  valid_config config ->
  set_config context config
  = (0, mk_effect_context config
          (snd (visualizer_reset
                  (set_samplingRate (cfg_samplingRate (inputCfg config))
                     (visu context))))).
Proof.
  intros (H1 & H2 & H3 & H4 & H5 & H6). unfold set_config.
  rewrite <- H1, <- H2, <- H3, !Z.eqb_refl, H4, H6, !Z.eqb_refl. cbn [negb].
  destruct H5 as [-> | ->]; reflexivity.
Qed.

Lemma set_config_rejects context config :
  ~ valid_config config -> set_config context config = (- EINVAL, context).
Proof.
  intros H. unfold set_config.
  destruct (Z.eqb_spec (cfg_samplingRate (inputCfg config))
              (cfg_samplingRate (outputCfg config))) as [H1|]; [|reflexivity].
  destruct (Z.eqb_spec (cfg_channels (inputCfg config))
              (cfg_channels (outputCfg config))) as [H2|]; [|reflexivity].
  destruct (Z.eqb_spec (cfg_format (inputCfg config))
              (cfg_format (outputCfg config))) as [H3|]; [|reflexivity].
  destruct (Z.eqb_spec (cfg_channels (inputCfg config))
              AUDIO_CHANNEL_OUT_STEREO) as [H4|]; [|reflexivity].
  destruct (Z.eqb_spec (cfg_accessMode (outputCfg config))
              EFFECT_BUFFER_ACCESS_WRITE) as [H5|H5];
    destruct (Z.eqb_spec (cfg_accessMode (outputCfg config))
                EFFECT_BUFFER_ACCESS_ACCUMULATE) as [H5'|H5'];
    cbn [negb andb]; try reflexivity;
    destruct (Z.eqb_spec (cfg_format (inputCfg config))
                AUDIO_FORMAT_PCM_16_BIT) as [H6|]; try reflexivity;
    exfalso; apply H; unfold valid_config; auto 10.
Qed.

(** [set_config] accepts a configuration exactly when both sides have the
    same rate, channels and format, the channels are stereo, the format is
    16-bit PCM and the output is written or accumulated.  An accepted
    configuration is stored whole ([get_config] returns it) and the
    session is reset: write cursor 0, ring filled with 0x80, time stamp
    unset.  A rejected one returns -EINVAL and leaves the context, ring
    included, as it was. *)
Theorem set_config_validates context config :
  (valid_config config ->
   fst (set_config context config) = 0 /\
   get_config (snd (set_config context config)) = config /\
   capture_idx (visu (snd (set_config context config))) = 0 /\
   capture_buf (visu (snd (set_config context config)))
   = replicate (Z.to_nat CAPTURE_BUF_SIZE) 128 /\
   tv_sec (buffer_update_time (visu (snd (set_config context config)))) = 0) /\
  (~ valid_config config ->
   set_config context config = (- EINVAL, context)).
Proof.
  split.
  - intros H. rewrite (set_config_accepts _ _ H). cbn [fst snd visu].
    split; [reflexivity|]. split.
    + unfold get_config.
      change (context_config (assign_config config context) = config).
      apply context_config_assign.
    + repeat split; reflexivity.
  - apply set_config_rejects.
Qed.

Lemma set_config_validates_witness :
  valid_config (stereo_config 44100) /\
  get_config (snd (set_config sample_context (stereo_config 44100)))
  = stereo_config 44100 /\
  ~ valid_config (mono_config 44100) /\
  set_config sample_context (mono_config 44100) = (- EINVAL, sample_context).
Proof.
  assert (Hv : valid_config (stereo_config 44100))
    by (unfold valid_config; cbn; auto 10).
  assert (Hm : ~ valid_config (mono_config 44100))
    by (unfold valid_config; cbn; intros (_ & _ & _ & H & _); discriminate H).
  split; [exact Hv|]. split.
  - exact (proj1 (proj2 (proj1 (set_config_validates sample_context
                                  (stereo_config 44100)) Hv))).
  - split; [exact Hm|].
    exact (proj2 (set_config_validates sample_context (mono_config 44100)) Hm).
Defined.

(** [visualizer_init] cannot fail: the configuration it writes passes the
    checks of [set_config], whose result it does not look at.  Whatever
    the session held, it returns 0 and leaves the defaults: 44100 Hz, a
    capture window of 1024 bytes, Normalized scaling, latency 0, and a
    reset ring; the output, state and offload flag are as before. *)
Theorem visualizer_init_restores_defaults context :
  fst (visualizer_init context) = 0 /\
  valid_config (get_config (snd (visualizer_init context))) /\
  samplingRate (visu (snd (visualizer_init context))) = 44100 /\
  capture_size (visu (snd (visualizer_init context)))
  = VISUALIZER_CAPTURE_SIZE_MAX /\
  scaling_mode (visu (snd (visualizer_init context)))
  = VISUALIZER_SCALING_MODE_NORMALIZED /\
  latency (visu (snd (visualizer_init context))) = DSP_OUTPUT_LATENCY_MS /\
  capture_idx (visu (snd (visualizer_init context))) = 0 /\
  last_capture_idx (visu (snd (visualizer_init context))) = 0 /\
  capture_buf (visu (snd (visualizer_init context)))
  = replicate (Z.to_nat CAPTURE_BUF_SIZE) 128 /\
  out_handle (visu (snd (visualizer_init context))) = out_handle (visu context) /\
  state (visu (snd (visualizer_init context))) = state (visu context) /\
  offload_enabled (visu (snd (visualizer_init context)))
  = offload_enabled (visu context).
Proof.
  unfold visualizer_init. cbn [fst snd].
  split; [reflexivity|].
  set (c := mk_effect_context _ _).
  assert (Hv : valid_config (context_config c))
    by (unfold valid_config; cbn; auto 10).
  rewrite (set_config_accepts _ _ Hv). cbn [snd visu].
  split.
  - unfold get_config, context_config. cbn. unfold valid_config. cbn. auto 10.
  - repeat split; reflexivity.
Qed.

(** ** Attaching and detaching sessions *)

Lemma effect_attached_In effects context :
  effect_attached effects context = true <-> In context effects.
Proof.
  induction effects as [|a l IH]; cbn; [split; [discriminate|tauto]|].
  destruct (Z.eqb_spec a context) as [->|Hne]; [tauto|].
  rewrite IH. split; [tauto|]. intros [H|H]; [contradiction|exact H].
Qed.

Lemma effect_attached_not_In effects context :
  effect_attached effects context = false <-> ~ In context effects.
Proof.
  rewrite <- effect_attached_In.
  destruct (effect_attached effects context); split; congruence.
Qed.

Lemma list_remove_effect_absent effects context :
  ~ In context effects -> list_remove_effect effects context = effects.
Proof.
  induction effects as [|a l IH]; cbn; [reflexivity|]. intros H.
  destruct (Z.eqb_spec a context) as [->|Hne]; [tauto|].
  f_equal. apply IH. tauto.
Qed.

Lemma list_remove_effect_last effects context :
  ~ In context effects ->
  list_remove_effect (effects ++ [context]) context = effects.
Proof.
  induction effects as [|a l IH]; cbn; [rewrite Z.eqb_refl; reflexivity|].
  intros H. destruct (Z.eqb_spec a context) as [->|Hne]; [tauto|].
  f_equal. apply IH. tauto.
Qed.

Lemma In_list_remove_effect effects context x :
  NoDup effects ->
  (In x (list_remove_effect effects context) <-> In x effects /\ x <> context).
Proof.
  induction effects as [|a l IH]; cbn; [tauto|]. intros Hnd.
  apply NoDup_cons in Hnd as [Ha Hnd]. rewrite list_elem_of_In in Ha.
  destruct (Z.eqb_spec a context) as [->|Hne].
  - split; [|intuition congruence]. intros Hx. split; [tauto|]. congruence.
  - cbn. rewrite (IH Hnd). intuition congruence.
Qed.

Lemma NoDup_list_remove_effect effects context :
  NoDup effects -> NoDup (list_remove_effect effects context).
Proof.
  induction effects as [|a l IH]; cbn; [auto|]. intros Hnd.
  pose proof Hnd as Hnd0.
  apply NoDup_cons in Hnd as [Ha Hnd].
  destruct (Z.eqb_spec a context) as [->|Hne]; [exact Hnd|].
  apply NoDup_cons. split; [|apply IH, Hnd].
  rewrite list_elem_of_In, (In_list_remove_effect _ _ _ Hnd).
  rewrite list_elem_of_In in Ha. tauto.
Qed.

Lemma NoDup_snoc (l : list Z) a : NoDup l -> ~ In a l -> NoDup (l ++ [a]).
Proof.
  intros Hnd Ha. apply NoDup_app. split; [exact Hnd|]. split.
  - intros x Hx Hx'. apply list_elem_of_In in Hx.
    apply list_elem_of_singleton in Hx'. subst. contradiction.
  - apply NoDup_singleton.
Qed.

(** Attaching a session to an output is idempotent and never makes a
    repetition; detaching removes it, and undoes an attachment that was
    not there before; detaching a session that is not attached changes
    nothing. *)
Theorem attach_and_detach output context :
  add_effect_to_output (add_effect_to_output output context) context
  = add_effect_to_output output context /\
  In context (effects_list (add_effect_to_output output context)) /\
  (NoDup (effects_list output) ->
   NoDup (effects_list (add_effect_to_output output context)) /\
   ~ In context
       (effects_list (remove_effect_from_output output context))) /\
  (~ In context (effects_list output) ->
   remove_effect_from_output (add_effect_to_output output context) context
   = output /\
   remove_effect_from_output output context = output).
Proof.
  destruct output as [h effects].
  unfold add_effect_to_output, remove_effect_from_output.
  cbn [effects_list handle].
  destruct (effect_attached effects context) eqn:Hat.
  - cbn [effects_list handle]. rewrite Hat.
    apply effect_attached_In in Hat.
    split; [reflexivity|]. split; [exact Hat|]. split.
    + intros Hnd. split; [exact Hnd|].
      rewrite (In_list_remove_effect _ _ _ Hnd). tauto.
    + tauto.
  - apply effect_attached_not_In in Hat. cbn [effects_list handle].
    assert (Hin : In context (effects ++ [context]))
      by (apply in_or_app; right; left; reflexivity).
    rewrite (proj2 (effect_attached_In _ _) Hin).
    split; [reflexivity|]. split; [exact Hin|]. split.
    + intros Hnd. split; [apply NoDup_snoc; assumption|].
      rewrite (In_list_remove_effect _ _ _ Hnd). tauto.
    + intros _. rewrite list_remove_effect_last by exact Hat.
      rewrite list_remove_effect_absent by exact Hat. split; reflexivity.
Qed.

Lemma attach_and_detach_witness :
  remove_effect_from_output
    (add_effect_to_output (mk_output_context 5 [16; 32]) 48) 48
  = mk_output_context 5 [16; 32].
Proof.
  refine (proj1 (proj2 (proj2 (proj2
            (attach_and_detach (mk_output_context 5 [16; 32]) 48))) _)).
  cbn. intros [H|[H|H]]; try discriminate H. exact H.
Defined.

(** ** Creating and releasing sessions *)

Lemma effect_exists_In l context :
  effect_exists l context = true <-> In context (map fst l).
Proof.
  induction l as [|[a c] l IH]; cbn; [split; [discriminate|tauto]|].
  destruct (Z.eqb_spec a context) as [->|Hne]; [tauto|].
  rewrite IH. intuition congruence.
Qed.

Lemma deref_None l context :
  deref l context = None <-> effect_exists l context = false.
Proof.
  induction l as [|[a c] l IH]; cbn; [tauto|].
  destruct (a =? context); [split; discriminate|exact IH].
Qed.

Lemma deref_Some_In l context c :
  deref l context = Some c -> In (context, c) l.
Proof.
  induction l as [|[a c'] l IH]; cbn; [discriminate|].
  destruct (Z.eqb_spec a context) as [->|Hne].
  - intros H. injection H as ->. left. reflexivity.
  - intros H. right. apply IH, H.
Qed.

Lemma deref_app l context c other :
  deref (l ++ [(context, c)]) other
  = match deref l other with
    | Some c' => Some c'
    | None => if context =? other then Some c else None
    end.
Proof.
  induction l as [|[a c'] l IH]; cbn; [reflexivity|].
  destruct (a =? other); [reflexivity|exact IH].
Qed.

Lemma effect_exists_app l context c other :
  effect_exists (l ++ [(context, c)]) other
  = effect_exists l other || (context =? other).
Proof.
  induction l as [|[a c'] l IH]; cbn; [destruct (context =? other); reflexivity|].
  destruct (a =? other); [reflexivity|exact IH].
Qed.

Lemma list_remove_created_last l context c :
  effect_exists l context = false ->
  list_remove_created (l ++ [(context, c)]) context = l.
Proof.
  induction l as [|[a c'] l IH]; cbn; [rewrite Z.eqb_refl; reflexivity|].
  destruct (a =? context); [discriminate|]. intros H. f_equal. apply IH, H.
Qed.

Lemma map_fst_list_remove_created l context :
  map fst (list_remove_created l context)
  = list_remove_effect (map fst l) context.
Proof.
  induction l as [|[a c] l IH]; cbn; [reflexivity|].
  destruct (a =? context); cbn; [reflexivity|]. f_equal. exact IH.
Qed.

Lemma deref_list_remove_created l context other :
  NoDup (map fst l) ->
  deref (list_remove_created l context) other
  = if context =? other then None else deref l other.
Proof.
  induction l as [|[a c] l IH]; cbn; [destruct (context =? other); reflexivity|].
  intros Hnd. apply NoDup_cons in Hnd as [Ha Hnd].
  rewrite list_elem_of_In in Ha.
  destruct (Z.eqb_spec a context) as [->|Hne].
  - destruct (Z.eqb_spec context other) as [->|Hne']; [|reflexivity].
    apply deref_None. destruct (effect_exists l other) eqn:E; [|reflexivity].
    apply effect_exists_In in E. contradiction.
  - cbn. rewrite (IH Hnd).
    destruct (Z.eqb_spec a other) as [->|Hne'].
    + destruct (Z.eqb_spec context other); [congruence|reflexivity].
    + reflexivity.
Qed.

Lemma update_output_unbound l output f :
  get_output l output = None -> update_output l output f = l.
Proof.
  induction l as [|x l IH]; cbn; [reflexivity|].
  destruct (handle x =? output); [discriminate|]. intros H. f_equal. auto.
Qed.

Lemma update_output_undo l output f g :
  (forall x, In x l -> handle x = output -> g (f x) = x) ->
  (forall x, handle (f x) = handle x) ->
  update_output (update_output l output f) output g = l.
Proof.
  intros Hgf Hh. induction l as [|x l IH]; cbn; [reflexivity|].
  destruct (Z.eqb_spec (handle x) output) as [He|Hne]; cbn.
  - rewrite Hh. destruct (Z.eqb_spec (handle x) output); [|contradiction].
    f_equal. apply Hgf; [left; reflexivity|exact He].
  - destruct (Z.eqb_spec (handle x) output); [contradiction|].
    f_equal. apply IH. intros y Hy. apply Hgf. right. exact Hy.
Qed.

(** [effect_lib_create] returns -EINVAL, creates nothing and writes no
    handle when the uuid pointer or the handle pointer is null or the uuid
    is not the one of the visualizer descriptor. *)
Theorem effect_lib_create_rejects context uuid ioId pHandle s :
  uuid = None \/ pHandle = false \/
  (exists u, uuid = Some u /\ uuid_eqb u visualizer_uuid = false) ->
  effect_lib_create context uuid ioId pHandle s = (- EINVAL, s, None).
Proof.
  intros [->|[->|(u & -> & Hu)]]; unfold effect_lib_create.
  - reflexivity.
  - destruct uuid; reflexivity.
  - destruct pHandle; cbn [negb]; [|reflexivity]. rewrite Hu. reflexivity.
Qed.

Lemma effect_lib_create_rejects_witness :
  effect_lib_create 16
    (Some (mk_effect_uuid 2055226528 6769 4579 41348 [0; 2; 165; 213; 197; 28]))
    5 true (mk_effect_lib_state init_once ∅)
  = (- EINVAL, mk_effect_lib_state init_once ∅, None).
Proof.
  apply effect_lib_create_rejects. right. right.
  eexists. split; reflexivity.
Defined.

Lemma created_visu ioId :
  set_state EFFECT_STATE_INITIALIZED
    (visu (snd (visualizer_init
                  (mk_effect_context (stored_config zeroed_context)
                     (set_out_handle ioId
                        (set_state EFFECT_STATE_UNINITIALIZED
                           (visu zeroed_context)))))))
  = created_context ioId.
Proof.
  unfold visualizer_init. cbn [snd].
  set (c := mk_effect_context _ _).
  assert (Hv : valid_config (context_config c))
    by (unfold valid_config; cbn; auto 10).
  rewrite (set_config_accepts _ _ Hv).
  unfold created_context, visualizer_reset, zeroed_context.
  cbn [snd visu set_state set_capture_buf set_latency set_buffer_update_time
       set_last_capture_idx set_capture_idx set_samplingRate set_out_handle
       set_scaling_mode set_capture_size
       samplingRate out_handle state offload_enabled capture_idx capture_size
       scaling_mode last_capture_idx latency buffer_update_time capture_buf
       context_config assign_config c inputCfg outputCfg cfg_samplingRate
       with_samplingRate init_buffer_config stored_config].
  reflexivity.
Qed.

Lemma get_output_update_output l output f other :
  (forall x, handle (f x) = handle x) ->
  get_output (update_output l output f) other
  = if output =? other then option_map f (get_output l other)
    else get_output l other.
Proof.
  intros Hh. induction l as [|x l IH]; cbn; [destruct (output =? other); reflexivity|].
  destruct (Z.eqb_spec (handle x) output) as [He|Hne]; cbn.
  - rewrite Hh. destruct (Z.eqb_spec (handle x) other) as [Ho|Ho].
    + destruct (Z.eqb_spec output other); [reflexivity|congruence].
    + destruct (Z.eqb_spec output other); [congruence|reflexivity].
  - destruct (Z.eqb_spec (handle x) other) as [Ho|Ho].
    + destruct (Z.eqb_spec output other); [congruence|reflexivity].
    + exact IH.
Qed.

Lemma remove_added_effect output context :
  ~ In context (effects_list output) ->
  remove_effect_from_output (add_effect_to_output output context) context
  = output.
Proof.
  intros H. destruct output as [h effects].
  unfold add_effect_to_output, remove_effect_from_output.
  cbn [effects_list handle] in *.
  rewrite (proj2 (effect_attached_not_In _ _) H). cbn [effects_list handle].
  rewrite list_remove_effect_last by exact H. reflexivity.
Qed.

Lemma handle_add_effect output context :
  handle (add_effect_to_output output context) = handle output.
Proof.
  unfold add_effect_to_output.
  destruct (effect_attached _ _); reflexivity.
Qed.

(** [effect_lib_create] with the visualizer uuid, at an address that is
    not a created session: it returns 0 and the address as the handle; the
    new session is the last of the created ones, Initialized, with offload
    disabled and the defaults of [visualizer_init], on output [ioId]; its
    stored configuration is one [set_config] accepts; the other sessions
    are as before; and it is attached to the binding of [ioId] when that
    output is bound, the other bindings being as before. *)
Theorem effect_lib_create_registers context u ioId s :
  uuid_eqb u visualizer_uuid = true ->
  effect_exists (created_effects_list (lib_globals s)) context = false ->
  exists s' c,
    effect_lib_create context (Some u) ioId true s = (0, s', Some context) /\
    created_effects_list (lib_globals s')
    = created_effects_list (lib_globals s) ++ [(context, created_context ioId)] /\
    deref_context s' context = Some c /\
    visu c = created_context ioId /\
    valid_config (get_config c) /\
    (forall other, other <> context ->
       deref (created_effects_list (lib_globals s')) other
       = deref (created_effects_list (lib_globals s)) other) /\
    get_output (active_outputs_list (lib_globals s')) ioId
    = option_map (fun out_ctxt => add_effect_to_output out_ctxt context)
        (get_output (active_outputs_list (lib_globals s)) ioId) /\
    (forall output, output <> ioId ->
       get_output (active_outputs_list (lib_globals s')) output
       = get_output (active_outputs_list (lib_globals s)) output).
Proof.
  intros Hu Hfresh. unfold effect_lib_create. rewrite Hu. cbn [negb].
  rewrite created_visu.
  eexists _, _. split; [reflexivity|].
  cbn [lib_globals lib_configs created_effects_list active_outputs_list
       with_created with_outputs].
  split; [reflexivity|]. split.
  - unfold deref_context.
    cbn [lib_globals lib_configs created_effects_list with_created with_outputs].
    rewrite deref_app, (proj2 (deref_None _ _) Hfresh), Z.eqb_refl.
    rewrite lookup_insert_eq. reflexivity.
  - cbn [visu]. split; [reflexivity|]. split.
    + unfold valid_config, get_config, context_config.
      cbn [stored_config visu inputCfg outputCfg with_samplingRate
           cfg_samplingRate cfg_channels cfg_format cfg_accessMode].
      unfold visualizer_init. cbn [snd].
      set (c := mk_effect_context _ _).
      assert (Hv : valid_config (context_config c))
        by (unfold valid_config; cbn; auto 10).
      rewrite (set_config_accepts _ _ Hv). cbn. auto 10.
    + split; [|split].
      * intros other Hne. rewrite deref_app.
        destruct (deref _ other); [reflexivity|].
        destruct (Z.eqb_spec context other); [congruence|reflexivity].
      * rewrite get_output_update_output by (intros; apply handle_add_effect).
        rewrite Z.eqb_refl. reflexivity.
      * intros output Hne.
        rewrite get_output_update_output by (intros; apply handle_add_effect).
        destruct (Z.eqb_spec ioId output); [congruence|reflexivity].
Qed.

Lemma effect_lib_create_registers_witness :
  exists s',
    effect_lib_create 16 (Some visualizer_uuid) 5 true
      (mk_effect_lib_state (output_5_bound 0) ∅)
    = (0, s', Some 16) /\
    get_output (active_outputs_list (lib_globals s')) 5
    = Some (mk_output_context 5 [16]).
Proof.
  destruct (effect_lib_create_registers 16 visualizer_uuid 5
              (mk_effect_lib_state (output_5_bound 0) ∅) eq_refl eq_refl)
    as (s' & c & H & _ & _ & _ & _ & _ & Ho & _).
  exists s'. split; [exact H|exact Ho].
Defined.

(** Releasing a session right after creating it gives back the library
    state there was before: [effect_lib_release] undoes what
    [effect_lib_create] did to the created sessions, to the binding of the
    output and to the stored configurations.  The address is a fresh one:
    no created session, and no bound output holds it. *)
Theorem effect_lib_create_then_release context u ioId s :
  uuid_eqb u visualizer_uuid = true ->
  effect_exists (created_effects_list (lib_globals s)) context = false ->
  lib_configs s !! context = None ->
  (forall out_ctxt, In out_ctxt (active_outputs_list (lib_globals s)) ->
     ~ In context (effects_list out_ctxt)) ->
  effect_lib_release context
    (snd (fst (effect_lib_create context (Some u) ioId true s)))
  = Done (0, s).
Proof.
  intros Hu Hfresh Hcfg Hout. unfold effect_lib_create. rewrite Hu.
  cbn [negb fst snd]. rewrite created_visu. unfold effect_lib_release.
  cbn [lib_globals lib_configs created_effects_list active_outputs_list
       with_created with_outputs exit_thread thread_status visu].
  rewrite effect_exists_app, Hfresh, Z.eqb_refl. cbn [orb].
  rewrite deref_app, (proj2 (deref_None _ _) Hfresh), Z.eqb_refl.
  change (out_handle (created_context ioId)) with ioId.
  rewrite update_output_undo.
  - rewrite list_remove_created_last by exact Hfresh.
    rewrite delete_insert_id by exact Hcfg.
    destruct s as [[created outputs ex ts] configs]. reflexivity.
  - intros x Hin _. apply remove_added_effect, Hout, Hin.
  - intros x. apply handle_add_effect.
Qed.

Lemma effect_lib_create_then_release_witness :
  effect_lib_release 16
    (snd (fst (effect_lib_create 16 (Some visualizer_uuid) 5 true
                 (mk_effect_lib_state (output_5_bound 0) ∅))))
  = Done (0, mk_effect_lib_state (output_5_bound 0) ∅).
Proof.
  apply effect_lib_create_then_release; [reflexivity|reflexivity|reflexivity|].
  intros out_ctxt [<-|[]]. cbn. tauto.
Defined.

Lemma handle_remove_effect output context :
  handle (remove_effect_from_output output context) = handle output.
Proof. reflexivity. Qed.

(** [effect_lib_release] of a handle that is not a created session
    returns -EINVAL and changes nothing.  Of a created session, when the
    created sessions have distinct addresses, it returns 0; the session is
    no longer a created one and has no stored configuration; the other
    sessions are as before; the session is removed from the binding of its
    output, the other bindings being as before; and a second release of
    the same handle returns -EINVAL. *)
Theorem effect_lib_release_forgets handle s :
  NoDup (map fst (created_effects_list (lib_globals s))) ->
  (effect_exists (created_effects_list (lib_globals s)) handle = false ->
   effect_lib_release handle s = Done (- EINVAL, s)) /\
  (forall c, deref (created_effects_list (lib_globals s)) handle = Some c ->
   exists s',
     effect_lib_release handle s = Done (0, s') /\
     effect_exists (created_effects_list (lib_globals s')) handle = false /\
     lib_configs s' !! handle = None /\
     (forall other, other <> handle ->
        deref (created_effects_list (lib_globals s')) other
        = deref (created_effects_list (lib_globals s)) other) /\
     (forall output,
        get_output (active_outputs_list (lib_globals s')) output
        = if out_handle c =? output
          then option_map
                 (fun out_ctxt => remove_effect_from_output out_ctxt handle)
                 (get_output (active_outputs_list (lib_globals s)) output)
          else get_output (active_outputs_list (lib_globals s)) output) /\
     effect_lib_release handle s' = Done (- EINVAL, s')).
Proof.
  intros Hnd. split.
  - intros H. unfold effect_lib_release. rewrite H. reflexivity.
  - intros c Hc. unfold effect_lib_release at 1.
    rewrite (deref_effect_exists _ _ _ Hc), Hc.
    eexists. split; [reflexivity|].
    cbn [lib_globals lib_configs created_effects_list active_outputs_list
         with_created with_outputs].
    assert (Hgone : effect_exists
                      (list_remove_created
                         (created_effects_list (lib_globals s)) handle)
                      handle = false).
    { apply deref_None. rewrite deref_list_remove_created by exact Hnd.
      rewrite Z.eqb_refl. reflexivity. }
    split; [exact Hgone|]. split; [apply lookup_delete_eq|]. split.
    + intros other Hne. rewrite deref_list_remove_created by exact Hnd.
      destruct (Z.eqb_spec handle other); [congruence|reflexivity].
    + split.
      * intros output. apply get_output_update_output.
        intros x. apply handle_remove_effect.
      * unfold effect_lib_release.
        cbn [lib_globals created_effects_list with_created with_outputs].
        rewrite Hgone. reflexivity.
Qed.

Lemma effect_lib_release_forgets_witness :
  exists s',
    effect_lib_release 16
      (mk_effect_lib_state (one_session (created_context 5)) ∅)
    = Done (0, s') /\
    effect_lib_release 16 s' = Done (- EINVAL, s').
Proof.
  destruct (proj2 (effect_lib_release_forgets 16
                     (mk_effect_lib_state (one_session (created_context 5)) ∅)
                     (NoDup_singleton 16))
              (created_context 5) eq_refl)
    as (s' & H & _ & _ & _ & _ & H').
  exists s'. split; [exact H|exact H'].
Defined.

(** ** The command interface *)

Lemma assign_same l context c :
  deref l context = Some c -> assign l context c = l.
Proof.
  induction l as [|[a c'] l IH]; cbn; [reflexivity|].
  destruct (a =? context).
  - intros H. injection H as ->. reflexivity.
  - intros H. f_equal. apply IH, H.
Qed.

Lemma assign_assign l context v w :
  assign (assign l context v) context w = assign l context w.
Proof.
  induction l as [|[a c'] l IH]; cbn; [reflexivity|].
  destruct (a =? context) eqn:E; cbn; rewrite E; [reflexivity|].
  f_equal. exact IH.
Qed.

Lemma deref_context_parts s self context :
  deref_context s self = Some context ->
  deref (created_effects_list (lib_globals s)) self = Some (visu context) /\
  lib_configs s !! self = Some (stored_config context).
Proof.
  unfold deref_context.
  destruct (deref _ self) as [c|]; [|discriminate].
  destruct (lib_configs s !! self) as [config|]; [|discriminate].
  intros H. injection H as <-. split; reflexivity.
Qed.

Lemma deref_context_assign_visu s self context v :
  deref_context s self = Some context ->
  deref_context (assign_visu s self v) self
  = Some (mk_effect_context (stored_config context) v).
Proof.
  intros H. apply deref_context_parts in H as [Hv Hc].
  unfold deref_context, assign_visu.
  cbn [lib_globals lib_configs created_effects_list with_created].
  rewrite (deref_assign _ _ _ _ Hv), Hc. reflexivity.
Qed.

Lemma assign_visu_same s self c :
  deref (created_effects_list (lib_globals s)) self = Some c ->
  assign_visu s self c = s.
Proof.
  intros H. unfold assign_visu, with_created. rewrite (assign_same _ _ _ H).
  destruct s as [[created outputs ex ts] configs]. reflexivity.
Qed.

Lemma assign_visu_twice s self v w :
  assign_visu (assign_visu s self v) self w = assign_visu s self w.
Proof.
  unfold assign_visu, with_created.
  cbn [lib_globals lib_configs created_effects_list active_outputs_list
       exit_thread thread_status].
  rewrite assign_assign. reflexivity.
Qed.

Lemma visualizer_command_status visu_ctxt cmdCode replySize pReplyData clock
    status visu_ctxt' reply :
  visualizer_command visu_ctxt cmdCode replySize pReplyData clock
  = Done (status, visu_ctxt', reply) ->
  status = 0 \/
  (status = - EINVAL /\ visu_ctxt' = visu_ctxt /\ reply = pReplyData).
Proof.
  unfold visualizer_command.
  destruct (cmdCode =? VISUALIZER_CMD_CAPTURE).
  - destruct pReplyData as [r|].
    + destruct (negb (replySize =? capture_size visu_ctxt)).
      * intros H. injection H as <- <- <-. right. auto.
      * destruct (negb (offload_enabled visu_ctxt)).
        -- intros H. injection H as <- <- <-. left. reflexivity.
        -- destruct (state visu_ctxt =? EFFECT_STATE_ACTIVE).
           ++ destruct (capture_delta visu_ctxt clock) as [delta_ms latency_ms].
              destruct (capture_copy _ _ _) as [r1| |]; cbn [obind];
                [|discriminate|discriminate].
              destruct (capture_stall _ _ _ _) as [r2| |]; cbn [obind];
                [|discriminate|discriminate].
              intros H. injection H as <- _ _. left. reflexivity.
           ++ destruct (memset _ _ _ _) as [r1| |]; cbn [obind];
                [|discriminate|discriminate].
              intros H. injection H as <- _ _. left. reflexivity.
    + intros H. injection H as <- <- <-. right. auto.
  - intros H. injection H as <- <- <-. right. auto.
Qed.

Lemma Done_triple_inj {A B C : Type} (a a' : A) (b b' : B) (c c' : C) :
  Done (a, b, c) = Done (a', b', c') -> a = a' /\ b = b' /\ c = c'.
Proof. intros H. injection H as -> -> ->. auto. Qed.

Ltac command_leaf :=
  let H := fresh in
  let Hne := fresh in
  cbv zeta; intros H; apply Done_triple_inj in H as (<- & <- & <-);
  split;
  [auto
  |intros Hne;
   first [exfalso; apply Hne; reflexivity
         |split; [reflexivity|left; reflexivity]]].

(** Every call of [effect_command] that returns, returns 0, -EINVAL or
    -ENOSYS, whatever the command.  When it does not return 0 it has
    changed nothing: the library state is the one before the call and the
    reply block is not written.  (A capture command whose window lies
    outside the ring or the reply does not return in the model: it reads
    or writes out of bounds.) *)
Theorem effect_command_failure_changes_nothing sizeof_effect_config_t s self
    cmdCode cmdSize pCmdData replySize pReplyData clock status s' reply :
  effect_command sizeof_effect_config_t s self cmdCode cmdSize pCmdData
    replySize pReplyData clock
  = Done (status, s', reply) ->
  (status = 0 \/ status = - EINVAL \/ status = - ENOSYS) /\
  (status <> 0 ->
   s' = s /\
   (reply = ReplyUntouched \/
    exists l, pReplyData = Some l /\ reply = ReplyBytes l)).
Proof.
  unfold effect_command.
  destruct (effect_exists _ self); cbn [negb]; [|command_leaf].
  destruct (deref_context s self) as [context|] eqn:Hctx; [|discriminate].
  destruct (state (visu context) =? EFFECT_STATE_UNINITIALIZED);
    [command_leaf|].
  destruct (cmdCode =? EFFECT_CMD_INIT).
  { destruct (negb _); command_leaf. }
  destruct (cmdCode =? EFFECT_CMD_SET_CONFIG).
  { destruct pCmdData; [|command_leaf]. destruct (_ || _); command_leaf. }
  destruct (cmdCode =? EFFECT_CMD_GET_CONFIG).
  { destruct pReplyData; [|command_leaf].
    destruct (negb _); [command_leaf|]. destruct (negb _); command_leaf. }
  destruct (cmdCode =? EFFECT_CMD_RESET); [command_leaf|].
  destruct (cmdCode =? EFFECT_CMD_ENABLE).
  { destruct (negb _); [command_leaf|]. destruct (negb _); command_leaf. }
  destruct (cmdCode =? EFFECT_CMD_DISABLE).
  { destruct (negb _); [command_leaf|]. destruct (negb _); command_leaf. }
  destruct (cmdCode =? EFFECT_CMD_GET_PARAM).
  { destruct pCmdData; [|command_leaf]. destruct pReplyData; [|command_leaf].
    destruct (_ || _); [command_leaf|]. destruct (negb _); command_leaf. }
  destruct (cmdCode =? EFFECT_CMD_SET_PARAM).
  { destruct pCmdData; [|command_leaf]. destruct (_ || _); command_leaf. }
  destruct (_ || _); [command_leaf|].
  destruct (cmdCode =? EFFECT_CMD_OFFLOAD).
  { destruct pCmdData; [|command_leaf]. destruct (_ || _); command_leaf. }
  destruct (cmdCode >=? EFFECT_CMD_FIRST_PROPRIETARY); [|command_leaf].
  destruct (visualizer_command _ _ _ _ _) as [[[st c] rp]| |] eqn:Hvc;
    cbn [obind fst snd]; [|discriminate|discriminate].
  intros H. apply Done_triple_inj in H as (<- & <- & <-).
  apply visualizer_command_status in Hvc as [->|(-> & -> & ->)].
  - split; [auto|]. intros Hne. exfalso. apply Hne. reflexivity.
  - split; [auto|]. intros _. split.
    + apply assign_visu_same, (deref_context_parts _ _ _ Hctx).
    + destruct pReplyData as [l|]; [right; exists l; auto|left; reflexivity].
Qed.

Lemma effect_command_failure_changes_nothing_witness :
  effect_command 40
    (mk_effect_lib_state (one_session (created_context 5))
       {[ 16 := stereo_config 44100 ]})
    16 EFFECT_CMD_DISABLE 0 None 4 (Some [0; 0; 0; 0]) None
  = Done (- ENOSYS,
          mk_effect_lib_state (one_session (created_context 5))
            {[ 16 := stereo_config 44100 ]},
          ReplyUntouched) /\
  (- ENOSYS = 0 \/ - ENOSYS = - EINVAL \/ - ENOSYS = - ENOSYS).
Proof.
  assert (H : effect_command 40
                (mk_effect_lib_state (one_session (created_context 5))
                   {[ 16 := stereo_config 44100 ]})
                16 EFFECT_CMD_DISABLE 0 None 4 (Some [0; 0; 0; 0]) None
              = Done (- ENOSYS,
                      mk_effect_lib_state (one_session (created_context 5))
                        {[ 16 := stereo_config 44100 ]},
                      ReplyUntouched)) by reflexivity.
  split; [exact H|].
  exact (proj1 (effect_command_failure_changes_nothing _ _ _ _ _ _ _ _ _ _ _ _
                  H)).
Defined.

Lemma effect_command_enable sizeof_effect_config_t s self context cmdSize
    pCmdData reply clock :
  deref_context s self = Some context ->
  state (visu context) <> EFFECT_STATE_UNINITIALIZED ->
  effect_command sizeof_effect_config_t s self EFFECT_CMD_ENABLE cmdSize
    pCmdData sizeof_int (Some reply) clock
  = if state (visu context) =? EFFECT_STATE_INITIALIZED
    then Done (0,
               assign_visu s self (set_state EFFECT_STATE_ACTIVE (visu context)),
               ReplyInt 0)
    else Done (- ENOSYS, s, ReplyUntouched).
Proof.
  intros Hctx Hst. unfold effect_command. rewrite Hctx.
  rewrite (deref_effect_exists _ _ _ (proj1 (deref_context_parts _ _ _ Hctx))).
  cbn [negb].
  destruct (Z.eqb_spec (state (visu context)) EFFECT_STATE_UNINITIALIZED);
    [contradiction|].
  change (EFFECT_CMD_ENABLE =? EFFECT_CMD_INIT) with false.
  change (EFFECT_CMD_ENABLE =? EFFECT_CMD_SET_CONFIG) with false.
  change (EFFECT_CMD_ENABLE =? EFFECT_CMD_GET_CONFIG) with false.
  change (EFFECT_CMD_ENABLE =? EFFECT_CMD_RESET) with false.
  change (EFFECT_CMD_ENABLE =? EFFECT_CMD_ENABLE) with true.
  cbv iota. unfold int_reply_expected. rewrite Z.eqb_refl. cbn [negb].
  destruct (state (visu context) =? EFFECT_STATE_INITIALIZED); reflexivity.
Qed.

Lemma effect_command_disable sizeof_effect_config_t s self context cmdSize
    pCmdData reply clock :
  deref_context s self = Some context ->
  state (visu context) <> EFFECT_STATE_UNINITIALIZED ->
  effect_command sizeof_effect_config_t s self EFFECT_CMD_DISABLE cmdSize
    pCmdData sizeof_int (Some reply) clock
  = if state (visu context) =? EFFECT_STATE_ACTIVE
    then Done (0,
               assign_visu s self
                 (set_state EFFECT_STATE_INITIALIZED (visu context)),
               ReplyInt 0)
    else Done (- ENOSYS, s, ReplyUntouched).
Proof.
  intros Hctx Hst. unfold effect_command. rewrite Hctx.
  rewrite (deref_effect_exists _ _ _ (proj1 (deref_context_parts _ _ _ Hctx))).
  cbn [negb].
  destruct (Z.eqb_spec (state (visu context)) EFFECT_STATE_UNINITIALIZED);
    [contradiction|].
  change (EFFECT_CMD_DISABLE =? EFFECT_CMD_INIT) with false.
  change (EFFECT_CMD_DISABLE =? EFFECT_CMD_SET_CONFIG) with false.
  change (EFFECT_CMD_DISABLE =? EFFECT_CMD_GET_CONFIG) with false.
  change (EFFECT_CMD_DISABLE =? EFFECT_CMD_RESET) with false.
  change (EFFECT_CMD_DISABLE =? EFFECT_CMD_ENABLE) with false.
  change (EFFECT_CMD_DISABLE =? EFFECT_CMD_DISABLE) with true.
  cbv iota. unfold int_reply_expected. rewrite Z.eqb_refl. cbn [negb].
  destruct (state (visu context) =? EFFECT_STATE_ACTIVE); reflexivity.
Qed.

Lemma set_state_same v c : state c = v -> set_state v c = c.
Proof. intros <-. destruct c. reflexivity. Qed.

Lemma set_state_twice v w c : set_state v (set_state w c) = set_state v c.
Proof. reflexivity. Qed.

(** The Initialized/Active state machine of the command interface.  On an
    Initialized session, ENABLE returns 0, answers 0 and makes the session
    Active, changing nothing else; a second ENABLE returns -ENOSYS and
    changes nothing; DISABLE then returns 0, answers 0 and gives back the
    library state there was before the ENABLE; and DISABLE on the
    Initialized session returns -ENOSYS.  [effect_process] returns 0
    between ENABLE and DISABLE and -EINVAL outside. *)
Theorem enable_then_disable sizeof_effect_config_t s self context cmdSize
    pCmdData reply clock :
  deref_context s self = Some context ->
  state (visu context) = EFFECT_STATE_INITIALIZED ->
  let command := fun s cmdCode =>
    effect_command sizeof_effect_config_t s self cmdCode cmdSize pCmdData
      sizeof_int (Some reply) clock in
  let s1 := assign_visu s self (set_state EFFECT_STATE_ACTIVE (visu context)) in
  command s EFFECT_CMD_ENABLE = Done (0, s1, ReplyInt 0) /\
  deref_context s1 self
  = Some (mk_effect_context (stored_config context)
            (set_state EFFECT_STATE_ACTIVE (visu context))) /\
  command s1 EFFECT_CMD_ENABLE = Done (- ENOSYS, s1, ReplyUntouched) /\
  command s1 EFFECT_CMD_DISABLE = Done (0, s, ReplyInt 0) /\
  command s EFFECT_CMD_DISABLE = Done (- ENOSYS, s, ReplyUntouched) /\
  effect_process s self = Done (- EINVAL) /\
  effect_process s1 self = Done 0.
Proof.
  intros Hctx Hst command s1. subst command. cbv beta.
  pose proof (deref_context_assign_visu s self context
                (set_state EFFECT_STATE_ACTIVE (visu context)) Hctx) as Hctx1.
  fold s1 in Hctx1.
  destruct (deref_context_parts _ _ _ Hctx) as [Hv Hc].
  destruct (deref_context_parts _ _ _ Hctx1) as [Hv1 _]. cbn [visu] in Hv1.
  split.
  { rewrite (effect_command_enable _ _ _ _ _ _ _ _ Hctx)
      by (rewrite Hst; discriminate).
    rewrite Hst. reflexivity. }
  split; [exact Hctx1|]. split.
  { rewrite (effect_command_enable _ _ _ _ _ _ _ _ Hctx1) by discriminate.
    reflexivity. }
  split.
  { rewrite (effect_command_disable _ _ _ _ _ _ _ _ Hctx1) by discriminate.
    cbn [visu state set_state]. rewrite Z.eqb_refl.
    unfold s1. rewrite assign_visu_twice, set_state_twice.
    rewrite (set_state_same _ _ Hst), (assign_visu_same _ _ _ Hv).
    reflexivity. }
  split.
  { rewrite (effect_command_disable _ _ _ _ _ _ _ _ Hctx)
      by (rewrite Hst; discriminate).
    rewrite Hst. reflexivity. }
  split.
  - unfold effect_process.
    rewrite (deref_effect_exists _ _ _ Hv), Hv, Hst. reflexivity.
  - unfold effect_process.
    rewrite (deref_effect_exists _ _ _ Hv1), Hv1. reflexivity.
Qed.

Lemma enable_then_disable_witness :
  exists s1,
    effect_command 40
      (mk_effect_lib_state (one_session (created_context 5))
         {[ 16 := stereo_config 44100 ]})
      16 EFFECT_CMD_ENABLE 0 None 4 (Some [1; 1; 1; 1]) None
    = Done (0, s1, ReplyInt 0) /\
    effect_command 40 s1 16 EFFECT_CMD_DISABLE 0 None 4 (Some [1; 1; 1; 1]) None
    = Done (0,
            mk_effect_lib_state (one_session (created_context 5))
              {[ 16 := stereo_config 44100 ]},
            ReplyInt 0).
Proof.
  assert (Hctx : deref_context
                   (mk_effect_lib_state (one_session (created_context 5))
                      {[ 16 := stereo_config 44100 ]}) 16
                 = Some (mk_effect_context (stereo_config 44100)
                           (created_context 5))) by reflexivity.
  destruct (enable_then_disable 40 _ 16 _ 0 None [1; 1; 1; 1] None Hctx
              eq_refl)
    as (H1 & _ & _ & H2 & _).
  eexists. split; [exact H1|exact H2].
Defined.

(** ** The registry of sessions and outputs *)

Lemma get_output_None_In l output :
  get_output l output = None <-> ~ In output (map handle l).
Proof.
  induction l as [|x l IH]; cbn; [tauto|].
  destruct (Z.eqb_spec (handle x) output) as [He|Hne].
  - split; [discriminate|tauto].
  - rewrite IH. tauto.
Qed.

Lemma get_output_Some_In l output out_ctxt :
  get_output l output = Some out_ctxt -> In out_ctxt l.
Proof.
  induction l as [|x l IH]; cbn; [discriminate|].
  destruct (handle x =? output).
  - intros H. injection H as ->. left. reflexivity.
  - intros H. right. apply IH, H.
Qed.

Lemma get_output_In_NoDup l out_ctxt :
  NoDup (map handle l) -> In out_ctxt l ->
  get_output l (handle out_ctxt) = Some out_ctxt.
Proof.
  induction l as [|x l IH]; cbn; [tauto|]. intros Hnd.
  apply NoDup_cons in Hnd as [Hx Hnd]. rewrite list_elem_of_In in Hx.
  intros [->|Hin]; [rewrite Z.eqb_refl; reflexivity|].
  destruct (Z.eqb_spec (handle x) (handle out_ctxt)) as [He|Hne].
  - exfalso. apply Hx. rewrite He. apply in_map, Hin.
  - apply IH; assumption.
Qed.

Lemma deref_In_NoDup l context c :
  NoDup (map fst l) -> In (context, c) l -> deref l context = Some c.
Proof.
  induction l as [|[a c'] l IH]; cbn; [tauto|]. intros Hnd.
  apply NoDup_cons in Hnd as [Ha Hnd]. rewrite list_elem_of_In in Ha.
  intros [H|Hin].
  - injection H as -> ->. rewrite Z.eqb_refl. reflexivity.
  - destruct (Z.eqb_spec a context) as [->|Hne].
    + exfalso. apply Ha. exact (in_map fst _ _ Hin).
    + apply IH; assumption.
Qed.

Lemma NoDup_map_fst_filter (p : Z * visualizer_context_t -> bool) l :
  NoDup (map fst l) -> NoDup (map fst (List.filter p l)).
Proof.
  induction l as [|x l IH]; cbn; [auto|]. intros Hnd.
  apply NoDup_cons in Hnd as [Hx Hnd]. rewrite list_elem_of_In in Hx.
  destruct (p x); cbn; [|apply IH, Hnd].
  apply NoDup_cons. split; [|apply IH, Hnd].
  rewrite list_elem_of_In. intros Hin. apply Hx.
  apply in_map_iff in Hin as (y & Hy & Hin). apply filter_In in Hin as [Hin _].
  rewrite <- Hy. apply in_map, Hin.
Qed.

Lemma list_remove_output_unbound l output :
  get_output l output = None -> list_remove_output l output = l.
Proof.
  induction l as [|x l IH]; cbn; [reflexivity|].
  destruct (handle x =? output); [discriminate|]. intros H. f_equal. auto.
Qed.

Lemma In_list_remove_output l output x :
  In x (list_remove_output l output) -> In x l.
Proof.
  induction l as [|y l IH]; cbn; [tauto|].
  destruct (handle y =? output); cbn; [tauto|]. intros [H|H]; auto.
Qed.

Lemma NoDup_list_remove_output l output :
  NoDup (map handle l) -> NoDup (map handle (list_remove_output l output)).
Proof.
  induction l as [|y l IH]; cbn; [auto|]. intros Hnd.
  apply NoDup_cons in Hnd as [Hy Hnd]. rewrite list_elem_of_In in Hy.
  destruct (handle y =? output); [exact Hnd|]. cbn.
  apply NoDup_cons. split; [|apply IH, Hnd].
  rewrite list_elem_of_In. intros Hin. apply Hy.
  apply in_map_iff in Hin as (z & Hz & Hin). rewrite <- Hz.
  apply in_map, (In_list_remove_output _ _ _ Hin).
Qed.

Lemma start_output_lists ret_uninit status output st :
  get_output (active_outputs_list st) output = None ->
  created_effects_list
    (snd (visualizer_hal_start_output ret_uninit status output st))
  = created_effects_list st /\
  active_outputs_list
    (snd (visualizer_hal_start_output ret_uninit status output st))
  = active_outputs_list st
    ++ [mk_output_context output
          (attach_created (created_effects_list st) output [])].
Proof.
  intros H. unfold visualizer_hal_start_output. rewrite H.
  split; destruct (active_outputs_list st); reflexivity.
Qed.

Lemma stop_output_lists ret_uninit output st :
  created_effects_list (snd (visualizer_hal_stop_output ret_uninit output st))
  = created_effects_list st /\
  active_outputs_list (snd (visualizer_hal_stop_output ret_uninit output st))
  = list_remove_output (active_outputs_list st) output.
Proof.
  unfold visualizer_hal_stop_output.
  destruct (get_output (active_outputs_list st) output) eqn:Hg.
  - split; destruct (list_remove_output _ _);
      [destruct (thread_status st =? 0)| |destruct (thread_status st =? 0)|];
      reflexivity.
  - rewrite (list_remove_output_unbound _ _ Hg). split; reflexivity.
Qed.

(** The two hooks of the audio HAL keep the registry consistent: after
    [visualizer_hal_start_output] and after [visualizer_hal_stop_output],
    whatever they return, the created sessions still have distinct
    addresses, the bound outputs distinct handles, and every bound output
    holds exactly the created sessions of that output, each once. *)
Theorem registry_kept_by_output_hooks ret_uninit status output st :
  registry_consistent st ->
  registry_consistent
    (snd (visualizer_hal_start_output ret_uninit status output st)) /\
  registry_consistent (snd (visualizer_hal_stop_output ret_uninit output st)).
Proof.
  intros H. split.
  - destruct (get_output (active_outputs_list st) output) as [out_ctxt|] eqn:Hg.
    + rewrite (start_output_already_started _ _ _ _ _ Hg). exact H.
    + destruct (start_output_lists ret_uninit status output st Hg) as [Hc Ho].
      unfold registry_consistent. rewrite Hc, Ho.
      destruct H as (H1 & H2 & H3). split; [exact H1|]. split.
      * rewrite map_app. apply NoDup_snoc; [exact H2|].
        apply get_output_None_In, Hg.
      * intros out_ctxt Hin. apply in_app_or in Hin as [Hin|[<-|[]]].
        { apply H3, Hin. }
        cbn [effects_list handle]. rewrite attach_created_filter. cbn [app].
        split; [apply NoDup_map_fst_filter, H1|].
        intros a. rewrite in_map_iff. split.
        -- intros ([a' c] & <- & Hin). apply filter_In in Hin as [Hin Hout].
           exists c. split; [apply deref_In_NoDup; assumption|].
           apply Z.eqb_eq, Hout.
        -- intros (c & Hd & Hout). exists (a, c). split; [reflexivity|].
           apply filter_In. split; [apply deref_Some_In, Hd|].
           apply Z.eqb_eq, Hout.
  - destruct (stop_output_lists ret_uninit output st) as [Hc Ho].
    unfold registry_consistent. rewrite Hc, Ho.
    destruct H as (H1 & H2 & H3). split; [exact H1|]. split.
    + apply NoDup_list_remove_output, H2.
    + intros out_ctxt Hin. apply H3, (In_list_remove_output _ _ _ Hin).
Qed.

Lemma registry_kept_by_output_hooks_witness :
  registry_consistent
    (snd (visualizer_hal_start_output 0 0 5 (one_session (created_context 5)))).
Proof.
  refine (proj1 (registry_kept_by_output_hooks 0 0 5
                   (one_session (created_context 5)) _)).
  split; [apply NoDup_singleton|]. split; [apply NoDup_nil_2|].
  intros out_ctxt [].
Defined.

Lemma update_output_map l output f :
  NoDup (map handle l) ->
  update_output l output f
  = map (fun x => if handle x =? output then f x else x) l.
Proof.
  induction l as [|x l IH]; cbn; [reflexivity|]. intros Hnd.
  apply NoDup_cons in Hnd as [Hx Hnd]. rewrite list_elem_of_In in Hx.
  destruct (Z.eqb_spec (handle x) output) as [He|Hne].
  - f_equal. rewrite <- (map_id l) at 1. apply map_ext_in.
    intros y Hy. destruct (Z.eqb_spec (handle y) output) as [He'|]; [|reflexivity].
    exfalso. apply Hx. rewrite He, <- He'. apply in_map, Hy.
  - f_equal. apply IH, Hnd.
Qed.

Lemma map_handle_update_output l output f :
  (forall x, handle (f x) = handle x) ->
  map handle (update_output l output f) = map handle l.
Proof.
  intros Hh. induction l as [|x l IH]; cbn; [reflexivity|].
  destruct (handle x =? output); cbn; [rewrite Hh; reflexivity|].
  f_equal. exact IH.
Qed.

(** Detaching the session at [h], which is on output [old] if it is
    anywhere, from the binding of [old]: the outputs then hold the sessions
    without the one at [h]. *)
Lemma outputs_hold_detach sessions sessions' outputs h old :
  NoDup (map handle outputs) ->
  outputs_hold sessions outputs ->
  (forall c, sessions h = Some c -> out_handle c = old) ->
  sessions' h = None ->
  (forall a, a <> h -> sessions' a = sessions a) ->
  outputs_hold sessions'
    (update_output outputs old
       (fun out_ctxt => remove_effect_from_output out_ctxt h)).
Proof.
  intros Hnd Hold Hh Hnone Hsame. rewrite (update_output_map _ _ _ Hnd).
  intros out_ctxt Hin. apply in_map_iff in Hin as (x & <- & Hin).
  destruct (Hold x Hin) as [Hndx Hiff].
  destruct (Z.eqb_spec (handle x) old) as [He|Hne].
  - cbn [remove_effect_from_output effects_list handle].
    unfold remove_effect_from_output. cbn [effects_list handle].
    split; [apply NoDup_list_remove_effect, Hndx|].
    intros a. rewrite (In_list_remove_effect _ _ _ Hndx), Hiff. split.
    + intros [(c & Hc & Ho) Hne]. exists c. rewrite (Hsame _ Hne). auto.
    + intros (c & Hc & Ho).
      destruct (Z.eq_dec a h) as [->|Hne]; [congruence|].
      rewrite (Hsame _ Hne) in Hc. split; [eauto|exact Hne].
  - split; [exact Hndx|]. intros a. rewrite Hiff. split.
    + intros (c & Hc & Ho).
      destruct (Z.eq_dec a h) as [->|Hne'].
      * exfalso. apply Hne. rewrite <- Ho. apply Hh, Hc.
      * exists c. rewrite (Hsame _ Hne'). auto.
    + intros (c & Hc & Ho).
      destruct (Z.eq_dec a h) as [->|Hne']; [congruence|].
      rewrite (Hsame _ Hne') in Hc. eauto.
Qed.

(** Attaching a session newly at [h], on output [new], to the binding of
    [new]. *)
Lemma outputs_hold_attach sessions sessions' outputs h new c :
  NoDup (map handle outputs) ->
  outputs_hold sessions outputs ->
  sessions h = None ->
  sessions' h = Some c ->
  out_handle c = new ->
  (forall a, a <> h -> sessions' a = sessions a) ->
  outputs_hold sessions'
    (update_output outputs new
       (fun out_ctxt => add_effect_to_output out_ctxt h)).
Proof.
  intros Hnd Hold Hnone Hsome Hout Hsame. rewrite (update_output_map _ _ _ Hnd).
  intros out_ctxt Hin. apply in_map_iff in Hin as (x & <- & Hin).
  destruct (Hold x Hin) as [Hndx Hiff].
  assert (Hnot : ~ In h (effects_list x)).
  { intros Hh. apply Hiff in Hh as (c' & Hc' & _). congruence. }
  destruct (Z.eqb_spec (handle x) new) as [He|Hne].
  - unfold add_effect_to_output.
    rewrite (proj2 (effect_attached_not_In _ _) Hnot).
    cbn [effects_list handle].
    split; [apply NoDup_snoc; assumption|].
    intros a. rewrite in_app_iff, Hiff. cbn [In]. split.
    + intros [(c' & Hc' & Ho)|[<-|[]]].
      * destruct (Z.eq_dec a h) as [->|Hne]; [congruence|].
        exists c'. rewrite (Hsame _ Hne). auto.
      * exists c. split; [exact Hsome|congruence].
    + intros (c' & Hc' & Ho).
      destruct (Z.eq_dec a h) as [->|Hne]; [right; left; reflexivity|].
      rewrite (Hsame _ Hne) in Hc'. left. eauto.
  - split; [exact Hndx|]. intros a. rewrite Hiff. split.
    + intros (c' & Hc' & Ho).
      destruct (Z.eq_dec a h) as [->|Hne']; [congruence|].
      exists c'. rewrite (Hsame _ Hne'). auto.
    + intros (c' & Hc' & Ho).
      destruct (Z.eq_dec a h) as [->|Hne'].
      * exfalso. apply Hne. rewrite <- Ho. congruence.
      * rewrite (Hsame _ Hne') in Hc'. eauto.
Qed.

(** Writing fields of a session other than its output. *)
Lemma outputs_hold_assign l outputs context c v :
  outputs_hold (deref l) outputs ->
  deref l context = Some c ->
  out_handle v = out_handle c ->
  outputs_hold (deref (assign l context v)) outputs.
Proof.
  intros Hold Hc Hout out_ctxt Hin. destruct (Hold out_ctxt Hin) as [Hnd Hiff].
  split; [exact Hnd|]. intros a. rewrite Hiff.
  destruct (Z.eq_dec a context) as [->|Hne].
  - rewrite (deref_assign _ _ _ _ Hc), Hc. split.
    + intros (c' & Hc' & Ho). injection Hc' as <-. exists v.
      split; [reflexivity|congruence].
    + intros (c' & Hc' & Ho). injection Hc' as <-. exists c.
      split; [reflexivity|congruence].
  - rewrite (deref_assign_other _ _ _ _ Hne). reflexivity.
Qed.

Lemma registry_assign st context c v :
  registry_consistent st ->
  deref (created_effects_list st) context = Some c ->
  out_handle v = out_handle c ->
  registry_consistent
    (with_created (assign (created_effects_list st) context v) st).
Proof.
  intros (H1 & H2 & H3) Hc Hout.
  split; [cbn; rewrite map_fst_assign; exact H1|]. split; [exact H2|].
  exact (outputs_hold_assign _ _ _ _ _ H3 Hc Hout).
Qed.

Lemma registry_add_session st context c :
  registry_consistent st ->
  effect_exists (created_effects_list st) context = false ->
  registry_consistent
    (with_outputs
       (update_output (active_outputs_list st) (out_handle c)
          (fun out_ctxt => add_effect_to_output out_ctxt context))
       (with_created (created_effects_list st ++ [(context, c)]) st)).
Proof.
  intros (H1 & H2 & H3) Hfresh.
  unfold registry_consistent, with_outputs, with_created.
  cbn [created_effects_list active_outputs_list].
  split.
  { rewrite map_app. cbn [map fst]. apply NoDup_snoc; [exact H1|].
    rewrite <- effect_exists_In, Hfresh. discriminate. }
  split.
  { rewrite map_handle_update_output; [exact H2|].
    intros x. apply handle_add_effect. }
  apply (outputs_hold_attach (deref (created_effects_list st)) _ _ _ _ c);
    [exact H2|exact H3|apply deref_None, Hfresh| |reflexivity|].
  - rewrite deref_app, (proj2 (deref_None _ _) Hfresh), Z.eqb_refl.
    reflexivity.
  - intros a Hne. rewrite deref_app.
    destruct (deref _ a); [reflexivity|].
    destruct (Z.eqb_spec context a); [congruence|reflexivity].
Qed.

Lemma registry_remove_session st context c :
  registry_consistent st ->
  deref (created_effects_list st) context = Some c ->
  registry_consistent
    (with_created (list_remove_created (created_effects_list st) context)
       (with_outputs
          (update_output (active_outputs_list st) (out_handle c)
             (fun out_ctxt => remove_effect_from_output out_ctxt context))
          st)).
Proof.
  intros (H1 & H2 & H3) Hc.
  unfold registry_consistent, with_outputs, with_created.
  cbn [created_effects_list active_outputs_list].
  split.
  { rewrite map_fst_list_remove_created. apply NoDup_list_remove_effect, H1. }
  split.
  { rewrite map_handle_update_output; [exact H2|]. reflexivity. }
  apply (outputs_hold_detach (deref (created_effects_list st)));
    [exact H2|exact H3| | |].
  - intros c' Hc'. congruence.
  - rewrite deref_list_remove_created by exact H1. rewrite Z.eqb_refl.
    reflexivity.
  - intros a Hne. rewrite deref_list_remove_created by exact H1.
    destruct (Z.eqb_spec context a); [congruence|reflexivity].
Qed.

(** [effect_lib_create], at an address that is not a created session,
    and [effect_lib_release] keep the registry consistent, whether they
    succeed or not; and [effect_lib_release] always returns. *)
Theorem registry_kept_by_create_and_release context uuid ioId pHandle handle s :
  registry_consistent (lib_globals s) ->
  (effect_exists (created_effects_list (lib_globals s)) context = false ->
   registry_consistent
     (lib_globals
        (snd (fst (effect_lib_create context uuid ioId pHandle s))))) /\
  (exists status s',
     effect_lib_release handle s = Done (status, s') /\
     registry_consistent (lib_globals s')).
Proof.
  intros H. split.
  - intros Hfresh. unfold effect_lib_create.
    destruct uuid as [u|]; [|exact H].
    destruct pHandle; cbn [negb]; [|exact H].
    destruct (uuid_eqb u visualizer_uuid); cbn [negb]; [|exact H].
    rewrite created_visu. cbn [fst snd lib_globals visu].
    exact (registry_add_session _ context (created_context ioId) H Hfresh).
  - unfold effect_lib_release.
    destruct (effect_exists _ handle) eqn:Hex; [|eauto].
    destruct (effect_exists_deref _ _ Hex) as (c & Hc). rewrite Hc.
    eexists _, _. split; [reflexivity|]. cbn [lib_globals].
    exact (registry_remove_session _ _ _ H Hc).
Qed.

Lemma registry_kept_by_create_and_release_witness :
  registry_consistent
    (lib_globals
       (snd (fst (effect_lib_create 16 (Some visualizer_uuid) 5 true
                    (mk_effect_lib_state (output_5_bound 0) ∅))))).
Proof.
  refine (proj1 (registry_kept_by_create_and_release 16 (Some visualizer_uuid)
                   5 true 16 (mk_effect_lib_state (output_5_bound 0) ∅) _)
            eq_refl).
  split; [apply NoDup_nil_2|]. split; [apply NoDup_singleton|].
  intros out_ctxt [<-|[]]. split; [apply NoDup_nil_2|].
  intros a. split; [intros []|]. intros (c & Hc & _). discriminate Hc.
Defined.

Lemma visualizer_init_out_handle context :
  out_handle (visu (snd (visualizer_init context))) = out_handle (visu context).
Proof.
  unfold visualizer_init. cbn [snd].
  set (c := mk_effect_context _ _).
  assert (Hv : valid_config (context_config c))
    by (unfold valid_config; cbn; auto 10).
  rewrite (set_config_accepts _ _ Hv). reflexivity.
Qed.

Lemma set_config_out_handle context config :
  out_handle (visu (snd (set_config context config)))
  = out_handle (visu context).
Proof.
  unfold set_config.
  repeat match goal with
         | |- context [if ?b then _ else _] => destruct b
         end; reflexivity.
Qed.

Lemma set_parameter_out_handle visu_ctxt p :
  out_handle (snd (visualizer_set_parameter visu_ctxt p))
  = out_handle visu_ctxt.
Proof.
  unfold visualizer_set_parameter.
  repeat match goal with
         | |- context [if ?b then _ else _] => destruct b
         end; reflexivity.
Qed.

Lemma visualizer_command_out_handle visu_ctxt cmdCode replySize pReplyData
    clock status visu_ctxt' reply :
  visualizer_command visu_ctxt cmdCode replySize pReplyData clock
  = Done (status, visu_ctxt', reply) ->
  out_handle visu_ctxt' = out_handle visu_ctxt.
Proof.
  unfold visualizer_command.
  destruct (cmdCode =? VISUALIZER_CMD_CAPTURE).
  - destruct pReplyData as [r|].
    + destruct (negb (replySize =? capture_size visu_ctxt)).
      * intros H. apply Done_triple_inj in H as (_ & <- & _). reflexivity.
      * destruct (negb (offload_enabled visu_ctxt)).
        -- intros H. apply Done_triple_inj in H as (_ & <- & _). reflexivity.
        -- destruct (state visu_ctxt =? EFFECT_STATE_ACTIVE).
           ++ destruct (capture_delta visu_ctxt clock) as [delta_ms latency_ms].
              destruct (capture_copy _ _ _) as [r1| |]; cbn [obind];
                [|discriminate|discriminate].
              destruct (capture_stall _ _ _ _) as [r2| |] eqn:Hstall;
                cbn [obind]; [|discriminate|discriminate].
              intros H. apply Done_triple_inj in H as (_ & <- & _).
              apply capture_stall_settings in Hstall as [Hs _].
              apply Hs.
           ++ destruct (memset _ _ _ _) as [r1| |]; cbn [obind];
                [|discriminate|discriminate].
              intros H. apply Done_triple_inj in H as (_ & <- & _).
              reflexivity.
    + intros H. apply Done_triple_inj in H as (_ & <- & _). reflexivity.
  - intros H. apply Done_triple_inj in H as (_ & <- & _). reflexivity.
Qed.

Lemma set_out_handle_same v c : out_handle c = v -> set_out_handle v c = c.
Proof. intros <-. destruct c. reflexivity. Qed.

(** [EFFECT_CMD_OFFLOAD] after its guard. *)
Lemma registry_command_offload st self c offload_param :
  registry_consistent st ->
  deref (created_effects_list st) self = Some c ->
  registry_consistent
    (command_offload st self c offload_param) /\
  deref (created_effects_list
           (command_offload st self c offload_param))
    self
  = Some (set_out_handle (ioHandle offload_param)
            (set_offload_enabled (isOffload offload_param) c)) /\
  (forall other, other <> self ->
     deref (created_effects_list
              (command_offload st self c offload_param))
       other
     = deref (created_effects_list st) other) /\
  map handle
    (active_outputs_list
       (command_offload st self c offload_param))
  = map handle (active_outputs_list st).
Proof.
  intros H Hc. unfold command_offload.
  change (out_handle (set_offload_enabled (isOffload offload_param) c))
    with (out_handle c).
  destruct (Z.eqb_spec (out_handle c) (ioHandle offload_param)) as [He|Hne].
  - split; [apply (registry_assign _ _ _ _ H Hc); reflexivity|].
    unfold with_created. cbn [created_effects_list active_outputs_list].
    split; [|split; [|reflexivity]].
    + rewrite (deref_assign _ _ _ _ Hc). f_equal. symmetry.
      apply set_out_handle_same. exact He.
    + intros other Hne. apply deref_assign_other, Hne.
  - unfold with_created, with_outputs.
    cbn [created_effects_list active_outputs_list].
    split; [|split; [|split]].
    + destruct H as (H1 & H2 & H3).
      unfold registry_consistent.
      cbn [created_effects_list active_outputs_list].
      split; [rewrite map_fst_assign; exact H1|]. split.
      { rewrite !map_handle_update_output; [exact H2|reflexivity|].
        intros x. apply handle_add_effect. }
      apply (outputs_hold_attach
               (fun a => if a =? self then None
                         else deref (created_effects_list st) a)
               _ _ _ _
               (set_out_handle (ioHandle offload_param)
                  (set_offload_enabled (isOffload offload_param) c))).
      * rewrite map_handle_update_output; [exact H2|reflexivity].
      * apply (outputs_hold_detach (deref (created_effects_list st)));
          [exact H2|exact H3| | |].
        -- intros c' Hc'. congruence.
        -- rewrite Z.eqb_refl. reflexivity.
        -- intros a Ha. destruct (Z.eqb_spec a self); [contradiction|reflexivity].
      * rewrite Z.eqb_refl. reflexivity.
      * apply (deref_assign _ _ _ _ Hc).
      * reflexivity.
      * intros a Ha. rewrite (deref_assign_other _ _ _ _ Ha).
        destruct (Z.eqb_spec a self); [contradiction|reflexivity].
    + apply (deref_assign _ _ _ _ Hc).
    + intros other Ho. apply deref_assign_other, Ho.
    + rewrite !map_handle_update_output; [reflexivity|reflexivity|].
      intros x. apply handle_add_effect.
Qed.

Ltac registry_leaf H Hv :=
  let E := fresh in
  cbv zeta; intros E; apply Done_triple_inj in E as (_ & <- & _);
  first
    [exact H
    |unfold assign_context, assign_visu; cbn [lib_globals];
     apply (registry_assign _ _ _ _ H Hv);
     first [apply visualizer_init_out_handle
           |apply set_config_out_handle
           |apply set_parameter_out_handle
           |reflexivity]].

(** Every command keeps the registry consistent: whatever
    [effect_command] is asked and whatever it answers, the created
    sessions keep distinct addresses, the bound outputs distinct handles,
    and every bound output holds exactly the created sessions of that
    output.  This covers [EFFECT_CMD_OFFLOAD], which moves a session from
    the binding of one output to that of another. *)
Theorem registry_kept_by_command sizeof_effect_config_t s self cmdCode cmdSize
    pCmdData replySize pReplyData clock status s' reply :
  registry_consistent (lib_globals s) ->
  effect_command sizeof_effect_config_t s self cmdCode cmdSize pCmdData
    replySize pReplyData clock
  = Done (status, s', reply) ->
  registry_consistent (lib_globals s').
Proof.
  intros H. unfold effect_command.
  destruct (effect_exists _ self); cbn [negb]; [|registry_leaf H H].
  destruct (deref_context s self) as [context|] eqn:Hctx; [|discriminate].
  pose proof (proj1 (deref_context_parts _ _ _ Hctx)) as Hv.
  destruct (state (visu context) =? EFFECT_STATE_UNINITIALIZED);
    [registry_leaf H Hv|].
  destruct (cmdCode =? EFFECT_CMD_INIT).
  { destruct (negb _); registry_leaf H Hv. }
  destruct (cmdCode =? EFFECT_CMD_SET_CONFIG).
  { destruct pCmdData; [|registry_leaf H Hv].
    destruct (_ || _); registry_leaf H Hv. }
  destruct (cmdCode =? EFFECT_CMD_GET_CONFIG).
  { destruct pReplyData; [|registry_leaf H Hv].
    destruct (negb _); [registry_leaf H Hv|].
    destruct (negb _); registry_leaf H Hv. }
  destruct (cmdCode =? EFFECT_CMD_RESET); [registry_leaf H Hv|].
  destruct (cmdCode =? EFFECT_CMD_ENABLE).
  { destruct (negb _); [registry_leaf H Hv|].
    destruct (negb _); registry_leaf H Hv. }
  destruct (cmdCode =? EFFECT_CMD_DISABLE).
  { destruct (negb _); [registry_leaf H Hv|].
    destruct (negb _); registry_leaf H Hv. }
  destruct (cmdCode =? EFFECT_CMD_GET_PARAM).
  { destruct pCmdData; [|registry_leaf H Hv].
    destruct pReplyData; [|registry_leaf H Hv].
    destruct (_ || _); [registry_leaf H Hv|].
    destruct (negb _); registry_leaf H Hv. }
  destruct (cmdCode =? EFFECT_CMD_SET_PARAM).
  { destruct pCmdData; [|registry_leaf H Hv].
    destruct (_ || _); registry_leaf H Hv. }
  destruct (_ || _); [registry_leaf H Hv|].
  destruct (cmdCode =? EFFECT_CMD_OFFLOAD).
  { destruct pCmdData as [cmd|]; [|registry_leaf H Hv].
    destruct (_ || _); [registry_leaf H Hv|].
    intros E. apply Done_triple_inj in E as (_ & <- & _). cbn [lib_globals].
    apply (registry_command_offload _ _ _ _ H Hv). }
  destruct (cmdCode >=? EFFECT_CMD_FIRST_PROPRIETARY); [|registry_leaf H Hv].
  destruct (visualizer_command _ _ _ _ _) as [[[st c] rp]| |] eqn:Hvc;
    cbn [obind fst snd]; [|discriminate|discriminate].
  intros E. apply Done_triple_inj in E as (_ & <- & _).
  unfold assign_visu. cbn [lib_globals].
  apply (registry_assign _ _ _ _ H Hv).
  apply (visualizer_command_out_handle _ _ _ _ _ _ _ _ Hvc).
Qed.

Lemma registry_kept_by_command_witness :
  registry_consistent
    (lib_globals
       (assign_visu
          (mk_effect_lib_state (one_session (created_context 5))
             {[ 16 := stereo_config 44100 ]})
          16 (set_state EFFECT_STATE_ACTIVE (created_context 5)))).
Proof.
  assert (E : effect_command 40
                (mk_effect_lib_state (one_session (created_context 5))
                   {[ 16 := stereo_config 44100 ]})
                16 EFFECT_CMD_ENABLE 0 None 4 (Some [0; 0; 0; 0]) None
              = Done (0,
                      assign_visu
                        (mk_effect_lib_state (one_session (created_context 5))
                           {[ 16 := stereo_config 44100 ]})
                        16 (set_state EFFECT_STATE_ACTIVE (created_context 5)),
                      ReplyInt 0)) by reflexivity.
  refine (registry_kept_by_command _ _ _ _ _ _ _ _ _ _ _ _ _ E).
  split; [apply NoDup_singleton|]. split; [apply NoDup_nil_2|].
  intros out_ctxt [].
Defined.

(** [EFFECT_CMD_OFFLOAD] on a created session, with a well-formed
    request: it returns 0 and answers 0; the session takes the offload
    flag and the output of the request and keeps its other fields; the
    other sessions, the stored configurations and the set of bound outputs
    are as before; and afterwards the bound outputs that hold the session
    are exactly those of handle [ioHandle]: the session has left the
    binding of its former output. *)
Theorem offload_rebinds_session sizeof_effect_config_t s self context cmd
    reply clock :
  registry_consistent (lib_globals s) ->
  deref_context s self = Some context ->
  state (visu context) <> EFFECT_STATE_UNINITIALIZED ->
  exists s',
    effect_command sizeof_effect_config_t s self EFFECT_CMD_OFFLOAD
      sizeof_effect_offload_param_t (Some cmd) sizeof_int (Some reply) clock
    = Done (0, s', ReplyInt 0) /\
    deref (created_effects_list (lib_globals s')) self
    = Some (set_out_handle (ioHandle (as_offload cmd))
              (set_offload_enabled (isOffload (as_offload cmd))
                 (visu context))) /\
    (forall other, other <> self ->
       deref (created_effects_list (lib_globals s')) other
       = deref (created_effects_list (lib_globals s)) other) /\
    lib_configs s' = lib_configs s /\
    map handle (active_outputs_list (lib_globals s'))
    = map handle (active_outputs_list (lib_globals s)) /\
    (forall out_ctxt, In out_ctxt (active_outputs_list (lib_globals s')) ->
       (In self (effects_list out_ctxt)
        <-> handle out_ctxt = ioHandle (as_offload cmd))).
Proof.
  intros H Hctx Hst.
  pose proof (proj1 (deref_context_parts _ _ _ Hctx)) as Hv.
  unfold effect_command. rewrite Hctx, (deref_effect_exists _ _ _ Hv).
  cbn [negb].
  destruct (Z.eqb_spec (state (visu context)) EFFECT_STATE_UNINITIALIZED);
    [contradiction|].
  change (EFFECT_CMD_OFFLOAD =? EFFECT_CMD_INIT) with false.
  change (EFFECT_CMD_OFFLOAD =? EFFECT_CMD_SET_CONFIG) with false.
  change (EFFECT_CMD_OFFLOAD =? EFFECT_CMD_GET_CONFIG) with false.
  change (EFFECT_CMD_OFFLOAD =? EFFECT_CMD_RESET) with false.
  change (EFFECT_CMD_OFFLOAD =? EFFECT_CMD_ENABLE) with false.
  change (EFFECT_CMD_OFFLOAD =? EFFECT_CMD_DISABLE) with false.
  change (EFFECT_CMD_OFFLOAD =? EFFECT_CMD_GET_PARAM) with false.
  change (EFFECT_CMD_OFFLOAD =? EFFECT_CMD_SET_PARAM) with false.
  change (EFFECT_CMD_OFFLOAD =? EFFECT_CMD_SET_DEVICE) with false.
  change (EFFECT_CMD_OFFLOAD =? EFFECT_CMD_SET_VOLUME) with false.
  change (EFFECT_CMD_OFFLOAD =? EFFECT_CMD_SET_AUDIO_MODE) with false.
  change (EFFECT_CMD_OFFLOAD =? EFFECT_CMD_OFFLOAD) with true.
  cbv iota. cbn [orb]. unfold int_reply_expected. rewrite !Z.eqb_refl.
  cbn [negb orb].
  eexists. split; [reflexivity|]. cbn [lib_globals lib_configs].
  destruct (registry_command_offload _ _ _ (as_offload cmd) H Hv)
    as (Hreg & Hself & Hother & Hhandles).
  split; [exact Hself|]. split; [exact Hother|]. split; [reflexivity|].
  split; [exact Hhandles|].
  intros out_ctxt Hin. destruct Hreg as (_ & _ & H3).
  destruct (H3 out_ctxt Hin) as [_ Hiff]. rewrite Hiff, Hself. split.
  - intros (c & Hc & Ho). injection Hc as <-. symmetry. exact Ho.
  - intros ->. eexists. split; reflexivity.
Qed.

Lemma offload_rebinds_session_witness :
  exists s',
    effect_command 40
      (mk_effect_lib_state
         (mk_lib_state [(16, created_context 5)]
            [mk_output_context 5 [16]; mk_output_context 6 []] false 0)
         {[ 16 := stereo_config 44100 ]})
      16 EFFECT_CMD_OFFLOAD 8
      (Some (mk_cmd_data (stereo_config 44100) (mk_effect_param 0 0 0 0)
               (mk_effect_offload_param true 6)))
      4 (Some [0; 0; 0; 0]) None
    = Done (0, s', ReplyInt 0) /\
    forall out_ctxt, In out_ctxt (active_outputs_list (lib_globals s')) ->
      (In 16 (effects_list out_ctxt) <-> handle out_ctxt = 6).
Proof.
  assert (Hctx : deref_context
                   (mk_effect_lib_state
                      (mk_lib_state [(16, created_context 5)]
                         [mk_output_context 5 [16]; mk_output_context 6 []]
                         false 0)
                      {[ 16 := stereo_config 44100 ]}) 16
                 = Some (mk_effect_context (stereo_config 44100)
                           (created_context 5))) by reflexivity.
  assert (Hreg : registry_consistent
                   (mk_lib_state [(16, created_context 5)]
                      [mk_output_context 5 [16]; mk_output_context 6 []]
                      false 0)).
  { split; [apply NoDup_singleton|]. split.
    { apply NoDup_cons_2; [|apply NoDup_singleton].
      rewrite list_elem_of_In. intros [H|[]]. discriminate H. }
    intros out_ctxt [<-|[<-|[]]]; cbn [effects_list handle created_effects_list].
    - split; [apply NoDup_singleton|]. intros a. split.
      + intros [<-|[]]. exists (created_context 5). split; reflexivity.
      + intros (c & Hc & _). cbn [deref] in Hc.
        destruct (Z.eqb_spec 16 a); [left; assumption|discriminate].
    - split; [apply NoDup_nil_2|]. intros a. split; [intros []|].
      intros (c & Hc & Ho). cbn [deref] in Hc.
      destruct (16 =? a); [|discriminate].
      apply (f_equal (fun o => match o with
                               | Some x => out_handle x
                               | None => 0
                               end)) in Hc.
      change (5 = out_handle c) in Hc. congruence. }
  destruct (offload_rebinds_session 40
              (mk_effect_lib_state
                 (mk_lib_state [(16, created_context 5)]
                    [mk_output_context 5 [16]; mk_output_context 6 []]
                    false 0)
                 {[ 16 := stereo_config 44100 ]})
              16 _
              (mk_cmd_data (stereo_config 44100) (mk_effect_param 0 0 0 0)
                 (mk_effect_offload_param true 6))
              [0; 0; 0; 0] None Hreg Hctx)
    as (s' & E & _ & _ & _ & _ & Hheld).
  { intros Hs.
    change (EFFECT_STATE_INITIALIZED = EFFECT_STATE_UNINITIALIZED) in Hs.
    discriminate Hs. }
  exists s'. split; [exact E|exact Hheld].
Defined.

(** ** The capture thread *)

Lemma process_context_done visu_ctxt fc s16 clock :
  wf_context visu_ctxt -> wf_block fc s16 ->
  exists status visu_ctxt',
    process_context visu_ctxt fc s16 clock = Done (status, visu_ctxt') /\
    wf_context visu_ctxt'.
Proof.
  intros Hwf Hblock.
  destruct (visualizer_process_done (one_session visu_ctxt) 16 visu_ctxt fc
              s16 s16 clock eq_refl Hwf Hblock)
    as (shift & buf' & Hshift & Hloop & _ & Hlen & _).
  destruct Hwf as (Hlen0 & Hidx & Hmode). destruct Hblock as (Hpos & _ & _).
  pose proof (cursor_after_range (capture_idx visu_ctxt) (Z.to_nat fc) Hidx
                ltac:(lia)) as Hc.
  unfold process_context. rewrite Hshift. cbn [obind]. rewrite Hloop.
  cbn [obind fst snd].
  assert (Hwf' : forall t,
             wf_context
               (set_buffer_update_time t
                  (set_capture_idx (cursor_after (capture_idx visu_ctxt)
                                      (Z.to_nat fc))
                     (set_capture_buf buf' visu_ctxt)))).
  { intros t. unfold wf_context. cbn. rewrite Hlen.
    split; [exact Hlen0|]. split; [lia|exact Hmode]. }
  destruct clock as [ts|];
    cbn [state set_buffer_update_time set_capture_idx set_capture_buf];
    destruct (state visu_ctxt =? EFFECT_STATE_ACTIVE); cbn [negb];
    eexists _, _; (split; [reflexivity|apply Hwf']).
Qed.

Lemma visualizer_process_context st context visu_ctxt fc s16 o16 clock status
    visu_ctxt' :
  deref (created_effects_list st) context = Some visu_ctxt ->
  fc <> 0 ->
  process_context visu_ctxt fc s16 clock = Done (status, visu_ctxt') ->
  visualizer_process st context
    (Some (mk_audio_buffer fc (Some s16)))
    (Some (mk_audio_buffer fc (Some o16))) clock
  = Done (status,
          mk_lib_state (assign (created_effects_list st) context visu_ctxt')
            (active_outputs_list st) (exit_thread st) (thread_status st)).
Proof.
  intros Hderef Hfc Hpc. unfold visualizer_process.
  rewrite (deref_effect_exists _ _ _ Hderef). cbn [negb raw frameCount].
  rewrite Z.eqb_refl. cbn [negb orb].
  destruct (Z.eqb_spec fc 0); [contradiction|].
  rewrite Hderef, Hpc. reflexivity.
Qed.

Lemma process_effects_app buf clock l1 : forall l2 st n,
  process_effects st (l1 ++ l2) buf clock n
  = do r <- process_effects st l1 buf clock n;
    process_effects (fst r) l2 buf clock (snd r).
Proof.
  induction l1 as [|a l1 IH]; intros l2 st n; cbn; [reflexivity|].
  destruct (negb (effect_exists _ a)); [reflexivity|].
  destruct (visualizer_process _ _ _ _ _) as [r| |]; cbn [obind];
    [|reflexivity|reflexivity].
  apply IH.
Qed.

Lemma process_outputs_concat buf clock outputs : forall st n,
  process_outputs st outputs buf clock n
  = process_effects st (concat (map effects_list outputs)) buf clock n.
Proof.
  induction outputs as [|x outputs IH]; intros st n; cbn; [reflexivity|].
  rewrite process_effects_app.
  destruct (process_effects st (effects_list x) buf clock n) as [r| |];
    cbn [obind]; [|reflexivity|reflexivity].
  apply IH.
Qed.

(** The inner loop, on sessions that exist and are well formed, each
    listed once. *)
Lemma process_effects_spec fc s16 clock effects : forall st n,
  wf_block fc s16 ->
  NoDup effects ->
  (forall a, In a effects ->
     exists c, deref (created_effects_list st) a = Some c /\ wf_context c) ->
  exists st',
    process_effects st effects (mk_audio_buffer fc (Some s16)) clock n
    = Done (st', (n + length effects)%nat) /\
    active_outputs_list st' = active_outputs_list st /\
    map fst (created_effects_list st') = map fst (created_effects_list st) /\
    forall a c, deref (created_effects_list st) a = Some c ->
      (~ In a effects -> deref (created_effects_list st') a = Some c) /\
      (In a effects ->
       exists k status c',
         process_context c fc s16 (clock k) = Done (status, c') /\
         deref (created_effects_list st') a = Some c').
Proof.
  induction effects as [|a0 effects IH]; intros st n Hblock Hnd Hex.
  - exists st. cbn [process_effects length]. rewrite Nat.add_0_r.
    split; [reflexivity|]. split; [reflexivity|]. split; [reflexivity|].
    intros a c Hc. split; [auto|intros []].
  - apply NoDup_cons in Hnd as [Ha0 Hnd]. rewrite list_elem_of_In in Ha0.
    destruct (Hex a0 (or_introl eq_refl)) as (c0 & Hc0 & Hwf0).
    destruct (process_context_done c0 fc s16 (clock n) Hwf0 Hblock)
      as (status0 & c0' & Hpc0 & Hwf0').
    assert (Hfc : fc <> 0) by (destruct Hblock; lia).
    cbn [process_effects].
    rewrite (deref_effect_exists _ _ _ Hc0). cbn [negb].
    rewrite (visualizer_process_context st a0 c0 fc s16 s16 (clock n) status0
               c0' Hc0 Hfc Hpc0).
    cbn [obind snd].
    set (st1 := mk_lib_state _ _ _ _).
    destruct (IH st1 (S n) Hblock Hnd) as (st' & Hrun & Ho & Hm & Hall).
    { intros a Ha. destruct (Hex a (or_intror Ha)) as (c & Hc & Hwf).
      exists c. split; [|exact Hwf]. cbn [st1 created_effects_list].
      rewrite deref_assign_other; [exact Hc|]. intros ->. contradiction. }
    exists st'. split.
    { rewrite Hrun. cbn [length]. rewrite Nat.add_succ_r. reflexivity. }
    split; [rewrite Ho; reflexivity|]. split.
    { rewrite Hm. cbn [st1 created_effects_list]. apply map_fst_assign. }
    intros a c Hc. destruct (Z.eq_dec a a0) as [->|Hne].
    + assert (c = c0) by congruence. subst c.
      assert (H1 : deref (created_effects_list st1) a0 = Some c0')
        by (cbn [st1 created_effects_list]; apply (deref_assign _ _ _ _ Hc0)).
      split; [intros Hn; exfalso; apply Hn; left; reflexivity|].
      intros _. exists n, status0, c0'. split; [exact Hpc0|].
      apply (proj1 (Hall a0 c0' H1) Ha0).
    + assert (H1 : deref (created_effects_list st1) a = Some c).
      { cbn [st1 created_effects_list].
        rewrite deref_assign_other; [exact Hc|exact Hne]. }
      destruct (Hall a c H1) as [Hout Hin]. split.
      * intros Hn. apply Hout. intros Ha. apply Hn. right. exact Ha.
      * intros [He|Ha]; [congruence|]. apply Hin, Ha.
Qed.

Lemma outputs_hold_tail sessions x outputs :
  outputs_hold sessions (x :: outputs) -> outputs_hold sessions outputs.
Proof. intros H out_ctxt Hin. apply H. right. exact Hin. Qed.

Lemma outputs_hold_NoDup_concat sessions outputs :
  NoDup (map handle outputs) -> outputs_hold sessions outputs ->
  NoDup (concat (map effects_list outputs)).
Proof.
  induction outputs as [|x outputs IH]; cbn; [intros; apply NoDup_nil_2|].
  intros Hnd Hold. apply NoDup_cons in Hnd as [Hx Hnd].
  rewrite list_elem_of_In in Hx.
  apply NoDup_app. split; [apply (Hold x), or_introl, eq_refl|].
  split; [|apply IH; [exact Hnd|exact (outputs_hold_tail _ _ _ Hold)]].
  intros a Ha Ha'. rewrite list_elem_of_In in Ha, Ha'.
  apply in_concat in Ha' as (l & Hl & Hal).
  apply in_map_iff in Hl as (y & <- & Hy).
  apply (Hold x (or_introl eq_refl)) in Ha as (c & Hc & Ho).
  apply (Hold y (or_intror Hy)) in Hal as (c' & Hc' & Ho').
  apply Hx. replace (handle x) with (handle y) by congruence.
  apply in_map, Hy.
Qed.

Lemma outputs_hold_In_concat sessions outputs a :
  outputs_hold sessions outputs ->
  (In a (concat (map effects_list outputs)) <->
   exists c, sessions a = Some c /\
             get_output outputs (out_handle c) <> None).
Proof.
  intros Hold. rewrite in_concat. split.
  - intros (l & Hl & Hal). apply in_map_iff in Hl as (y & <- & Hy).
    apply (Hold y Hy) in Hal as (c & Hc & Ho). exists c. split; [exact Hc|].
    rewrite get_output_None_In, Ho. intros Hn. apply Hn, in_map, Hy.
  - intros (c & Hc & Hb).
    destruct (get_output outputs (out_handle c)) as [y|] eqn:Hg; [|congruence].
    exists (effects_list y). split.
    + apply in_map, (get_output_Some_In _ _ _ Hg).
    + apply (Hold y (get_output_Some_In _ _ _ Hg)). exists c.
      split; [exact Hc|]. symmetry. apply (get_output_handle _ _ _ Hg).
Qed.

(** A block read by the capture thread reaches every session whose output
    is bound, once, and no other session.  On a consistent registry of
    well-formed sessions the loop over the bound outputs and their effects
    runs to its end: it dereferences no released session.  Afterwards a
    session of a bound output is as one call of [visualizer_process] on it
    leaves it, the sessions of the other outputs are as before, the bound
    outputs are as before, and the registry is still consistent. *)
Theorem process_block_delivers_once st fc s16 clock :
  registry_consistent st ->
  (forall a c, deref (created_effects_list st) a = Some c -> wf_context c) ->
  wf_block fc s16 ->
  exists st',
    process_block st (mk_audio_buffer fc (Some s16)) clock = Done st' /\
    registry_consistent st' /\
    active_outputs_list st' = active_outputs_list st /\
    forall a c, deref (created_effects_list st) a = Some c ->
      (get_output (active_outputs_list st) (out_handle c) = None ->
       deref (created_effects_list st') a = Some c) /\
      (get_output (active_outputs_list st) (out_handle c) <> None ->
       exists k status c',
         process_context c fc s16 (clock k) = Done (status, c') /\
         deref (created_effects_list st') a = Some c').
Proof.
  intros (H1 & H2 & H3) Hwf Hblock. unfold process_block.
  rewrite process_outputs_concat.
  destruct (process_effects_spec fc s16 clock
              (concat (map effects_list (active_outputs_list st))) st 0%nat
              Hblock (outputs_hold_NoDup_concat _ _ H2 H3))
    as (st' & Hrun & Ho & Hm & Hall).
  { intros a Ha. apply (outputs_hold_In_concat _ _ _ H3) in Ha as (c & Hc & _).
    exists c. split; [exact Hc|apply (Hwf _ _ Hc)]. }
  exists st'. rewrite Hrun. cbn [obind fst]. split; [reflexivity|].
  assert (Hdeliver : forall a c,
             deref (created_effects_list st) a = Some c ->
             (get_output (active_outputs_list st) (out_handle c) = None ->
              deref (created_effects_list st') a = Some c) /\
             (get_output (active_outputs_list st) (out_handle c) <> None ->
              exists k status c',
                process_context c fc s16 (clock k) = Done (status, c') /\
                deref (created_effects_list st') a = Some c')).
  { intros a c Hc. destruct (Hall a c Hc) as [Hout Hin]. split.
    - intros Hg. apply Hout.
      rewrite (outputs_hold_In_concat _ _ _ H3). intros (c' & Hc' & Hb).
      apply Hb. congruence.
    - intros Hg. apply Hin. apply (outputs_hold_In_concat _ _ _ H3).
      exists c. auto. }
  assert (Hhandle : forall a,
             option_map out_handle (deref (created_effects_list st') a)
             = option_map out_handle (deref (created_effects_list st) a)).
  { intros a. destruct (deref (created_effects_list st) a) as [c|] eqn:Hc.
    - destruct (Hdeliver a c Hc) as [Hout Hin].
      destruct (get_output (active_outputs_list st) (out_handle c)) eqn:Hg.
      + destruct Hin as (k & status & c' & Hpc & Hc'); [discriminate|].
        rewrite Hc'. cbn. f_equal.
        apply (process_context_settings _ _ _ _ _ _ Hpc).
      + rewrite (Hout eq_refl). reflexivity.
    - apply deref_None, not_true_iff_false in Hc.
      rewrite effect_exists_In, <- Hm, <- effect_exists_In in Hc.
      apply not_true_iff_false, deref_None in Hc. rewrite Hc. reflexivity. }
  split; [|split; [exact Ho|exact Hdeliver]].
  split; [rewrite Hm; exact H1|]. split; [rewrite Ho; exact H2|].
  rewrite Ho. intros out_ctxt Hin. destruct (H3 out_ctxt Hin) as [Hnd Hiff].
  split; [exact Hnd|]. intros a. rewrite Hiff. specialize (Hhandle a).
  destruct (deref (created_effects_list st') a) as [c'|],
           (deref (created_effects_list st) a) as [c|];
    cbn in Hhandle; try discriminate Hhandle.
  - injection Hhandle as Hh. split; intros (x & Hx & Hxo).
    + exists c'. split; [reflexivity|]. congruence.
    + exists c. split; [reflexivity|]. congruence.
  - split; intros (x & Hx & _); discriminate Hx.
Qed.

Lemma process_block_delivers_once_witness :
  exists st',
    process_block
      (mk_lib_state [(16, created_context 5)] [mk_output_context 5 [16]]
         false 0)
      (mk_audio_buffer 1 (Some loud_frame)) (fun _ => None)
    = Done st' /\
    registry_consistent st' /\
    active_outputs_list st' = [mk_output_context 5 [16]].
Proof.
  destruct (process_block_delivers_once
              (mk_lib_state [(16, created_context 5)]
                 [mk_output_context 5 [16]] false 0)
              1 loud_frame (fun _ => None))
    as (st' & Hrun & Hreg & Ho & _).
  - split; [apply NoDup_singleton|]. split; [apply NoDup_singleton|].
    intros out_ctxt [<-|[]]. cbn [effects_list handle created_effects_list].
    split; [apply NoDup_singleton|]. intros a. split.
    + intros [<-|[]]. exists (created_context 5). split; reflexivity.
    + intros (c & Hc & _). cbn [deref] in Hc.
      destruct (Z.eqb_spec 16 a); [left; assumption|discriminate].
  - intros a c Hc. cbn [deref created_effects_list] in Hc.
    destruct (16 =? a); [|discriminate].
    apply (f_equal (fun o => match o with Some x => x | None => c end)) in Hc.
    cbv beta iota in Hc. rewrite <- Hc. apply created_context_wf.
  - split; [lia|]. split; [lia|reflexivity].
  - exists st'. split; [exact Hrun|]. split; [exact Hreg|exact Ho].
Defined.






Lemma deref_context_assign_context s self context v :
  deref_context s self = Some context ->
  deref_context (assign_context s self v) self = Some v.
Proof.
  intros H. apply deref_context_parts in H as [Hv _].
  unfold deref_context, assign_context, with_created.
  cbn [lib_globals lib_configs created_effects_list].
  rewrite (deref_assign _ _ _ _ Hv), lookup_insert_eq.
  destruct v. reflexivity.
Qed.

(** A configuration goes through the command interface and comes back.
    On a created session, SET_CONFIG with a configuration [set_config]
    accepts returns 0 and answers 0; GET_CONFIG then replies that very
    configuration when offload is enabled on the session, and returns
    -EINVAL without a reply when it is not. *)
Theorem config_round_trip_needs_offload sizeof_effect_config_t s self context
    cmd reply cmdSize' pCmdData' reply' clock clock' :
  deref_context s self = Some context ->
  state (visu context) <> EFFECT_STATE_UNINITIALIZED ->
  valid_config (as_config cmd) ->
  exists s1,
    effect_command sizeof_effect_config_t s self EFFECT_CMD_SET_CONFIG
      sizeof_effect_config_t (Some cmd) sizeof_int (Some reply) clock
    = Done (0, s1, ReplyInt 0) /\
    effect_command sizeof_effect_config_t s1 self EFFECT_CMD_GET_CONFIG
      cmdSize' pCmdData' sizeof_effect_config_t (Some reply') clock'
    = if offload_enabled (visu context)
      then Done (0, s1, ReplyConfig (as_config cmd))
      else Done (- EINVAL, s1, ReplyUntouched).
Proof.
  intros Hctx Hst Hvalid.
  pose proof (proj1 (deref_context_parts _ _ _ Hctx)) as Hv.
  exists (assign_context s self (snd (set_config context (as_config cmd)))).
  split.
  - unfold effect_command. rewrite Hctx, (deref_effect_exists _ _ _ Hv).
    cbn [negb].
    destruct (Z.eqb_spec (state (visu context)) EFFECT_STATE_UNINITIALIZED);
      [contradiction|].
    change (EFFECT_CMD_SET_CONFIG =? EFFECT_CMD_INIT) with false.
    change (EFFECT_CMD_SET_CONFIG =? EFFECT_CMD_SET_CONFIG) with true.
    cbv iota. unfold int_reply_expected. rewrite !Z.eqb_refl. cbn [negb orb].
    cbv zeta. rewrite (set_config_accepts _ _ Hvalid). reflexivity.
  - pose proof (deref_context_assign_context s self context
                  (snd (set_config context (as_config cmd))) Hctx) as Hctx1.
    pose proof (proj1 (deref_context_parts _ _ _ Hctx1)) as Hv1.
    unfold effect_command. rewrite Hctx1, (deref_effect_exists _ _ _ Hv1).
    cbn [negb]. rewrite (set_config_accepts _ _ Hvalid). cbn [snd visu].
    change (state (snd (visualizer_reset
                          (set_samplingRate
                             (cfg_samplingRate (inputCfg (as_config cmd)))
                             (visu context)))))
      with (state (visu context)).
    change (offload_enabled
              (snd (visualizer_reset
                      (set_samplingRate
                         (cfg_samplingRate (inputCfg (as_config cmd)))
                         (visu context)))))
      with (offload_enabled (visu context)).
    destruct (Z.eqb_spec (state (visu context)) EFFECT_STATE_UNINITIALIZED);
      [contradiction|].
    change (EFFECT_CMD_GET_CONFIG =? EFFECT_CMD_INIT) with false.
    change (EFFECT_CMD_GET_CONFIG =? EFFECT_CMD_SET_CONFIG) with false.
    change (EFFECT_CMD_GET_CONFIG =? EFFECT_CMD_GET_CONFIG) with true.
    cbv iota. rewrite Z.eqb_refl. cbn [negb].
    destruct (offload_enabled (visu context)); cbn [negb]; [|reflexivity].
    do 3 f_equal.
    change (context_config
              (assign_config (as_config cmd) context) = as_config cmd).
    apply context_config_assign.
Qed.

Lemma config_round_trip_needs_offload_witness :
  exists s1,
    effect_command 40
      (mk_effect_lib_state (one_session (created_context 5))
         {[ 16 := stereo_config 44100 ]})
      16 EFFECT_CMD_SET_CONFIG 40
      (Some (mk_cmd_data (stereo_config 48000) (mk_effect_param 0 0 0 0)
               (mk_effect_offload_param false 0)))
      4 (Some [0; 0; 0; 0]) None
    = Done (0, s1, ReplyInt 0) /\
    effect_command 40 s1 16 EFFECT_CMD_GET_CONFIG 0 None 40 (Some []) None
    = Done (- EINVAL, s1, ReplyUntouched).
Proof.
  assert (Hctx : deref_context
                   (mk_effect_lib_state (one_session (created_context 5))
                      {[ 16 := stereo_config 44100 ]}) 16
                 = Some (mk_effect_context (stereo_config 44100)
                           (created_context 5))) by reflexivity.
  assert (Hvalid : valid_config (stereo_config 48000))
    by (unfold valid_config; cbn; auto 10).
  destruct (config_round_trip_needs_offload 40 _ 16 _
              (mk_cmd_data (stereo_config 48000) (mk_effect_param 0 0 0 0)
                 (mk_effect_offload_param false 0))
              [0; 0; 0; 0] 0 None [] None None Hctx)
    as (s1 & H1 & H2); [|exact Hvalid|].
  { intros Hs.
    change (EFFECT_STATE_INITIALIZED = EFFECT_STATE_UNINITIALIZED) in Hs.
    discriminate Hs. }
  exists s1. split; [exact H1|exact H2].
Defined.
